(** * Harvesting scripts of 2025-2-psat-datamining: model and properties

    The repository holds five batch scripts:
    - [digital_study/geocoding_xy.py] and [kiosk/geocoding_public.py]
      (address geocoding, one remote query per input row),
    - [kiosk/geocoding_bank.py] (paginated place search with two filters),
    - [kiosk/public_api.py] (open-data harvesting by row ranges),
    - [kiosk/kiosk_crawler.py] (listing-page crawler on a worker pool).

    The scripts are dynamically typed Python over decoded JSON, so the
    embedding keeps Python's values ([pyval]), its exceptions ([exn]) and the
    [try]/[except] structure of the source.  The remote side is an oracle
    [remote] whose answer may depend on every exchange made before; the list
    of exchanges made so far is the only state threaded through the
    harvesting functions ([Net]).  Console output of the harvesting functions
    and the pauses ([time.sleep]) are left out; the messages printed by the
    [main] functions are kept as [msg] values. *)

From Stdlib Require Import ZArith List String Ascii Bool Lia.
From Stdlib Require Import Floats.SpecFloat.
From Stdlib Require Import Sorting.Permutation.
Import ListNotations.

Local Open Scope string_scope.
Local Open Scope list_scope.
Local Open Scope Z_scope.

Set Warnings "-register-all".

(** ** Python values and exceptions *)

(** A decoded JSON document.  A [PDict] is an association list in which the
    first binding of a key is the one seen by lookups; a decoded document has
    each key once.  A [PStr] holds the UTF-8 bytes of the Python string. *)
Inductive pyval : Type :=
| PNone
| PBool (b : bool)
| PInt (z : Z)
| PFloat (f : spec_float)
| PStr (s : string)
| PList (l : list pyval)
| PDict (d : list (string * pyval)).

(** A scalar cell of a pandas table read from a CSV file. *)
Inductive cell : Type :=
| CNone
| CBool (b : bool)
| CInt (z : Z)
| CFloat (f : spec_float)
| CStr (s : string).

Definition pyval_of_cell (c : cell) : pyval :=
  match c with
  | CNone => PNone
  | CBool b => PBool b
  | CInt z => PInt z
  | CFloat f => PFloat f
  | CStr s => PStr s
  end.

Inductive exn : Type :=
| RequestException
| JSONDecodeError
| AttributeError
| TypeError
| KeyError
| ValueError
| OverflowError
| RuntimeError
| OtherException.

(** Outcome of an expression that may raise. *)
Inductive result (A : Type) : Type :=
| Ok (a : A)
| Raise (e : exn).
Arguments Ok {A} a.
Arguments Raise {A} e.

Definition rbind {A B : Type} (m : result A) (k : A -> result B) : result B :=
  match m with
  | Ok a => k a
  | Raise e => Raise e
  end.

Declare Scope result_scope.
Delimit Scope result_scope with result.
Notation "x <- m ;; k" := (rbind m (fun x => k))
  (at level 61, m at next level, right associativity) : result_scope.
Notation "' p <- m ;; k" := (rbind m (fun p => k))
  (at level 61, p pattern, m at next level, right associativity) : result_scope.
Local Open Scope result_scope.

Definition raises {A : Type} (m : result A) : bool :=
  match m with
  | Ok _ => false
  | Raise _ => true
  end.

(** ** Operations of the Python runtime used by the scripts *)

Definition float_is_zero (f : spec_float) : bool :=
  match f with
  | S754_zero _ => true
  | _ => false
  end.

(** [bool(v)] *)
Definition truthy (v : pyval) : bool :=
  match v with
  | PNone => false
  | PBool b => b
  | PInt z => negb (z =? 0)
  | PFloat f => negb (float_is_zero f)
  | PStr s => negb (s =? "")%string
  | PList l => match l with [] => false | _ => true end
  | PDict d => match d with [] => false | _ => true end
  end.

Definition cell_truthy (c : cell) : bool := truthy (pyval_of_cell c).

(** [pd.isna(c)] on a scalar *)
Definition pd_isna (c : cell) : bool :=
  match c with
  | CNone => true
  | CFloat S754_nan => true
  | _ => false
  end.

(** [v == s] for a string literal [s] *)
Definition is_str (v : pyval) (s : string) : bool :=
  match v with
  | PStr t => (t =? s)%string
  | _ => false
  end.

Fixpoint lookup (k : string) (d : list (string * pyval)) : option pyval :=
  match d with
  | [] => None
  | (k', v) :: rest => if (k' =? k)%string then Some v else lookup k rest
  end.

Definition has_key (k : string) (d : list (string * pyval)) : bool :=
  match lookup k d with
  | Some _ => true
  | None => false
  end.

(** [v.get(k, default)]: only a dict has the method. *)
Definition py_get (v : pyval) (k : string) (default : pyval) : result pyval :=
  match v with
  | PDict d => Ok (match lookup k d with Some x => x | None => default end)
  | _ => Raise AttributeError
  end.

(** [v[k]] with a string subscript *)
Definition py_getitem (v : pyval) (k : string) : result pyval :=
  match v with
  | PDict d => match lookup k d with Some x => Ok x | None => Raise KeyError end
  | _ => Raise TypeError
  end.

(** [needle in hay] on strings *)
Fixpoint contains (needle hay : string) : bool :=
  prefix needle hay ||
  match hay with
  | EmptyString => false
  | String _ rest => contains needle rest
  end.

(** [s in v] for a string [s]: substring of a string, element of a list,
    key of a dict; the other values are not containers. *)
Definition py_in (s : string) (v : pyval) : result bool :=
  match v with
  | PStr t => Ok (contains s t)
  | PList l => Ok (existsb (fun e => is_str e s) l)
  | PDict d => Ok (has_key s d)
  | _ => Raise TypeError
  end.

(** Number of bytes of the UTF-8 sequence opened by a leading byte. *)
Definition utf8_width (c : ascii) : nat :=
  let n := nat_of_ascii c in
  if Nat.ltb n 192 then 1%nat
  else if Nat.ltb n 224 then 2%nat
  else if Nat.ltb n 240 then 3%nat
  else 4%nat.

Fixpoint take_bytes (n : nat) (s : string) : string * string :=
  match n, s with
  | S m, String c rest => let (a, b) := take_bytes m rest in (String c a, b)
  | _, _ => (EmptyString, s)
  end.

(** The characters of a string, one string per code point. *)
Fixpoint utf8_chars (fuel : nat) (s : string) : list string :=
  match fuel, s with
  | S f, String c rest =>
      let (a, b) := take_bytes (pred (utf8_width c)) rest in
      String c a :: utf8_chars f b
  | _, _ => []
  end.

(** The elements a [for] loop (or [list.extend]) draws from [v]. *)
Definition py_iter (v : pyval) : result (list pyval) :=
  match v with
  | PList l => Ok l
  | PDict d => Ok (map (fun kv => PStr (fst kv)) d)
  | PStr s => Ok (map PStr (utf8_chars (String.length s) s))
  | _ => Raise TypeError
  end.

(** [int(f)] on a float: truncation toward zero. *)
Definition int_of_float (f : spec_float) : result Z :=
  match f with
  | S754_zero _ => Ok 0
  | S754_infinity _ => Raise OverflowError
  | S754_nan => Raise ValueError
  | S754_finite s m e =>
      let mag := if 0 <=? e then Z.shiftl (Z.pos m) e
                 else Z.shiftr (Z.pos m) (- e) in
      Ok (if s then - mag else mag)
  end.

(** The two library functions whose tables are not part of the repository:
    [str.upper] (Unicode case mapping) and the parsing of an integer literal
    by [int] ([None] when Python raises [ValueError]); and the two pandas
    constructors the scripts call. *)
Record dataframe : Type := {
  df_columns : list pyval;
  df_rows : list (list pyval)
}.

Class PyRuntime : Type := {
  str_upper : string -> string;
  int_of_str : string -> option Z;
  (** [pd.DataFrame(records)] *)
  DataFrame_of_records : list pyval -> result dataframe;
  (** [pd.DataFrame(rows, columns=columns)] *)
  DataFrame_of_rows : list (list pyval) -> list pyval -> result dataframe
}.

(** ** The network *)

(** A request as the scripts build it: the endpoint and the parameters that
    vary ([crs], [key], [type], [address] of the geocoder; [key], [query],
    [page] of the place search; the key and the row range of the open-data
    URL). *)
Inductive request : Type :=
| AddressReq (crs key address_type : string) (address_query : cell)
| SearchReq (key query : string) (page : Z)
| OpenDataReq (key : string) (start_index end_index : Z).

(** What [requests.get(...)], [raise_for_status()] and [response.json()]
    give together: the decoded body, or the exception one of them raised. *)
Inductive response : Type :=
| Body (data : pyval)
| Fails (e : exn).

(** A request with the response it got. *)
Definition exchange : Type := (request * response)%type.

(** A computation that issues requests: it receives the exchanges made so
    far and returns them extended. *)
Definition Net (A : Type) : Type := list exchange -> A * list exchange.

Definition ret {A : Type} (a : A) : Net A := fun h => (a, h).

Definition bind {A B : Type} (m : Net A) (k : A -> Net B) : Net B :=
  fun h => let (a, h') := m h in k a h'.

Declare Scope net_scope.
Delimit Scope net_scope with net.
Notation "x <~ m ;; k" := (bind m (fun x => k))
  (at level 61, m at next level, right associativity) : net_scope.

(** Coordinates returned by the geocoder wrapper: [(x, y)], [PNone] for
    Python's [None]. *)
Definition coords : Type := (pyval * pyval)%type.

Inductive attempt_result : Type :=
| Found (x y : pyval)   (* return x, y *)
| NextType              (* fall through to the next address type *)
| Abort.                (* return None, None *)

(** A row of the place search result: [(title, x, y)]. *)
Definition place : Type := (pyval * pyval * pyval)%type.

Inductive verdict : Type :=
| Added (p : place)
| FilteredAtm
| FilteredSeoul
| NoPoint.

Inductive stop_reason : Type :=
| StopNotFound
| StopApiError
| StopZeroResults
| StopException (e : exn).

Record loop_state : Type := {
  current_page : Z;
  total_pages : Z;
  all_items : list place
}.

Inductive flow : Type :=
| Continue (st : loop_state)
| Break (why : stop_reason) (st : loop_state).

Inductive page_items_result : Type :=
| NoData
| Items (l : list pyval).

(** ** Files and console *)

(** A table as [pd.read_csv] returns it: every row has one cell per column. *)
Record table : Type := {
  columns : list string;
  rows : list (list cell)
}.

(** The files a run can see.  [read_text name] is
    [open(name).read().strip()], [None] when opening or reading raises;
    [read_csv name] likewise for [pd.read_csv]; [to_csv_ok name df] tells
    whether [df.to_csv(name, ...)] completes. *)
Record env : Type := {
  read_text : string -> option string;
  read_csv : string -> option table;
  to_csv_ok : string -> dataframe -> bool
}.

(** Messages by which a [main] reports how the run went. *)
Inductive msg : Type :=
| KeyUnreadable
| InputUnreadable
| QueryFailed
| EmptyResult
| NoRequiredColumn
| Saved (file : string)
| SaveError.

(** What a run leaves behind: the requests it issued, what it reported,
    the rows it collected and the file it wrote. *)
Record run (R : Type) : Type := {
  requests : list request;
  console : list msg;
  resultset : list R;
  written : option (string * dataframe)
}.
Arguments requests {R} r.
Arguments console {R} r.
Arguments resultset {R} r.
Arguments written {R} r.

Definition aborted {R : Type} (m : msg) : run R :=
  {| requests := []; console := [m]; resultset := []; written := None |}.

(** [row.get(name)] on a row of a table with the given columns. *)
Fixpoint row_get (cols : list string) (row : list cell) (name : string) : cell :=
  match cols, row with
  | c :: cs, v :: vs => if (c =? name)%string then v else row_get cs vs name
  | _, _ => CNone
  end.

Definition is_nil {A : Type} (l : list A) : bool :=
  match l with
  | [] => true
  | _ => false
  end.

(** [pd.DataFrame(...)] followed by [to_csv(file, ...)], inside the [try] of
    a [main]. *)
Definition save (e : env) (file : string) (df : result dataframe)
  : list msg * option (string * dataframe) :=
  match df with
  | Raise _ => ([SaveError], None)
  | Ok d => if to_csv_ok e file d then ([Saved file], Some (file, d))
            else ([SaveError], None)
  end.

(** ** Shared by the scripts *)

Section Runtime.

Context {rt : PyRuntime}.
Variable remote : list exchange -> request -> response.

(** [title.upper()] *)
Definition py_upper (v : pyval) : result string :=
  match v with
  | PStr s => Ok (str_upper s)
  | _ => Raise AttributeError
  end.

(** [int(v)] *)
Definition py_int (v : pyval) : result Z :=
  match v with
  | PInt z => Ok z
  | PBool b => Ok (if b then 1 else 0)
  | PFloat f => int_of_float f
  | PStr s => match int_of_str s with
              | Some z => Ok z
              | None => Raise ValueError
              end
  | _ => Raise TypeError
  end.

(** [requests.get] with its two follow-up calls: the exchange joins the
    history whatever the outcome. *)
Definition http_get (req : request) : Net response :=
  fun h => let r := remote h req in (r, h ++ [(req, r)]).

(** [data.get('response', {}).get('status')] *)
Definition response_status (data : pyval) : result pyval :=
  resp <- py_get data "response" (PDict []) ;;
  py_get resp "status" PNone.

(** [data.get('response', {}).get('error', {}).get('text', ...)] *)
Definition api_error_text (data : pyval) : result pyval :=
  resp <- py_get data "response" (PDict []) ;;
  err <- py_get resp "error" (PDict []) ;;
  py_get err "text" (PStr "Unknown API Error").

End Runtime.

(** ** geocoding_xy.py and geocoding_public.py

    The two files hold the same [get_coordinate] up to the coordinate system
    requested ([crs]), and a [main] each. *)

Section Geocoder.

Context {rt : PyRuntime}.
Variable remote : list exchange -> request -> response.

(** [not address_query or pd.isna(address_query)] *)
Definition blank (address_query : cell) : bool :=
  negb (cell_truthy address_query) || pd_isna address_query.

(** [point = data.get('response', {}).get('result', {}).get('point', {})]
    with [x = point.get('x')] and [y = point.get('y')] *)
Definition response_point (data : pyval) : result coords :=
  resp <- py_get data "response" (PDict []) ;;
  res <- py_get resp "result" (PDict []) ;;
  point <- py_get res "point" (PDict []) ;;
  x <- py_get point "x" PNone ;;
  y <- py_get point "y" PNone ;;
  Ok (x, y).

(** The body of the [try] once the response is decoded. *)
Definition read_coordinate (data : pyval) : result attempt_result :=
  status <- response_status data ;;
  if is_str status "OK" then
    xy <- response_point data ;;
    if truthy (fst xy) && truthy (snd xy) then Ok (Found (fst xy) (snd xy))
    else Ok NextType
  else if is_str status "NOT_FOUND" then Ok NextType
  else
    _ <- api_error_text data ;;
    Ok Abort.

(** The [try] with its three handlers, each of which returns
    [None, None]. *)
Definition classify (r : response) : attempt_result :=
  match r with
  | Fails _ => Abort
  | Body data => match read_coordinate data with
                 | Ok a => a
                 | Raise _ => Abort
                 end
  end.

(** The [for address_type in [...]] loop and the final [return None, None]. *)
Fixpoint try_types (crs key : string) (types : list string)
    (address_query : cell) : Net coords :=
  match types with
  | [] => ret (PNone, PNone)
  | address_type :: rest =>
      (r <~ http_get remote (AddressReq crs key address_type address_query) ;;
       match classify r with
       | Found x y => ret (x, y)
       | NextType => try_types crs key rest address_query
       | Abort => ret (PNone, PNone)
       end)%net
  end.

Definition get_coordinate_crs (crs key : string) (address_query : cell)
  : Net coords :=
  if blank address_query then ret (PNone, PNone)
  else try_types crs key ["ROAD"; "PARCEL"] address_query.

(** The [for index, row in df.iterrows()] loop of both [main]s:
    [address_of] picks the address of a row, [record_of] builds the row that
    is appended to [all_results_list]. *)
Fixpoint geocode_loop (crs key : string) (address_of : list cell -> cell)
    (record_of : list cell -> coords -> list pyval)
    (rows : list (list cell)) (all_results_list : list (list pyval))
  : Net (list (list pyval)) :=
  match rows with
  | [] => ret all_results_list
  | row :: rest =>
      (xy <~ get_coordinate_crs crs key (address_of row) ;;
       geocode_loop crs key address_of record_of rest
         (all_results_list ++ [record_of row xy]))%net
  end.

(** The part of both [main]s after the key and the input table are read. *)
Definition geocode_table (e : env) (crs key : string)
    (address_of : list cell -> cell)
    (record_of : list cell -> coords -> list pyval)
    (input : table) (output_filename : string) (new_columns : list string)
  : run (list pyval) :=
  let (all_results_list, h) :=
    geocode_loop crs key address_of record_of (rows input) [] [] in
  if is_nil all_results_list then
    {| requests := map fst h; console := [EmptyResult];
       resultset := all_results_list; written := None |}
  else
    let (m, w) := save e output_filename
                    (DataFrame_of_rows all_results_list
                       (map PStr new_columns)) in
    {| requests := map fst h; console := m;
       resultset := all_results_list; written := w |}.

End Geocoder.

Module GeocodingXY.
Section Script.

Context {rt : PyRuntime}.
Variable remote : list exchange -> request -> response.

Definition get_coordinate (key : string) (address_query : cell) : Net coords :=
  get_coordinate_crs remote "EPSG:5179" key address_query.

Definition main (e : env) : run (list pyval) :=
  match read_text e "key.txt" with
  | None => aborted KeyUnreadable
  | Some key =>
      match read_csv e "주소목록.csv" with
      | None => aborted InputUnreadable
      | Some df =>
          let original_columns := columns df in
          geocode_table remote e "EPSG:5179" key
            (fun row => row_get original_columns row "주소")
            (fun row xy => map pyval_of_cell row ++ [fst xy; snd xy])
            df "주소목록_geocoded.csv"
            (original_columns ++ ["longitude"; "latitude"])
      end
  end.

End Script.
End GeocodingXY.

Module GeocodingPublic.
Section Script.

Context {rt : PyRuntime}.
Variable remote : list exchange -> request -> response.

Definition get_coordinate (key : string) (address_query : cell) : Net coords :=
  get_coordinate_crs remote "EPSG:4326" key address_query.

Definition main (e : env) : run (list pyval) :=
  match read_text e "key.txt" with
  | None => aborted KeyUnreadable
  | Some key =>
      match read_csv e "seoul_kiosk_list.csv" with
      | None => aborted InputUnreadable
      | Some df =>
          let get row name := row_get (columns df) row name in
          geocode_table remote e "EPSG:4326" key
            (fun row => get row "ESBPLCADDR")
            (fun row xy =>
               [pyval_of_cell (get row "MGTNO");
                pyval_of_cell (get row "OPNSFTEAMNM");
                pyval_of_cell (get row "KIOSKNM");
                pyval_of_cell (get row "ESBPLCADDR");
                fst xy; snd xy])
            df "kiosk_locations_geocoded.csv"
            ["MGTNO"; "OPNSFTEAMNM"; "KIOSKNM"; "ESBPLCADDR";
             "longitude"; "latitude"]
      end
  end.

End Script.
End GeocodingPublic.

(** ** geocoding_bank.py *)

Module GeocodingBank.
Section Script.

Context {rt : PyRuntime}.
Variable remote : list exchange -> request -> response.


(** One turn of [for item in result['items']]: the ATM filter, then the
    region filter, then the coordinates under [except KeyError]. *)
Definition filter_item (item : pyval) : result verdict :=
  title <- py_get item "title" (PStr "N/A") ;;
  upper <- py_upper title ;;
  if contains "ATM" upper then Ok FilteredAtm
  else
    address <- py_get item "address" (PDict []) ;;
    road_address <- py_get address "road" (PStr "") ;;
    in_seoul <- py_in "서울" road_address ;;
    if in_seoul then
      match (point <- py_getitem item "point" ;;
             x <- py_getitem point "x" ;;
             y <- py_getitem point "y" ;;
             Ok (title, x, y)) with
      | Ok p => Ok (Added p)
      | Raise KeyError => Ok NoPoint
      | Raise e => Raise e
      end
    else Ok FilteredSeoul.

(** The whole [for] loop over a page; [all_items] is appended to in place,
    so what was appended before an exception stays. *)
Fixpoint for_items (items : list pyval) (acc : list place)
  : list place * option exn :=
  match items with
  | [] => (acc, None)
  | item :: rest =>
      match filter_item item with
      | Ok (Added p) => for_items rest (acc ++ [p])
      | Ok _ => for_items rest acc
      | Raise e => (acc, Some e)
      end
  end.

(** The two totals read from the first page: [total_pages] and
    [total_results]. *)
Definition first_page_totals (data : pyval) : result (Z * Z) :=
  resp <- py_get data "response" (PDict []) ;;
  page_info <- py_get resp "page" (PDict []) ;;
  t <- py_get page_info "total" (PInt 1) ;;
  total <- py_int t ;;
  resp' <- py_get data "response" (PDict []) ;;
  record <- py_get resp' "record" (PDict []) ;;
  r <- py_get record "total" (PInt 0) ;;
  total_results <- py_int r ;;
  Ok (total, total_results).

(** Block [1]: on page 1 the totals are read; the boolean tells whether
    [total_results == 0]. *)
Definition read_totals (st : loop_state) (data : pyval) : result (Z * bool) :=
  if current_page st =? 1 then
    totals <- first_page_totals data ;;
    Ok (fst totals, snd totals =? 0)
  else Ok (total_pages st, false).

(** Block [2]: the items of the page, up to the start of the [for] loop. *)
Definition page_items (data : pyval) : result page_items_result :=
  resp <- py_get data "response" (PDict []) ;;
  res <- py_get resp "result" PNone ;;
  if negb (truthy res) then Ok NoData
  else
    present <- py_in "items" res ;;
    if negb present then Ok NoData
    else
      items <- py_getitem res "items" ;;
      l <- py_iter items ;;
      Ok (Items l).

(** The body of the [try] once the response is decoded; an exception ends
    the loop like a [break]. *)
Definition handle_page (st : loop_state) (data : pyval) : flow :=
  match response_status data with
  | Raise e => Break (StopException e) st
  | Ok status =>
      if negb (is_str status "OK") then
        if is_str status "NOT_FOUND" then Break StopNotFound st
        else match api_error_text data with
             | Ok _ => Break StopApiError st
             | Raise e => Break (StopException e) st
             end
      else
        match read_totals st data with
        | Raise e => Break (StopException e) st
        | Ok (total, zero) =>
            let st1 := {| current_page := current_page st;
                          total_pages := total;
                          all_items := all_items st |} in
            if zero then Break StopZeroResults st1
            else
              match page_items data with
              | Raise e => Break (StopException e) st1
              | Ok NoData =>
                  Continue {| current_page := current_page st + 1;
                              total_pages := total;
                              all_items := all_items st |}
              | Ok (Items l) =>
                  match for_items l (all_items st) with
                  | (acc, Some e) =>
                      Break (StopException e)
                        {| current_page := current_page st;
                           total_pages := total;
                           all_items := acc |}
                  | (acc, None) =>
                      Continue {| current_page := current_page st + 1;
                                  total_pages := total;
                                  all_items := acc |}
                  end
              end
        end
  end.

(** One turn of the [while] loop whose guard holds. *)
Definition fetch_page (key query : string) (st : loop_state) : Net flow :=
  (r <~ http_get remote (SearchReq key query (current_page st)) ;;
   ret (match r with
        | Body data => handle_page st data
        | Fails e => Break (StopException e) st
        end))%net.

(** [while current_page <= total_pages], for at most [fuel] turns. *)
Fixpoint while_pages (fuel : nat) (key query : string) (st : loop_state)
  : Net (list place) :=
  match fuel with
  | O => ret (all_items st)
  | S n =>
      if current_page st <=? total_pages st then
        (f <~ fetch_page key query st ;;
         match f with
         | Continue st' => while_pages n key query st'
         | Break _ st' => ret (all_items st')
         end)%net
      else ret (all_items st)
  end.

Definition initial_state : loop_state :=
  {| current_page := 1; total_pages := 1; all_items := [] |}.

(** [search_place]: the first turn (whose guard [1 <= 1] holds) fixes
    [total_pages]; the remaining turns are at most [total_pages] many. *)
Definition search_place (key query : string) : Net (list place) :=
  (f <~ fetch_page key query initial_state ;;
   match f with
   | Continue st => while_pages (Z.to_nat (total_pages st)) key query st
   | Break _ st => ret (all_items st)
   end)%net.

(** The [while] loop as the source writes it, as a relation: from state
    [st] and history [h] the loop ends with the items and the history. *)
Inductive while_exec (key query : string)
  : loop_state -> list exchange -> list place -> list exchange -> Prop :=
| while_done st h :
    (current_page st <=? total_pages st) = false ->
    while_exec key query st h (all_items st) h
| while_break st h why st' h' :
    (current_page st <=? total_pages st) = true ->
    fetch_page key query st h = (Break why st', h') ->
    while_exec key query st h (all_items st') h'
| while_continue st h st' h' items h'' :
    (current_page st <=? total_pages st) = true ->
    fetch_page key query st h = (Continue st', h') ->
    while_exec key query st' h' items h'' ->
    while_exec key query st h items h''.

Definition bank_list : list string :=
  ["우리은행"; "농협은행"; "신한은행"; "하나은행"; "기업은행"; "국민은행"].

(** [for query in bank_list] with the inner [for title, x, y in locations]. *)
Fixpoint bank_loop (key : string) (queries : list string)
    (all_results_list : list (list pyval)) : Net (list (list pyval)) :=
  match queries with
  | [] => ret all_results_list
  | query :: rest =>
      (locations <~ search_place key query ;;
       bank_loop key rest
         (all_results_list ++
          map (fun p : place =>
                 let '(title, x, y) := p in [PStr query; title; x; y])
              locations))%net
  end.

(** The part of [main] from [if not all_results_list] on. *)
Definition finish (e : env) (h : list exchange) (before : list msg)
    (all_results_list : list (list pyval)) : run (list pyval) :=
  if is_nil all_results_list then
    {| requests := map fst h; console := before ++ [EmptyResult];
       resultset := all_results_list; written := None |}
  else
    let (m, w) := save e "bank_location.csv"
                    (DataFrame_of_rows all_results_list
                       (map PStr ["bank"; "title"; "longitude"; "latitude"])) in
    {| requests := map fst h; console := before ++ m;
       resultset := all_results_list; written := w |}.

(** [main]: the handler of the key file does not return, so [key] stays
    unbound when the file cannot be read; evaluating [search_place(key,
    query)] then raises [UnboundLocalError] before the call, and the handler
    around the loop catches it. *)
Definition main (e : env) : run (list pyval) :=
  match read_text e "key.txt" with
  | None => finish e [] [KeyUnreadable; QueryFailed] []
  | Some key =>
      let (all_results_list, h) := bank_loop key bank_list [] [] in
      finish e h [] all_results_list
  end.

End Script.
End GeocodingBank.

(** ** public_api.py *)

(** The cell of [row] under the first label equal to [name]. *)
Fixpoint cell_at (labels : list pyval) (row : list pyval) (name : string)
  : pyval :=
  match labels, row with
  | l :: ls, v :: vs => if is_str l name then v else cell_at ls vs name
  | _, _ => PNone
  end.

(** [df[cols]] for labels that occur in [df.columns]. *)
Definition select_columns (df : dataframe) (cols : list string) : dataframe :=
  {| df_columns := map PStr cols;
     df_rows := map (fun row => map (cell_at (df_columns df) row) cols)
                    (df_rows df) |}.

Module PublicApi.
Section Script.

Context {rt : PyRuntime}.
Variable remote : list exchange -> request -> response.

Definition service_name : string := "TbKioskInfo".
Definition page_size : Z := 1000.

(** The body of the [try] once the response is decoded: [None] for a
    [break], [Some rows] when [rows] are appended and the loop goes on.
    When the service key is absent the source inspects ["RESULT"] only to
    choose what it prints, and breaks in every case. *)
Definition read_rows (data : pyval) : result (option (list pyval)) :=
  present <- py_in service_name data ;;
  if negb present then Ok None
  else
    res <- py_getitem data service_name ;;
    rows <- py_get res "row" (PList []) ;;
    if negb (truthy rows) then Ok None
    else
      new_rows <- py_iter rows ;;
      Ok (Some new_rows).

(** [while True] for at most [fuel] turns; [None] when the loop is still
    running after them. *)
Fixpoint kiosk_loop (fuel : nat) (key : string) (start_index : Z)
    (all_data_rows : list pyval) : Net (option (list pyval)) :=
  match fuel with
  | O => ret None
  | S n =>
      let end_index := start_index + page_size - 1 in
      (r <~ http_get remote (OpenDataReq key start_index end_index) ;;
       match r with
       | Fails _ => ret (Some all_data_rows)
       | Body data =>
           match read_rows data with
           | Ok (Some new_rows) =>
               kiosk_loop n key (start_index + page_size)
                 (all_data_rows ++ new_rows)
           | Ok None => ret (Some all_data_rows)
           | Raise _ => ret (Some all_data_rows)
           end
       end)%net
  end.

Definition fetch_all_kiosk_data (fuel : nat) (key : string)
  : Net (option (list pyval)) :=
  kiosk_loop fuel key 1 [].

Definition required_columns : list string :=
  ["MGTNO"; "OPNSFTEAMNM"; "KIOSKNM"; "ESBPLCADDR"].

(** [main] from [if not kiosk_data_list] on. *)
Definition export (e : env) (h : list exchange) (kiosk_data_list : list pyval)
  : run pyval :=
  let quiet (m : list msg) (w : option (string * dataframe)) :=
    {| requests := map fst h; console := m;
       resultset := kiosk_data_list; written := w |} in
  if is_nil kiosk_data_list then quiet [EmptyResult] None
  else
    match DataFrame_of_records kiosk_data_list with
    | Raise _ => quiet [SaveError] None
    | Ok df =>
        let available_columns :=
          filter (fun col => existsb (fun l => is_str l col) (df_columns df))
                 required_columns in
        if is_nil available_columns then quiet [NoRequiredColumn] None
        else
          let df_selected := select_columns df available_columns in
          if to_csv_ok e "seoul_kiosk_list.csv" df_selected
          then quiet [Saved "seoul_kiosk_list.csv"]
                     (Some ("seoul_kiosk_list.csv", df_selected))
          else quiet [SaveError] None
    end.

(** [main]; [None] when the harvest is still running after [fuel] turns. *)
Definition main (fuel : nat) (e : env) : option (run pyval) :=
  match read_text e "public_key.txt" with
  | None => Some (aborted KeyUnreadable)
  | Some api_key =>
      match fetch_all_kiosk_data fuel api_key [] with
      | (None, _) => None
      | (Some kiosk_data_list, h) => Some (export e h kiosk_data_list)
      end
  end.

End Script.
End PublicApi.

(** ** kiosk_crawler.py *)

Module KioskCrawler.

(** What BeautifulSoup finds in a listing page: the texts of the [th] cells
    of the first [thead], and for each [tr] of the first [tbody] the texts
    of its [td] cells. *)
Record html_doc : Type := {
  thead : option (list string);
  tbody : option (list (list string))
}.

(** What [session.get] gives for a page index: an exception (after the
    transport retries of the session), or a status code and a document. *)
Inductive site_reply : Type :=
| SiteFails (e : exn)
| SiteResponse (status_code : Z) (doc : html_doc).

Fixpoint assign (labels row : list pyval) (name : string) (v : pyval)
  : list pyval :=
  match labels, row with
  | l :: ls, c :: cs =>
      (if is_str l name then v else c) :: assign ls cs name v
  | _, _ => row
  end.

(** [df[name] = v] *)
Definition set_column (df : dataframe) (name : string) (v : pyval)
  : dataframe :=
  if existsb (fun l => is_str l name) (df_columns df) then
    {| df_columns := df_columns df;
       df_rows := map (fun row => assign (df_columns df) row name v)
                      (df_rows df) |}
  else
    {| df_columns := df_columns df ++ [PStr name];
       df_rows := map (fun row => row ++ [v]) (df_rows df) |}.

Section Script.

Context {rt : PyRuntime}.
Variable site : Z -> site_reply.

(** [extract_page]: whatever is raised inside is caught and gives [None]. *)
Definition extract_page (page_index : Z) : option dataframe :=
  match site page_index with
  | SiteFails _ => None
  | SiteResponse status_code doc =>
      if negb (status_code =? 200) then None
      else
        match thead doc, tbody doc with
        | Some ths, Some trs =>
            match DataFrame_of_rows (map (map PStr) trs) (map PStr ths) with
            | Raise _ => None
            | Ok page_df => Some (set_column page_df "page_index" (PInt page_index))
            end
        | _, _ => None
        end
  end.

Definition start_page : Z := 1.
Definition end_page : Z := 973.

(** [range(start_page, end_page + 1)] *)
Definition page_range : list Z :=
  map (fun i => start_page + Z.of_nat i)
      (seq 0 (Z.to_nat (end_page + 1 - start_page))).

Record crawl : Type := {
  submitted : list Z;
  all_dfs : list dataframe
}.

(** [main] up to the end of the [with] block: every page of the range is
    submitted, and the frames are collected in the order in which the
    fetches complete, which the worker pool decides. *)
Definition main (completion_order : list Z) : crawl :=
  {| submitted := page_range;
     all_dfs :=
       flat_map (fun page =>
                   match extract_page page with
                   | Some result_df =>
                       if is_nil (df_rows result_df) then [] else [result_df]
                   | None => []
                   end)
                completion_order |}.

End Script.
End KioskCrawler.

(** ** A reference runtime

    An instance of [PyRuntime] for running the model on concrete data.  It
    agrees with Python on ASCII strings ([upper_bytes]), on plain decimal
    literals ([decimal_literal]), on lists of dicts ([records_frame]) and on
    rows that have one cell per column ([rows_frame]); elsewhere it raises
    or leaves the input unchanged, so it is used on such data only. *)

Definition upper_ascii (c : ascii) : ascii :=
  let n := nat_of_ascii c in
  if Nat.leb 97 n && Nat.leb n 122 then ascii_of_nat (n - 32) else c.

Fixpoint upper_bytes (s : string) : string :=
  match s with
  | EmptyString => EmptyString
  | String c rest => String (upper_ascii c) (upper_bytes rest)
  end.

Definition digit_of (c : ascii) : option Z :=
  let n := nat_of_ascii c in
  if Nat.leb 48 n && Nat.leb n 57 then Some (Z.of_nat (n - 48)) else None.

Fixpoint digits (s : string) (acc : Z) : option Z :=
  match s with
  | EmptyString => Some acc
  | String c rest =>
      match digit_of c with
      | Some d => digits rest (10 * acc + d)
      | None => None
      end
  end.

Definition decimal_literal (s : string) : option Z :=
  match s with
  | EmptyString => None
  | String "-" (String c rest) => option_map Z.opp (digits (String c rest) 0)
  | String "+" (String c rest) => digits (String c rest) 0
  | _ => digits s 0
  end.

Fixpoint record_keys (records : list pyval) (seen : list string)
  : option (list string) :=
  match records with
  | [] => Some seen
  | PDict d :: rest =>
      record_keys rest
        (fold_left (fun acc kv =>
                      if existsb (String.eqb (fst kv)) acc then acc
                      else acc ++ [fst kv]) d seen)
  | _ :: _ => None
  end.

Definition record_cell (r : pyval) (k : string) : pyval :=
  match r with
  | PDict d => match lookup k d with
               | Some v => v
               | None => PFloat S754_nan
               end
  | _ => PNone
  end.

Definition records_frame (records : list pyval) : result dataframe :=
  match record_keys records [] with
  | Some keys =>
      Ok {| df_columns := map PStr keys;
            df_rows := map (fun r => map (record_cell r) keys) records |}
  | None => Raise ValueError
  end.

Definition rows_frame (rows : list (list pyval)) (cols : list pyval)
  : result dataframe :=
  if forallb (fun row => Nat.eqb (List.length row) (List.length cols)) rows
  then Ok {| df_columns := cols; df_rows := rows |}
  else Raise ValueError.

Definition reference_runtime : PyRuntime :=
  {| str_upper := upper_bytes;
     int_of_str := decimal_literal;
     DataFrame_of_records := records_frame;
     DataFrame_of_rows := rows_frame |}.

(** ** Vocabulary of the properties *)

(** *** Geocoding *)

(** What a response of the geocoder says, read the way [get_coordinate]
    reads it. *)
Definition reports (r : response) (s : string) : Prop :=
  exists data, r = Body data /\ response_status data = Ok (PStr s).

Definition definitive_error (r : response) : Prop :=
  exists data status,
    r = Body data /\ response_status data = Ok status /\
    status <> PStr "OK" /\ status <> PStr "NOT_FOUND".

Definition ok_without_point (r : response) : Prop :=
  exists data xy,
    r = Body data /\ response_status data = Ok (PStr "OK") /\
    response_point data = Ok xy /\
    truthy (fst xy) && truthy (snd xy) = false.

Definition resolves (r : response) (xy : coords) : Prop :=
  exists data,
    r = Body data /\ response_status data = Ok (PStr "OK") /\
    response_point data = Ok xy /\
    truthy (fst xy) && truthy (snd xy) = true.

(** [get] is the [get_coordinate] of one of the two geocoding scripts, which
    asks for coordinates in [crs]. *)
Definition geocoder (remote : list exchange -> request -> response)
    (crs : string) (get : string -> cell -> Net coords) : Prop :=
  (crs = "EPSG:5179" /\ get = GeocodingXY.get_coordinate remote) \/
  (crs = "EPSG:4326" /\ get = GeocodingPublic.get_coordinate remote).

Definition unresolved : coords := (PNone, PNone).

(** [xy] is what [get] returned for [address] at some point of a run. *)
Definition answered_by (get : string -> cell -> Net coords) (key : string)
    (address : cell) (xy : coords) : Prop :=
  exists h h', get key address h = (xy, h').

(** A run that made no request, wrote no file and reported that the key
    could not be read. *)
Definition stopped_for_key {R : Type} (r : run R) : Prop :=
  requests r = [] /\ written r = None /\ In KeyUnreadable (console r).

(** *** Place search *)

Section SearchVocabulary.

Context {rt : PyRuntime}.

(** [item.get('address', {}).get('road', '')] *)
Definition road_address (item : pyval) : result pyval :=
  address <- py_get item "address" (PDict []) ;;
  py_get address "road" (PStr "").

(** [item['point']['x']] and [item['point']['y']] *)
Definition item_point (item : pyval) : result coords :=
  point <- py_getitem item "point" ;;
  x <- py_getitem point "x" ;;
  y <- py_getitem point "y" ;;
  Ok (x, y).

(** The row an item adds to the output, if any. *)
Definition row_of (item : pyval) : list place :=
  match GeocodingBank.filter_item item with
  | Ok (Added p) => [p]
  | _ => []
  end.

(** The rows the page numbered [page] adds to the output when its decoded
    body is [data]. *)
Definition page_rows (page : Z) (data : pyval) : list place :=
  match response_status data with
  | Ok status =>
      if is_str status "OK" then
        match (if page =? 1
               then totals <- GeocodingBank.first_page_totals data ;;
                    Ok (snd totals =? 0)
               else Ok false) with
        | Ok false =>
            match GeocodingBank.page_items data with
            | Ok (Items l) => fst (GeocodingBank.for_items l [])
            | _ => []
            end
        | _ => []
        end
      else []
  | Raise _ => []
  end.

Definition contributed (x : exchange) : list place :=
  match x with
  | (SearchReq _ _ page, Body data) => page_rows page data
  | _ => []
  end.

(** The fetch of a page failed: the request raised, or the handling of the
    decoded body does. *)
Definition page_failed (x : exchange) : Prop :=
  match x with
  | (_, Fails _) => True
  | (SearchReq _ _ page, Body data) =>
      forall st, current_page st = page ->
        exists e st', GeocodingBank.handle_page st data = Break (StopException e) st'
  | _ => False
  end.

(** The body of page [page] is handled to its end when [total] pages are
    announced: status [OK], on page 1 the totals [total] and a non-zero
    count of results, and items (if any) that raise nothing. *)
Definition page_clean (page total : Z) (data : pyval) : Prop :=
  response_status data = Ok (PStr "OK") /\
  (page = 1 ->
   exists results, GeocodingBank.first_page_totals data = Ok (total, results)
                   /\ results <> 0) /\
  (GeocodingBank.page_items data = Ok NoData \/
   exists l, GeocodingBank.page_items data = Ok (Items l) /\
             forall item, In item l ->
               raises (GeocodingBank.filter_item item) = false).

End SearchVocabulary.

(** The requests for [count] pages from page [first] on. *)
Definition page_requests (key query : string) (first : Z) (count : nat)
  : list request :=
  map (fun i => SearchReq key query (first + Z.of_nat i)) (seq 0 count).

Definition flow_state (f : flow) : loop_state :=
  match f with
  | Continue st => st
  | Break _ st => st
  end.

(** *** Open-data harvest *)

(** The rows a response adds to the harvest; [None] when it ends the
    loop. *)
Definition kiosk_outcome (r : response) : option (list pyval) :=
  match r with
  | Body data =>
      match PublicApi.read_rows data with
      | Ok (Some l) => Some l
      | _ => None
      end
  | Fails _ => None
  end.

Definition kiosk_rows (x : exchange) : list pyval :=
  match kiosk_outcome (snd x) with
  | Some l => l
  | None => []
  end.

(** The fetch of a row range failed: the request raised, or the handling of
    the decoded body does. *)
Definition kiosk_failed (x : exchange) : Prop :=
  match snd x with
  | Fails _ => True
  | Body data => exists e, PublicApi.read_rows data = Raise e
  end.

(** The response carries the service key and a [row] value that is empty
    (or absent). *)
Definition zero_rows (r : response) : Prop :=
  exists data res rows,
    r = Body data /\
    py_in PublicApi.service_name data = Ok true /\
    py_getitem data PublicApi.service_name = Ok res /\
    py_get res "row" (PList []) = Ok rows /\
    truthy rows = false.

(** The request for the [i]-th range of a thousand rows, counting from 0. *)
Definition kiosk_request (key : string) (i : nat) : request :=
  OpenDataReq key (1 + PublicApi.page_size * Z.of_nat i)
                  (PublicApi.page_size * (Z.of_nat i + 1)).

(** The columns [main] keeps: the required ones that the frame has. *)
Definition available_columns (df : dataframe) : list string :=
  filter (fun col => existsb (fun l => is_str l col) (df_columns df))
         PublicApi.required_columns.

(** ** Sample data *)

Definition point_response (x y : pyval) : pyval :=
  PDict [("response",
          PDict [("status", PStr "OK");
                 ("result", PDict [("point", PDict [("x", x); ("y", y)])])])].

(** Status [OK] with an empty point. *)
Definition ok_empty_point : pyval :=
  PDict [("response",
          PDict [("status", PStr "OK");
                 ("result", PDict [("point", PDict [])])])].

Definition status_response (status : string) : pyval :=
  PDict [("response", PDict [("status", PStr status)])].

Definition error_response : pyval :=
  PDict [("response",
          PDict [("status", PStr "ERROR");
                 ("error", PDict [("text", PStr "INVALID_KEY")])])].

Definition always (data : pyval) : list exchange -> request -> response :=
  fun _ _ => Body data.

(** The geocoder of a remote that knows an address as a parcel only. *)
Definition parcel_only : list exchange -> request -> response :=
  fun _ req =>
    match req with
    | AddressReq _ _ "PARCEL" _ =>
        Body (point_response (PStr "126.9784") (PStr "37.5667"))
    | _ => Body (status_response "NOT_FOUND")
    end.

Definition city_hall : cell := CStr "서울특별시 중구 세종대로 110".

Definition no_files : env :=
  {| read_text := fun _ => None;
     read_csv := fun _ => None;
     to_csv_ok := fun _ _ => true |}.

Definition addresses : table :=
  {| columns := ["기관"; "주소"];
     rows := [[CStr "시청"; city_hall]; [CStr "미상"; CFloat S754_nan]] |}.

Definition kiosks : table :=
  {| columns := ["MGTNO"; "OPNSFTEAMNM"; "KIOSKNM"; "ESBPLCADDR"];
     rows := [[CInt 1; CStr "중구"; CStr "시청"; city_hall]] |}.

Definition desk : env :=
  {| read_text := fun _ => Some "key";
     read_csv := fun name =>
       if (name =? "주소목록.csv")%string then Some addresses
       else if (name =? "seoul_kiosk_list.csv")%string then Some kiosks
       else None;
     to_csv_ok := fun _ _ => true |}.

(** A raw item and a page of the place search, as the service sends them. *)
Definition bank_item (title road : string) (point : list (string * pyval))
  : pyval :=
  PDict [("title", PStr title);
         ("address", PDict [("road", PStr road)]);
         ("point", PDict point)].

Definition search_page (pages results : string) (items : list pyval) : pyval :=
  PDict [("response",
          PDict [("status", PStr "OK");
                 ("page", PDict [("total", PStr pages)]);
                 ("record", PDict [("total", PStr results)]);
                 ("result", PDict [("items", PList items)])])].

Definition jongno : list (string * pyval) :=
  [("x", PStr "126.98"); ("y", PStr "37.57")].

(** An item in Seoul that carries no [point]. *)
Definition branch_without_point : pyval :=
  PDict [("title", PStr "Woori Bank Jongno");
         ("address", PDict [("road", PStr "서울특별시 종로구 종로 1")])].

(** An ATM whose address is not even a dict. *)
Definition atm_corner : pyval :=
  PDict [("title", PStr "Woori atm 365"); ("address", PNone)].

Definition branch_in_seoul : pyval :=
  bank_item "Woori Bank Jongno" "서울특별시 종로구 종로 1" jongno.

Definition branch_in_incheon : pyval :=
  bank_item "Woori Bank Bupyeong" "인천광역시 부평구 부평대로 1" jongno.

Definition two_branches : pyval :=
  search_page "1" "2" [branch_in_seoul; branch_in_incheon].

(** Two pages announced, but a count of zero results. *)
Definition two_pages_no_result : pyval := search_page "2" "0" [].

Definition three_pages : pyval := search_page "3" "1" [branch_in_seoul].

(** A place search that announces three pages and is down from the second
    page on. *)
Definition down_after_first_page : list exchange -> request -> response :=
  fun _ req =>
    match req with
    | SearchReq _ _ 1 => Body three_pages
    | _ => Fails RequestException
    end.

Definition kiosk_page (rows : list pyval) : pyval :=
  PDict [("TbKioskInfo", PDict [("row", PList rows)])].

(** A service whose first range holds one row without any of the required
    columns, and whose later ranges are empty. *)
Definition one_odd_row : list exchange -> request -> response :=
  fun _ req =>
    match req with
    | OpenDataReq _ 1 _ => Body (kiosk_page [PDict [("FOO", PStr "1")]])
    | _ => Body (kiosk_page [])
    end.

Definition kiosk_row (mgtno : Z) (name address : string) : pyval :=
  PDict [("MGTNO", PInt mgtno); ("KIOSKNM", PStr name);
         ("ESBPLCADDR", PStr address); ("OPNSFTEAMNM", PStr "중구")].

(** A service with two rows in the first range and none after. *)
Definition two_kiosks : list exchange -> request -> response :=
  fun _ req =>
    match req with
    | OpenDataReq _ 1 _ =>
        Body (kiosk_page [kiosk_row 1 "시청" "세종대로 110";
                          kiosk_row 2 "구청" "창경궁로 17"])
    | _ => Body (kiosk_page [])
    end.

(** A listing site whose second page answers with status 503. *)
Definition listing : Z -> KioskCrawler.site_reply :=
  fun page =>
    let doc := {| KioskCrawler.thead := Some ["번호"; "상호"];
                  KioskCrawler.tbody := Some [["1"; "가맹점"]] |} in
    if page =? 2 then KioskCrawler.SiteResponse 503 doc
    else KioskCrawler.SiteResponse 200 doc.

(** ** Vocabulary of the further properties *)

(** The geocoding request raised, or the reading of its decoded body
    does. *)
Definition geocode_failed (r : response) : Prop :=
  match r with
  | Fails _ => True
  | Body data => exists e, read_coordinate data = Raise e
  end.

(** [None] in place of a whole body: not a dict. *)
Definition null_body : pyval := PNone.

(** An address request of type [ROAD] or [PARCEL] for [address]. *)
Definition address_request_for (crs key : string) (address : cell)
    (req : request) : Prop :=
  exists t, (t = "ROAD" \/ t = "PARCEL") /\ req = AddressReq crs key t address.

(** The rows of a table whose address is not blank. *)
Definition with_address (address_of : list cell -> cell)
    (input : list (list cell)) : list (list cell) :=
  filter (fun row => negb (blank (address_of row))) input.

Definition empty_table : table := {| columns := ["주소"]; rows := [] |}.

(** The key is there, the input tables are not. *)
Definition key_only : env :=
  {| read_text := fun _ => Some "key";
     read_csv := fun _ => None;
     to_csv_ok := fun _ _ => true |}.

(** The key and the tables are there, the disk is full. *)
Definition full_disk : env :=
  {| read_text := read_text desk;
     read_csv := read_csv desk;
     to_csv_ok := fun _ _ => false |}.

(** A run that did nothing but report [m]. *)
Definition idle {R : Type} (r : run R) (m : msg) : Prop :=
  requests r = [] /\ resultset r = [] /\ written r = None /\ console r = [m].

(** How a run that collected rows ends: either the frame of its result set
    under [cols] was built and written to [file], which is reported, or one
    of the two steps failed, which is reported and leaves no file. *)
Definition save_outcome {rt : PyRuntime} (e : env) (file : string)
    (cols : list string) (r : run (list pyval)) : Prop :=
  (exists d, DataFrame_of_rows (resultset r) (map PStr cols) = Ok d /\
             to_csv_ok e file d = true /\
             written r = Some (file, d) /\
             last (console r) EmptyResult = Saved file) \/
  ((forall d, DataFrame_of_rows (resultset r) (map PStr cols) = Ok d ->
              to_csv_ok e file d = false) /\
   written r = None /\
   last (console r) EmptyResult = SaveError).

(** The fetch of a page ends the search: the request raised, or the
    handling of the decoded body leaves the loop, for whatever reason. *)
Definition page_stops {rt : PyRuntime} (x : exchange) : Prop :=
  match x with
  | (_, Fails _) => True
  | (SearchReq _ _ page, Body data) =>
      forall st, current_page st = page ->
        exists why st', GeocodingBank.handle_page st data = Break why st'
  | _ => False
  end.

(** The body reports a status other than [OK]. *)
Definition page_refused (r : response) : Prop :=
  exists data status,
    r = Body data /\ response_status data = Ok status /\ status <> PStr "OK".

(** A place search that finds nothing on the second page of two. *)
Definition not_found_on_second_page : list exchange -> request -> response :=
  fun _ req =>
    match req with
    | SearchReq _ _ 1 => Body (search_page "2" "1" [branch_in_seoul])
    | _ => Body (status_response "NOT_FOUND")
    end.

(** *** geocoding_bank.py: the counters of a page

    The three counters that [search_place] keeps while it goes through the
    items of a page, and prints after the page. *)
Record page_counts : Type := {
  page_item_count_added : nat;
  page_item_count_filtered_seoul : nat;
  page_item_count_filtered_atm : nat
}.

Definition no_counts : page_counts :=
  {| page_item_count_added := 0;
     page_item_count_filtered_seoul := 0;
     page_item_count_filtered_atm := 0 |}.

(** The [for] loop over the items with its counters: [for_items] with the
    three counts kept beside the list. *)
Fixpoint count_items {rt : PyRuntime} (items : list pyval)
    (all_items : list place) (c : page_counts)
  : list place * page_counts * option exn :=
  match items with
  | [] => (all_items, c, None)
  | item :: rest =>
      match GeocodingBank.filter_item item with
      | Ok (Added p) =>
          count_items rest (all_items ++ [p])
            {| page_item_count_added := S (page_item_count_added c);
               page_item_count_filtered_seoul := page_item_count_filtered_seoul c;
               page_item_count_filtered_atm := page_item_count_filtered_atm c |}
      | Ok FilteredAtm =>
          count_items rest all_items
            {| page_item_count_added := page_item_count_added c;
               page_item_count_filtered_seoul := page_item_count_filtered_seoul c;
               page_item_count_filtered_atm := S (page_item_count_filtered_atm c) |}
      | Ok FilteredSeoul =>
          count_items rest all_items
            {| page_item_count_added := page_item_count_added c;
               page_item_count_filtered_seoul := S (page_item_count_filtered_seoul c);
               page_item_count_filtered_atm := page_item_count_filtered_atm c |}
      | Ok NoPoint => count_items rest all_items c
      | Raise e => (all_items, c, Some e)
      end
  end.

(** The item is in the region and passes the ATM filter, but lacks its
    coordinates. *)
Definition lacks_point {rt : PyRuntime} (item : pyval) : bool :=
  match GeocodingBank.filter_item item with
  | Ok NoPoint => true
  | _ => false
  end.

Definition atm_in_seoul : pyval :=
  bank_item "Woori ATM Jongno" "서울특별시 종로구 종로 1" jongno.

(** The decoded body is a dict without the service key, as when the service
    answers with a bare [RESULT] (no data in the range, or an error). *)
Definition lacks_service (r : response) : Prop :=
  exists d, r = Body (PDict d) /\ has_key PublicApi.service_name d = false.

Definition result_body (code message : string) : pyval :=
  PDict [("RESULT", PDict [("CODE", PStr code); ("MESSAGE", PStr message)])].

(** A service with two rows in the first range, and the answer "no data"
    for the ranges after it. *)
Definition two_kiosks_then_info : list exchange -> request -> response :=
  fun _ req =>
    match req with
    | OpenDataReq _ 1 _ =>
        Body (kiosk_page [kiosk_row 1 "시청" "세종대로 110";
                          kiosk_row 2 "구청" "창경궁로 17"])
    | _ => Body (result_body "INFO-200" "해당하는 데이터가 없습니다.")
    end.

(** A service that has a row for every range. *)
Definition endless : list exchange -> request -> response :=
  always (kiosk_page [kiosk_row 1 "시청" "세종대로 110"]).

(** An item whose title is [null]. *)
Definition nameless : pyval :=
  PDict [("title", PNone);
         ("address", PDict [("road", PStr "서울특별시 종로구 종로 1")]);
         ("point", PDict jongno)].

(** The first of two pages: an item to keep, a malformed one, and another
    item to keep. *)
Definition page_with_nameless : pyval :=
  search_page "2" "3" [branch_in_seoul; nameless; branch_in_seoul].

(** * Properties *)

(** ** Python values *)

Lemma is_str_true (v : pyval) (s : string) :
  is_str v s = true <-> v = PStr s.
Proof.
  destruct v; simpl; try (split; [discriminate | intros H; inversion H]).
  rewrite String.eqb_eq. split; [intros -> | intros H; inversion H]; reflexivity.
Qed.

Lemma is_str_false (v : pyval) (s : string) :
  is_str v s = false <-> v <> PStr s.
Proof.
  rewrite <- is_str_true. destruct (is_str v s); split; congruence.
Qed.

Lemma is_str_refl (s : string) : is_str (PStr s) s = true.
Proof. apply is_str_true. reflexivity. Qed.

(** ** The geocoder *)

Lemma classify_definitive_error (r : response) :
  definitive_error r -> classify r = Abort.
Proof.
  intros (data & status & -> & Hs & Hok & Hnf).
  apply is_str_false in Hok. apply is_str_false in Hnf.
  unfold classify, read_coordinate. rewrite Hs. simpl.
  rewrite Hok, Hnf. destruct (api_error_text data); reflexivity.
Qed.

Lemma classify_found (r : response) (x y : pyval) :
  classify r = Found x y <-> resolves r (x, y).
Proof.
  split.
  - destruct r as [data | e]; simpl; [| discriminate].
    unfold read_coordinate.
    destruct (response_status data) as [status | e] eqn:Hs; simpl; [| discriminate].
    destruct (is_str status "OK") eqn:Hok.
    + apply is_str_true in Hok. subst status.
      destruct (response_point data) as [xy | e] eqn:Hp; simpl; [| discriminate].
      destruct (truthy (fst xy) && truthy (snd xy)) eqn:Ht; [| discriminate].
      intros H. inversion H; subst. exists data.
      destruct xy; simpl in *. auto.
    + destruct (is_str status "NOT_FOUND"); [discriminate |].
      destruct (api_error_text data); discriminate.
  - intros (data & -> & Hs & Hp & Ht). simpl. unfold read_coordinate.
    rewrite Hs. simpl. rewrite Hp. simpl in *. rewrite Ht. reflexivity.
Qed.

Lemma classify_next (r : response) :
  classify r = NextType <-> reports r "NOT_FOUND" \/ ok_without_point r.
Proof.
  split.
  - destruct r as [data | e]; simpl; [| discriminate].
    unfold read_coordinate.
    destruct (response_status data) as [status | e] eqn:Hs; simpl; [| discriminate].
    destruct (is_str status "OK") eqn:Hok.
    + apply is_str_true in Hok. subst status.
      destruct (response_point data) as [xy | e] eqn:Hp; simpl; [| discriminate].
      destruct (truthy (fst xy) && truthy (snd xy)) eqn:Ht; [discriminate |].
      intros _. right. exists data, xy. auto.
    + destruct (is_str status "NOT_FOUND") eqn:Hnf.
      * apply is_str_true in Hnf. subst status.
        intros _. left. exists data. auto.
      * destruct (api_error_text data); discriminate.
  - intros [(data & -> & Hs) | (data & xy & -> & Hs & Hp & Ht)];
      simpl; unfold read_coordinate; rewrite Hs; simpl.
    + reflexivity.
    + rewrite Hp. simpl. rewrite Ht. reflexivity.
Qed.

Section GeocoderFacts.

Variable remote : list exchange -> request -> response.

Lemma get_coordinate_blank (crs key : string) (address_query : cell)
    (h : list exchange) :
  blank address_query = true ->
  get_coordinate_crs remote crs key address_query h = (unresolved, h).
Proof.
  intros Hb. unfold get_coordinate_crs. rewrite Hb. reflexivity.
Qed.

(** The two turns of the loop, written out. *)
Lemma get_coordinate_unfold (crs key : string) (address_query : cell)
    (h : list exchange) :
  blank address_query = false ->
  let road := AddressReq crs key "ROAD" address_query in
  let parcel := AddressReq crs key "PARCEL" address_query in
  let r1 := remote h road in
  let h1 := h ++ [(road, r1)] in
  let r2 := remote h1 parcel in
  let h2 := h1 ++ [(parcel, r2)] in
  get_coordinate_crs remote crs key address_query h =
  match classify r1 with
  | Found x y => ((x, y), h1)
  | Abort => (unresolved, h1)
  | NextType =>
      match classify r2 with
      | Found x y => ((x, y), h2)
      | _ => (unresolved, h2)
      end
  end.
Proof.
  intros Hb. unfold get_coordinate_crs. rewrite Hb.
  cbn [try_types]. unfold bind, http_get, ret. cbn zeta.
  destruct (classify (remote h (AddressReq crs key "ROAD" address_query)));
    try reflexivity.
  destruct (classify _); reflexivity.
Qed.

(** Whatever the list of address types: an attempt that is classified
    [Abort] is the last exchange, and the result is [(None, None)]. *)
Lemma try_types_abort (crs key : string) (address_query : cell) :
  forall (types : list string) (h h' : list exchange) (r : coords),
    try_types remote crs key types address_query h = (r, h') ->
    exists new,
      h' = h ++ new /\
      forall pre x post,
        new = pre ++ x :: post -> classify (snd x) = Abort ->
        post = [] /\ r = unresolved.
Proof.
  induction types as [| t rest IH]; intros h h' r Hrun.
  - inversion Hrun; subst. exists []. split; [now rewrite app_nil_r |].
    intros [| ? ?] x post Hsplit; discriminate.
  - cbn [try_types] in Hrun. unfold bind, http_get in Hrun. cbn zeta in Hrun.
    set (req := AddressReq crs key t address_query) in *.
    destruct (classify (remote h req)) as [x y | |] eqn:Hc.
    + inversion Hrun; subst. exists [(req, remote h req)]. split; [reflexivity |].
      intros [| ? [| ? ?]] ex post Hsplit Habort; inversion Hsplit; subst.
      simpl in Habort. congruence.
    + apply IH in Hrun. destruct Hrun as (new & -> & Hnew).
      exists ((req, remote h req) :: new). split.
      * now rewrite <- app_assoc.
      * intros [| p pre] ex post Hsplit Habort; inversion Hsplit; subst.
        -- simpl in Habort. congruence.
        -- eapply Hnew; eauto.
    + inversion Hrun; subst. exists [(req, remote h req)]. split; [reflexivity |].
      intros [| ? [| ? ?]] ex post Hsplit Habort; inversion Hsplit; subst.
      auto.
Qed.

End GeocoderFacts.

Lemma geocoder_unfold (remote : list exchange -> request -> response)
    (crs : string) (get : string -> cell -> Net coords) :
  geocoder remote crs get -> get = get_coordinate_crs remote crs.
Proof.
  intros [[-> ->] | [-> ->]]; reflexivity.
Qed.

Lemma app_self_nil {A : Type} (l m : list A) : l = l ++ m -> m = [].
Proof.
  intros H. apply (f_equal (@List.length A)) in H.
  rewrite length_app in H. destruct m; simpl in H; [reflexivity | lia].
Qed.

(** C10. In both geocoding scripts, [get_coordinate] on an address that is
    [None], the empty string or NaN returns [(None, None)] and leaves the
    history of exchanges as it was: no request is issued.  The loop of
    [main] appends the row of such an address with [(None, None)] and goes
    on with the next row. *)
Theorem blank_address_issues_no_request
    (remote : list exchange -> request -> response) (crs : string)
    (get : string -> cell -> Net coords) (key : string) (address_query : cell)
    (h : list exchange) :
  geocoder remote crs get ->
  address_query = CNone \/ address_query = CStr "" \/
    address_query = CFloat S754_nan ->
  get key address_query h = (unresolved, h) /\
  forall address_of record_of row rest acc,
    address_of row = address_query ->
    geocode_loop remote crs key address_of record_of (row :: rest) acc h =
    geocode_loop remote crs key address_of record_of rest
      (acc ++ [record_of row unresolved]) h.
Proof.
  intros Hg Haddr.
  assert (Hb : blank address_query = true)
    by (destruct Haddr as [-> | [-> | ->]]; reflexivity).
  split.
  - rewrite (geocoder_unfold _ _ _ Hg). now apply get_coordinate_blank.
  - intros address_of record_of row rest acc Hrow.
    cbn [geocode_loop]. unfold bind.
    now rewrite Hrow, (get_coordinate_blank remote crs key address_query h Hb).
Qed.

Lemma blank_address_issues_no_request_witness :
  geocoder parcel_only "EPSG:4326" (GeocodingPublic.get_coordinate parcel_only) /\
  (CFloat S754_nan = CNone \/ CFloat S754_nan = CStr "" \/
     CFloat S754_nan = CFloat S754_nan) /\
  GeocodingPublic.get_coordinate parcel_only "key" (CFloat S754_nan) [] =
    (unresolved, []).
Proof.
  assert (Hg : geocoder parcel_only "EPSG:4326"
                 (GeocodingPublic.get_coordinate parcel_only))
    by (right; split; reflexivity).
  assert (Ha : CFloat S754_nan = CNone \/ CFloat S754_nan = CStr "" \/
               CFloat S754_nan = CFloat S754_nan)
    by (right; right; reflexivity).
  split; [exact Hg | split; [exact Ha |]].
  exact (proj1 (blank_address_issues_no_request parcel_only "EPSG:4326" _
                  "key" (CFloat S754_nan) [] Hg Ha)).
Defined.

(** C8. In both geocoding scripts: when an exchange made by
    [get_coordinate] got a response whose status is neither [OK] nor
    [NOT_FOUND], no exchange follows it and the result is [(None, None)]. *)
Theorem definitive_error_ends_query
    (remote : list exchange -> request -> response) (crs : string)
    (get : string -> cell -> Net coords) (key : string) (address_query : cell)
    (h h' : list exchange) (r : coords)
    (pre : list exchange) (x : exchange) (post : list exchange) :
  geocoder remote crs get ->
  get key address_query h = (r, h') ->
  h' = h ++ pre ++ x :: post ->
  definitive_error (snd x) ->
  post = [] /\ r = unresolved.
Proof.
  intros Hg Hrun Hsplit Herr. rewrite (geocoder_unfold _ _ _ Hg) in Hrun.
  unfold get_coordinate_crs in Hrun.
  destruct (blank address_query).
  - inversion Hrun; subst. apply app_self_nil in H1.
    destruct pre; discriminate.
  - apply try_types_abort in Hrun. destruct Hrun as (new & -> & Hnew).
    apply app_inv_head in Hsplit.
    apply (Hnew pre x post Hsplit). now apply classify_definitive_error.
Qed.

Lemma definitive_error_ends_query_witness :
  let road := AddressReq "EPSG:5179" "key" "ROAD" city_hall in
  let get := GeocodingXY.get_coordinate (always error_response) in
  geocoder (always error_response) "EPSG:5179" get /\
  get "key" city_hall [] = (unresolved, [(road, Body error_response)]) /\
  [(road, Body error_response)] = [] ++ [] ++ (road, Body error_response) :: [] /\
  definitive_error (Body error_response) /\
  (@nil exchange = [] /\ unresolved = unresolved).
Proof.
  intros road get.
  assert (Hg : geocoder (always error_response) "EPSG:5179" get)
    by (left; split; reflexivity).
  assert (Hrun : get "key" city_hall [] =
                 (unresolved, [(road, Body error_response)]))
    by reflexivity.
  assert (Herr : definitive_error (Body error_response)).
  { exists error_response, (PStr "ERROR").
    repeat split; try reflexivity; discriminate. }
  split; [exact Hg |]. split; [exact Hrun |]. split; [reflexivity |].
  split; [exact Herr |].
  exact (definitive_error_ends_query (always error_response) "EPSG:5179" get
           "key" city_hall [] _ unresolved [] (road, Body error_response) []
           Hg Hrun eq_refl Herr).
Defined.

(** C1, as the spec states it, fails: a [ROAD] response with status [OK]
    and no coordinates is not a "not found" report, and the [PARCEL] attempt
    is made all the same. *)
Lemma fallback_without_not_found :
  let remote := always ok_empty_point in
  let road := AddressReq "EPSG:4326" "key" "ROAD" city_hall in
  let parcel := AddressReq "EPSG:4326" "key" "PARCEL" city_hall in
  map fst (snd (GeocodingPublic.get_coordinate remote "key" city_hall [])) =
    [road; parcel] /\
  ~ reports (remote [] road) "NOT_FOUND".
Proof.
  split; [reflexivity |].
  intros (data & Hbody & Hstatus). inversion Hbody; subst data. discriminate.
Qed.

(** C1, amended. In both geocoding scripts, for an address that is not
    blank: the [ROAD] request is issued first; it is followed by exactly one
    more request, the [PARCEL] one, if and only if the [ROAD] response
    reports [NOT_FOUND] or reports [OK] without a usable coordinate pair,
    and by none otherwise; when neither response resolves the address the
    result is [(None, None)].  ([get_coordinate] is a total function: no
    exception leaves it.) *)
Theorem road_first_then_one_parcel_fallback
    (remote : list exchange -> request -> response) (crs : string)
    (get : string -> cell -> Net coords) (key : string) (address_query : cell)
    (h h' : list exchange) (r : coords) :
  geocoder remote crs get ->
  blank address_query = false ->
  get key address_query h = (r, h') ->
  let road := AddressReq crs key "ROAD" address_query in
  let parcel := AddressReq crs key "PARCEL" address_query in
  let r1 := remote h road in
  let r2 := remote (h ++ [(road, r1)]) parcel in
  (h' = h ++ [(road, r1)] \/ h' = h ++ [(road, r1); (parcel, r2)]) /\
  (h' = h ++ [(road, r1); (parcel, r2)] <->
     reports r1 "NOT_FOUND" \/ ok_without_point r1) /\
  ((forall xy, ~ resolves r1 xy) -> (forall xy, ~ resolves r2 xy) ->
   r = unresolved).
Proof.
  intros Hg Hb Hrun road parcel r1 r2.
  rewrite (geocoder_unfold _ _ _ Hg) in Hrun.
  rewrite (get_coordinate_unfold remote crs key address_query h Hb) in Hrun.
  fold road parcel r1 in Hrun. fold r2 in Hrun.
  rewrite <- classify_next.
  assert (Hdiff : h ++ [(road, r1)] <> h ++ [(road, r1); (parcel, r2)]).
  { intros H. apply app_inv_head in H. discriminate. }
  destruct (classify r1) as [x y | |] eqn:Hc1.
  - inversion Hrun; subst. split; [now left |]. split.
    + split; [intros H; now apply Hdiff in H | discriminate].
    + intros Hn _. apply classify_found in Hc1. now apply Hn in Hc1.
  - assert (Hh : h' = (h ++ [(road, r1)]) ++ [(parcel, r2)])
      by (destruct (classify r2); now inversion Hrun).
    rewrite <- app_assoc in Hh. simpl in Hh.
    split; [now right |]. split; [tauto |].
    intros _ Hn. destruct (classify r2) as [x y | |] eqn:Hc2;
      try (now inversion Hrun).
    apply classify_found in Hc2. now apply Hn in Hc2.
  - inversion Hrun; subst. split; [now left |]. split.
    + split; [intros H; now apply Hdiff in H | discriminate].
    + reflexivity.
Qed.

Lemma road_first_then_one_parcel_fallback_witness :
  let get := GeocodingXY.get_coordinate parcel_only in
  let road := AddressReq "EPSG:5179" "key" "ROAD" city_hall in
  let parcel := AddressReq "EPSG:5179" "key" "PARCEL" city_hall in
  let r1 := parcel_only [] road in
  let r2 := parcel_only ([] ++ [(road, r1)]) parcel in
  let h' := [(road, r1); (parcel, r2)] in
  let r := (PStr "126.9784", PStr "37.5667") in
  geocoder parcel_only "EPSG:5179" get /\
  blank city_hall = false /\
  get "key" city_hall [] = (r, h') /\
  (h' = [] ++ [(road, r1)] \/ h' = [] ++ [(road, r1); (parcel, r2)]) /\
  (h' = [] ++ [(road, r1); (parcel, r2)] <->
     reports r1 "NOT_FOUND" \/ ok_without_point r1) /\
  ((forall xy, ~ resolves r1 xy) -> (forall xy, ~ resolves r2 xy) ->
   r = unresolved).
Proof.
  intros get road parcel r1 r2 h' r.
  assert (Hg : geocoder parcel_only "EPSG:5179" get)
    by (left; split; reflexivity).
  assert (Hb : blank city_hall = false) by reflexivity.
  assert (Hrun : get "key" city_hall [] = (r, h')) by reflexivity.
  split; [exact Hg |]. split; [exact Hb |]. split; [exact Hrun |].
  exact (road_first_then_one_parcel_fallback parcel_only "EPSG:5179" get
           "key" city_hall [] h' r Hg Hb Hrun).
Defined.

(** ** The [main] functions of the geocoding scripts *)

Section GeocodeLoop.

Context {rt : PyRuntime}.
Variable remote : list exchange -> request -> response.

Lemma geocode_loop_rows (crs key : string) (address_of : list cell -> cell)
    (record_of : list cell -> coords -> list pyval) :
  forall (input : list (list cell)) (acc : list (list pyval))
         (h h' : list exchange) (out : list (list pyval)),
    geocode_loop remote crs key address_of record_of input acc h = (out, h') ->
    exists found : list coords,
      List.length found = List.length input /\
      out = acc ++ map (fun p => record_of (fst p) (snd p))
                       (combine input found) /\
      Forall2 (fun row xy =>
                 answered_by (get_coordinate_crs remote crs) key
                             (address_of row) xy)
              input found.
Proof.
  induction input as [| row rest IH]; intros acc h h' out Hrun.
  - inversion Hrun; subst. exists []. simpl. rewrite app_nil_r. auto.
  - cbn [geocode_loop] in Hrun. unfold bind in Hrun.
    destruct (get_coordinate_crs remote crs key (address_of row) h)
      as [xy h1] eqn:Hget.
    apply IH in Hrun. destruct Hrun as (found & Hlen & -> & Hall).
    exists (xy :: found). simpl. rewrite <- app_assoc. simpl.
    repeat split; [now rewrite Hlen | ].
    constructor; [now exists h, h1 | exact Hall].
Qed.

Lemma geocode_table_resultset (e : env) (crs key : string)
    (address_of : list cell -> cell)
    (record_of : list cell -> coords -> list pyval)
    (input : table) (file : string) (cols : list string) :
  exists found : list coords,
    List.length found = List.length (rows input) /\
    resultset (geocode_table remote e crs key address_of record_of
                 input file cols) =
      map (fun p => record_of (fst p) (snd p)) (combine (rows input) found) /\
    Forall2 (fun row xy =>
               answered_by (get_coordinate_crs remote crs) key
                           (address_of row) xy)
            (rows input) found.
Proof.
  unfold geocode_table.
  destruct (geocode_loop remote crs key address_of record_of (rows input) [] [])
    as [out h] eqn:Hrun.
  apply geocode_loop_rows in Hrun. destruct Hrun as (found & Hlen & -> & Hall).
  exists found. simpl.
  destruct (is_nil _); [| destruct (save _ _ _)]; simpl; auto.
Qed.

End GeocodeLoop.

(** C5. In both geocoding scripts, once the key and the input table are
    read, the result set of the run holds one row per row of the input, in
    the order of the input: the row of the input (all its cells in
    [geocoding_xy.py], its four named cells in [geocoding_public.py])
    followed by the pair that [get_coordinate] returned for its address,
    which is [(None, None)] when the address was not resolved. *)
Theorem one_row_per_query {rt : PyRuntime}
    (remote : list exchange -> request -> response) (e : env) (key : string)
    (df_xy df_public : table) :
  read_text e "key.txt" = Some key ->
  read_csv e "주소목록.csv" = Some df_xy ->
  read_csv e "seoul_kiosk_list.csv" = Some df_public ->
  (exists found : list coords,
     List.length found = List.length (rows df_xy) /\
     resultset (GeocodingXY.main remote e) =
       map (fun p => map pyval_of_cell (fst p) ++ [fst (snd p); snd (snd p)])
           (combine (rows df_xy) found) /\
     Forall2 (fun row xy =>
                answered_by (GeocodingXY.get_coordinate remote) key
                  (row_get (columns df_xy) row "주소") xy)
             (rows df_xy) found) /\
  (exists found : list coords,
     List.length found = List.length (rows df_public) /\
     resultset (GeocodingPublic.main remote e) =
       map (fun p =>
              let get name :=
                pyval_of_cell (row_get (columns df_public) (fst p) name) in
              [get "MGTNO"; get "OPNSFTEAMNM"; get "KIOSKNM"; get "ESBPLCADDR";
               fst (snd p); snd (snd p)])
           (combine (rows df_public) found) /\
     Forall2 (fun row xy =>
                answered_by (GeocodingPublic.get_coordinate remote) key
                  (row_get (columns df_public) row "ESBPLCADDR") xy)
             (rows df_public) found).
Proof.
  intros Hkey Hxy Hpublic. split.
  - unfold GeocodingXY.main. rewrite Hkey, Hxy.
    apply geocode_table_resultset.
  - unfold GeocodingPublic.main. rewrite Hkey, Hpublic.
    apply geocode_table_resultset.
Qed.

Lemma one_row_per_query_witness :
  read_text desk "key.txt" = Some "key" /\
  read_csv desk "주소목록.csv" = Some addresses /\
  read_csv desk "seoul_kiosk_list.csv" = Some kiosks /\
  List.length (resultset (@GeocodingXY.main reference_runtime parcel_only desk))
    = 2%nat /\
  List.length (resultset (@GeocodingPublic.main reference_runtime parcel_only desk))
    = 1%nat.
Proof.
  assert (Hkey : read_text desk "key.txt" = Some "key") by reflexivity.
  assert (Hxy : read_csv desk "주소목록.csv" = Some addresses) by reflexivity.
  assert (Hpublic : read_csv desk "seoul_kiosk_list.csv" = Some kiosks)
    by reflexivity.
  split; [exact Hkey |]. split; [exact Hxy |]. split; [exact Hpublic |].
  destruct (@one_row_per_query reference_runtime parcel_only desk "key"
              addresses kiosks Hkey Hxy Hpublic)
    as [(f1 & Hl1 & -> & _) (f2 & Hl2 & -> & _)].
  rewrite !length_map, !length_combine, Hl1, Hl2. split; reflexivity.
Defined.

(** C4. When the key file cannot be read, each of the four scripts that
    read one reports it, issues no request and writes no file.  (In
    [geocoding_bank.py] the run goes on to the search loop, whose first call
    fails on the unbound [key] before any request; [kiosk_crawler.py] reads
    no key file.) *)
Theorem unreadable_key_stops_run {rt : PyRuntime}
    (remote : list exchange -> request -> response) (fuel : nat) (e : env) :
  read_text e "key.txt" = None ->
  read_text e "public_key.txt" = None ->
  stopped_for_key (GeocodingXY.main remote e) /\
  stopped_for_key (GeocodingPublic.main remote e) /\
  stopped_for_key (GeocodingBank.main remote e) /\
  exists r, PublicApi.main remote fuel e = Some r /\ stopped_for_key r.
Proof.
  intros Hkey Hpublic.
  unfold GeocodingXY.main, GeocodingPublic.main, GeocodingBank.main,
    PublicApi.main.
  rewrite Hkey, Hpublic. unfold stopped_for_key. simpl.
  repeat split; auto.
  eexists. split; [reflexivity |]. simpl. auto.
Qed.

Lemma unreadable_key_stops_run_witness :
  read_text no_files "key.txt" = None /\
  read_text no_files "public_key.txt" = None /\
  stopped_for_key (@GeocodingXY.main reference_runtime parcel_only no_files) /\
  stopped_for_key (@GeocodingPublic.main reference_runtime parcel_only no_files) /\
  stopped_for_key (@GeocodingBank.main reference_runtime parcel_only no_files) /\
  exists r, @PublicApi.main reference_runtime parcel_only 0 no_files = Some r /\
            stopped_for_key r.
Proof.
  split; [reflexivity |]. split; [reflexivity |].
  exact (@unreadable_key_stops_run reference_runtime parcel_only 0 no_files
           eq_refl eq_refl).
Defined.

(** ** The place search *)

Ltac break_match :=
  match goal with
  | H : context [match ?x with _ => _ end] |- _ => destruct x eqn:?
  | |- context [match ?x with _ => _ end] => destruct x eqn:?
  end.

Section SearchFacts.

Context {rt : PyRuntime}.
Variable remote : list exchange -> request -> response.

Import GeocodingBank.

Lemma for_items_acc (l : list pyval) :
  forall acc,
    for_items l acc = (acc ++ fst (for_items l []), snd (for_items l [])).
Proof.
  induction l as [| item rest IH]; intros acc; simpl.
  - now rewrite app_nil_r.
  - destruct (filter_item item) as [[p | | |] | e]; simpl;
      try apply IH; try now rewrite app_nil_r.
    rewrite (IH (acc ++ [p])), (IH [p]). simpl.
    now rewrite <- app_assoc.
Qed.

Lemma for_items_clean (l : list pyval) :
  (forall item, In item l -> raises (filter_item item) = false) ->
  forall acc, for_items l acc = (acc ++ flat_map row_of l, None).
Proof.
  induction l as [| item rest IH]; intros Hclean acc; simpl.
  - now rewrite app_nil_r.
  - assert (Hitem := Hclean item (or_introl eq_refl)).
    assert (Hrest : forall i, In i rest -> raises (filter_item i) = false)
      by (intros i Hi; apply Hclean; now right).
    unfold row_of at 1.
    destruct (filter_item item) as [[p | | |] | e]; simpl in *;
      try discriminate; try now apply IH.
    rewrite (IH Hrest). now rewrite <- app_assoc.
Qed.

Lemma for_items_in (l : list pyval) (p : place) :
  In p (fst (for_items l [])) ->
  exists item, In item l /\ filter_item item = Ok (Added p).
Proof.
  induction l as [| item rest IH]; simpl; [tauto |].
  destruct (filter_item item) as [[q | | |] | e] eqn:Hf; simpl;
    try (intros H; destruct (IH H) as (i & Hi & Hp); exists i; auto);
    try tauto.
  rewrite for_items_acc. simpl. intros [<- | H].
  - exists item. auto.
  - destruct (IH H) as (i & Hi & Hp). exists i. auto.
Qed.

Lemma handle_page_rows (st : loop_state) (data : pyval) :
  all_items (flow_state (handle_page st data)) =
  all_items st ++ page_rows (current_page st) data.
Proof.
  unfold handle_page, page_rows, read_totals.
  destruct (response_status data) as [status | e]; simpl;
    [| now rewrite app_nil_r].
  destruct (is_str status "OK"); simpl.
  2:{ destruct (is_str status "NOT_FOUND"); [| destruct (api_error_text data)];
      simpl; now rewrite app_nil_r. }
  destruct (current_page st =? 1).
  - destruct (first_page_totals data) as [[total results] | e]; simpl;
      [| now rewrite app_nil_r].
    destruct (results =? 0); simpl; [now rewrite app_nil_r |].
    destruct (page_items data) as [[| l] | e]; simpl;
      try now rewrite app_nil_r.
    rewrite for_items_acc. destruct (snd (for_items l [])); reflexivity.
  - simpl. destruct (page_items data) as [[| l] | e]; simpl;
      try now rewrite app_nil_r.
    rewrite for_items_acc. destruct (snd (for_items l [])); reflexivity.
Qed.

Lemma handle_page_continue (st st' : loop_state) (data : pyval) :
  handle_page st data = Continue st' ->
  current_page st' = current_page st + 1 /\
  (current_page st <> 1 -> total_pages st' = total_pages st).
Proof.
  unfold handle_page, read_totals. intros H.
  repeat break_match; try discriminate; inversion H; subst; simpl;
    (split; [reflexivity |]); intros Hne;
    try (apply Z.eqb_eq in Heqb0; contradiction);
    try (apply Z.eqb_eq in Heqb1; contradiction);
    match goal with
    | E : Ok _ = Ok _ |- _ => inversion E; subst; reflexivity
    end.
Qed.

Lemma fetch_page_unfold (key query : string) (st : loop_state)
    (h : list exchange) :
  let req := SearchReq key query (current_page st) in
  let r := remote h req in
  fetch_page remote key query st h =
  (match r with
   | Body data => handle_page st data
   | Fails e => Break (StopException e) st
   end, h ++ [(req, r)]).
Proof. reflexivity. Qed.

Lemma fetch_page_rows (key query : string) (st : loop_state)
    (h : list exchange) :
  let req := SearchReq key query (current_page st) in
  all_items (flow_state (fst (fetch_page remote key query st h))) =
  all_items st ++ contributed (req, remote h req).
Proof.
  intros req. rewrite fetch_page_unfold. fold req. simpl.
  destruct (remote h req) as [data | e]; simpl.
  - apply handle_page_rows.
  - now rewrite app_nil_r.
Qed.

Lemma fetch_page_failed (key query : string) (st : loop_state)
    (h : list exchange) :
  let req := SearchReq key query (current_page st) in
  page_failed (req, remote h req) ->
  exists why st', fst (fetch_page remote key query st h) = Break why st'.
Proof.
  intros req. rewrite fetch_page_unfold. fold req. simpl.
  destruct (remote h req) as [data | e]; simpl.
  - intros H. destruct (H st eq_refl) as (e & st' & ->). eauto.
  - eauto.
Qed.

(** The trace of the loop: the output is what the state held plus what each
    exchange contributed, and a failed fetch is the last exchange. *)
Lemma while_pages_trace (key query : string) :
  forall (fuel : nat) (st : loop_state) (h h' : list exchange)
         (out : list place),
    while_pages remote fuel key query st h = (out, h') ->
    exists new,
      h' = h ++ new /\
      out = all_items st ++ flat_map contributed new /\
      forall pre x post,
        new = pre ++ x :: post -> page_failed x -> post = [].
Proof.
  induction fuel as [| n IH]; intros st h h' out Hrun.
  - inversion Hrun; subst. exists []. rewrite !app_nil_r.
    repeat split. intros [| ? ?] ? ? ?; discriminate.
  - cbn [while_pages] in Hrun.
    destruct (current_page st <=? total_pages st).
    2:{ inversion Hrun; subst. exists []. rewrite !app_nil_r.
        repeat split. intros [| ? ?] ? ? ?; discriminate. }
    unfold bind in Hrun.
    pose proof (fetch_page_rows key query st h) as Hrows.
    pose proof (fetch_page_failed key query st h) as Hfail.
    rewrite fetch_page_unfold in Hrun, Hrows, Hfail.
    cbn zeta in Hrun, Hrows, Hfail. cbn [fst] in Hrows, Hfail.
    set (req := SearchReq key query (current_page st)) in *.
    set (r := remote h req) in *.
    destruct (match r with
              | Body data => handle_page st data
              | Fails e => Break (StopException e) st
              end) as [st' | why st'] eqn:Hflow; simpl in Hrows.
    + apply IH in Hrun. destruct Hrun as (new & -> & -> & Hlast).
      exists ((req, r) :: new). rewrite <- app_assoc. split; [reflexivity |].
      split.
      * cbn [flat_map]. rewrite Hrows. now rewrite <- app_assoc.
      * intros [| p pre] x post Hsplit Hx; inversion Hsplit; subst.
        -- destruct (Hfail Hx) as (why & st'' & Hbreak). discriminate.
        -- eapply Hlast; eauto.
    + inversion Hrun; subst. exists [(req, r)]. split; [reflexivity |].
      split.
      * cbn [flat_map]. rewrite app_nil_r. exact Hrows.
      * intros [| ? [| ? ?]] x post Hsplit Hx; inversion Hsplit; reflexivity.
Qed.

Lemma search_place_trace (key query : string) (h h' : list exchange)
    (out : list place) :
  search_place remote key query h = (out, h') ->
  exists new,
    h' = h ++ new /\
    out = flat_map contributed new /\
    forall pre x post,
      new = pre ++ x :: post -> page_failed x -> post = [].
Proof.
  unfold search_place, bind. intros Hrun.
  pose proof (fetch_page_rows key query initial_state h) as Hrows.
  pose proof (fetch_page_failed key query initial_state h) as Hfail.
  rewrite fetch_page_unfold in Hrun, Hrows, Hfail.
  cbn zeta in Hrun, Hrows, Hfail. cbn [fst] in Hrows, Hfail.
  set (req := SearchReq key query (current_page initial_state)) in *.
  set (r := remote h req) in *.
  destruct (match r with
            | Body data => handle_page initial_state data
            | Fails e => Break (StopException e) initial_state
            end) as [st' | why st'] eqn:Hflow; simpl in Hrows.
  - apply while_pages_trace in Hrun. destruct Hrun as (new & -> & -> & Hlast).
    exists ((req, r) :: new). rewrite <- app_assoc. split; [reflexivity |].
    split.
    + cbn [flat_map]. now rewrite Hrows.
    + intros [| p pre] x post Hsplit Hx; inversion Hsplit; subst.
      * destruct (Hfail Hx) as (why & st'' & Hbreak). discriminate.
      * eapply Hlast; eauto.
  - inversion Hrun; subst. exists [(req, r)]. split; [reflexivity |].
    split.
    + cbn [flat_map]. rewrite app_nil_r. exact Hrows.
    + intros [| ? [| ? ?]] x post Hsplit Hx; inversion Hsplit; reflexivity.
Qed.

(** *** One item *)

Lemma filter_item_atm (item : pyval) (s : string) :
  py_get item "title" (PStr "N/A") = Ok (PStr s) ->
  contains "ATM" (str_upper s) = true ->
  filter_item item = Ok FilteredAtm.
Proof.
  intros Ht Hatm. unfold filter_item. rewrite Ht. simpl. now rewrite Hatm.
Qed.

Lemma filter_item_title (item : pyval) (p : place) :
  filter_item item = Ok (Added p) ->
  exists s,
    py_get item "title" (PStr "N/A") = Ok (PStr s) /\
    contains "ATM" (str_upper s) = false /\
    fst (fst p) = PStr s.
Proof.
  unfold filter_item. intros H.
  destruct (py_get item "title" (PStr "N/A")) as [title | e]; [| discriminate].
  simpl in H. destruct title; try discriminate. simpl in H.
  destruct (contains "ATM" (str_upper s)) eqn:Hatm; [discriminate |].
  exists s. split; [reflexivity |]. split; [exact Hatm |].
  destruct (py_get item "address" (PDict [])) as [address | e];
    [| discriminate]; simpl in H.
  destruct (py_get address "road" (PStr "")) as [road | e];
    [| discriminate]; simpl in H.
  destruct (py_in "서울" road) as [[|] | e]; try discriminate; simpl in H.
  destruct (py_getitem item "point") as [point | e]; simpl in H.
  2:{ destruct e; discriminate. }
  destruct (py_getitem point "x") as [x | e]; simpl in H.
  2:{ destruct e; discriminate. }
  destruct (py_getitem point "y") as [y | e]; simpl in H.
  2:{ destruct e; discriminate. }
  inversion H. reflexivity.
Qed.

Lemma filter_item_region (item : pyval) (s : string) (x y : pyval) :
  py_get item "title" (PStr "N/A") = Ok (PStr s) ->
  contains "ATM" (str_upper s) = false ->
  filter_item item = Ok (Added (PStr s, x, y)) <->
  (exists road, road_address item = Ok road /\ py_in "서울" road = Ok true) /\
  item_point item = Ok (x, y).
Proof.
  intros Ht Hatm. unfold filter_item, road_address, item_point.
  rewrite Ht. simpl. rewrite Hatm.
  destruct (py_get item "address" (PDict [])) as [address | e]; simpl.
  2:{ split; [discriminate | intros [(road & H & _) _]; discriminate]. }
  destruct (py_get address "road" (PStr "")) as [road | e]; simpl.
  2:{ split; [discriminate | intros [(road & H & _) _]; discriminate]. }
  destruct (py_in "서울" road) as [[|] | e] eqn:Hin; simpl.
  2,3: split; [discriminate |];
       intros [(road' & H & H') _]; inversion H; subst; congruence.
  destruct (py_getitem item "point") as [point | e]; simpl.
  2:{ split; [destruct e; discriminate | intros [_ H]; discriminate]. }
  destruct (py_getitem point "x") as [x' | e]; simpl.
  2:{ split; [destruct e; discriminate | intros [_ H]; discriminate]. }
  destruct (py_getitem point "y") as [y' | e]; simpl.
  2:{ split; [destruct e; discriminate | intros [_ H]; discriminate]. }
  split.
  - intros H. inversion H; subst. split; [exists road |]; auto.
  - intros [_ H]. inversion H; subst. reflexivity.
Qed.

(** *** The loop *)

Lemma page_requests_S (key query : string) (first : Z) (count : nat) :
  page_requests key query first (S count) =
  SearchReq key query first :: page_requests key query (first + 1) count.
Proof.
  unfold page_requests. cbn [seq map]. rewrite Z.add_0_r. f_equal.
  rewrite <- seq_shift, map_map. apply map_ext. intros i.
  f_equal. lia.
Qed.

Lemma handle_page_clean (st : loop_state) (data : pyval) (total : Z) :
  page_clean (current_page st) total data ->
  current_page st = 1 \/ total_pages st = total ->
  exists acc,
    handle_page st data =
    Continue {| current_page := current_page st + 1;
                total_pages := total;
                all_items := acc |}.
Proof.
  intros (Hs & Ht & Hitems) Hfirst. unfold handle_page, read_totals.
  rewrite Hs, is_str_refl. cbn [negb].
  assert (Htot : (if current_page st =? 1
                  then totals <- first_page_totals data ;;
                       Ok (fst totals, snd totals =? 0)
                  else Ok (total_pages st, false)) = Ok (total, false)).
  { destruct (current_page st =? 1) eqn:Hp.
    - apply Z.eqb_eq in Hp. destruct (Ht Hp) as (results & -> & Hne). simpl.
      apply Z.eqb_neq in Hne. now rewrite Hne.
    - apply Z.eqb_neq in Hp. destruct Hfirst as [? | ->]; [contradiction |].
      reflexivity. }
  rewrite Htot.
  destruct Hitems as [-> | (l & -> & Hclean)].
  - eauto.
  - rewrite (for_items_clean l Hclean). eauto.
Qed.

Section CleanHarvest.

Variables (key query : string) (total : Z).

Hypothesis remote_clean :
  forall h page, 1 <= page <= total ->
    exists data, remote h (SearchReq key query page) = Body data /\
                 page_clean page total data.

Lemma while_pages_clean :
  forall (count fuel : nat) (st : loop_state) (h : list exchange),
    total_pages st = total ->
    2 <= current_page st ->
    current_page st + Z.of_nat count = total + 1 ->
    (count <= fuel)%nat ->
    map fst (snd (while_pages remote fuel key query st h)) =
    map fst h ++ page_requests key query (current_page st) count.
Proof.
  induction count as [| c IH]; intros fuel st h Htot Hlo Hhi Hfuel.
  - unfold page_requests. simpl. rewrite app_nil_r.
    destruct fuel as [| n]; [reflexivity |]. cbn [while_pages].
    assert (Hguard : (current_page st <=? total_pages st) = false)
      by (apply Z.leb_gt; lia).
    now rewrite Hguard.
  - destruct fuel as [| n]; [lia |]. cbn [while_pages].
    assert (Hguard : (current_page st <=? total_pages st) = true)
      by (apply Z.leb_le; lia).
    rewrite Hguard. unfold bind. rewrite fetch_page_unfold. cbn zeta.
    destruct (remote_clean h (current_page st)) as (data & Hr & Hclean);
      [lia |].
    rewrite Hr.
    destruct (handle_page_clean st data total Hclean (or_intror Htot))
      as (acc & ->).
    rewrite IH; cbn [current_page total_pages]; try lia.
    rewrite map_app, <- app_assoc, page_requests_S. reflexivity.
Qed.

Lemma search_place_clean (h : list exchange) :
  1 <= total ->
  map fst (snd (search_place remote key query h)) =
  map fst h ++ page_requests key query 1 (Z.to_nat total).
Proof.
  intros Hpos. unfold search_place, bind. rewrite fetch_page_unfold.
  cbn zeta.
  destruct (remote_clean h 1) as (data & Hr & Hclean); [lia |].
  cbn [current_page initial_state]. rewrite Hr.
  destruct (handle_page_clean initial_state data total Hclean
              (or_introl eq_refl)) as (acc & ->).
  cbn [total_pages current_page initial_state].
  replace (Z.to_nat total) with (S (Z.to_nat (total - 1))) at 2 by lia.
  rewrite page_requests_S.
  rewrite (while_pages_clean (Z.to_nat (total - 1)));
    cbn [current_page total_pages]; try lia.
  rewrite map_app, <- app_assoc. reflexivity.
Qed.

End CleanHarvest.

(** *** The function and the loop of the source *)

Lemma while_pages_exec (key query : string) :
  forall (fuel : nat) (st : loop_state) (h : list exchange),
    2 <= current_page st ->
    (Z.to_nat (total_pages st + 1 - current_page st) <= fuel)%nat ->
    while_exec remote key query st h
      (fst (while_pages remote fuel key query st h))
      (snd (while_pages remote fuel key query st h)).
Proof.
  induction fuel as [| n IH]; intros st h Hlo Hfuel.
  - apply while_done. apply Z.leb_gt. lia.
  - cbn [while_pages].
    destruct (current_page st <=? total_pages st) eqn:Hguard.
    2:{ now apply while_done. }
    unfold bind.
    destruct (fetch_page remote key query st h) as [[st' | why st'] h1] eqn:Hf.
    + assert (Hst : current_page st' = current_page st + 1 /\
                    (current_page st <> 1 -> total_pages st' = total_pages st)).
      { rewrite fetch_page_unfold in Hf. cbn zeta in Hf.
        destruct (remote h _); inversion Hf.
        eapply handle_page_continue; eauto. }
      destruct Hst as [Hcur Htot].
      assert (Htot' : total_pages st' = total_pages st) by (apply Htot; lia).
      eapply while_continue; [exact Hguard | exact Hf |]. apply IH; lia.
    + eapply while_break; [exact Hguard | exact Hf].
Qed.

(** [search_place] computes what the [while] loop of the source does from
    [current_page = 1], [total_pages = 1] and no items. *)
Lemma search_place_exec (key query : string) (h : list exchange) :
  while_exec remote key query initial_state h
    (fst (search_place remote key query h))
    (snd (search_place remote key query h)).
Proof.
  unfold search_place, bind.
  destruct (fetch_page remote key query initial_state h)
    as [[st' | why st'] h1] eqn:Hf.
  - assert (Hcur : current_page st' = 2).
    { rewrite fetch_page_unfold in Hf. cbn zeta in Hf.
      destruct (remote h _); inversion Hf.
      match goal with
      | H : handle_page _ _ = Continue _ |- _ =>
          apply handle_page_continue in H; destruct H as [-> _]
      end.
      reflexivity. }
    eapply while_continue; [reflexivity | exact Hf |].
    apply while_pages_exec; lia.
  - eapply while_break; [reflexivity | exact Hf].
Qed.

End SearchFacts.

Lemma page_rows_in {rt : PyRuntime} (page : Z) (data : pyval) (p : place) :
  In p (page_rows page data) ->
  exists l item,
    GeocodingBank.page_items data = Ok (Items l) /\ In item l /\
    GeocodingBank.filter_item item = Ok (Added p).
Proof.
  unfold page_rows. intros H.
  repeat break_match; simpl in H; try contradiction.
  all: apply for_items_in in H; destruct H as (item & Hin & Hf); eauto.
Qed.

Lemma page_rows_clean {rt : PyRuntime} (page total : Z) (data : pyval)
    (l : list pyval) :
  page_clean page total data ->
  GeocodingBank.page_items data = Ok (Items l) ->
  page_rows page data = flat_map row_of l.
Proof.
  intros (Hs & Ht & Hitems) Hl. unfold page_rows.
  rewrite Hs, is_str_refl, Hl.
  destruct Hitems as [Hno | (l' & Hl' & Hclean)]; [congruence |].
  assert (l' = l) by congruence. subst l'.
  rewrite (for_items_clean l Hclean []). simpl.
  destruct (page =? 1) eqn:Hp; [| reflexivity].
  apply Z.eqb_eq in Hp. destruct (Ht Hp) as (results & -> & Hne). simpl.
  apply Z.eqb_neq in Hne. now rewrite Hne.
Qed.

(** C6. An item whose title, in upper case, contains "ATM" gets the verdict
    [FilteredAtm] whatever its address is (the address is not looked at, so
    even one that would make the region test raise does no harm), the loop
    over the items passes over it, and no harvest returns a row with that
    title. *)
Theorem atm_title_never_collected {rt : PyRuntime} (item : pyval) (s : string) :
  py_get item "title" (PStr "N/A") = Ok (PStr s) ->
  contains "ATM" (str_upper s) = true ->
  GeocodingBank.filter_item item = Ok FilteredAtm /\
  (forall items acc,
     GeocodingBank.for_items (item :: items) acc =
     GeocodingBank.for_items items acc) /\
  (forall remote key query h x y,
     ~ In (PStr s, x, y) (fst (GeocodingBank.search_place remote key query h))).
Proof.
  intros Ht Hatm.
  pose proof (filter_item_atm item s Ht Hatm) as Hf.
  split; [exact Hf |]. split.
  - intros items acc. simpl. now rewrite Hf.
  - intros remote key query h x y Hin.
    destruct (GeocodingBank.search_place remote key query h) as [out h'] eqn:Hrun.
    apply search_place_trace in Hrun. destruct Hrun as (new & _ & -> & _).
    simpl in Hin. apply in_flat_map in Hin.
    destruct Hin as ([req r] & _ & Hin). unfold contributed in Hin.
    destruct req; try contradiction. destruct r; try contradiction.
    apply page_rows_in in Hin. destruct Hin as (l & item' & _ & _ & Hadd).
    apply filter_item_title in Hadd.
    destruct Hadd as (s' & _ & Hnot & Heq). simpl in Heq.
    inversion Heq; subst s'. congruence.
Qed.

Lemma atm_title_never_collected_witness :
  py_get atm_corner "title" (PStr "N/A") = Ok (PStr "Woori atm 365") /\
  contains "ATM" (@str_upper reference_runtime "Woori atm 365") = true /\
  @GeocodingBank.filter_item reference_runtime atm_corner = Ok FilteredAtm.
Proof.
  split; [reflexivity |]. split; [reflexivity |].
  exact (proj1 (@atm_title_never_collected reference_runtime atm_corner
                  "Woori atm 365" eq_refl eq_refl)).
Defined.

(** C2, as the spec states it, fails: an item that passes the exclusion
    filter and whose road address contains "서울" is left out when it
    carries no coordinates. *)
Lemma seoul_item_without_point_dropped :
  let remote := always (search_page "1" "1" [branch_without_point]) in
  py_get branch_without_point "title" (PStr "N/A") =
    Ok (PStr "Woori Bank Jongno") /\
  contains "ATM" (@str_upper reference_runtime "Woori Bank Jongno") = false /\
  road_address branch_without_point = Ok (PStr "서울특별시 종로구 종로 1") /\
  contains "서울" "서울특별시 종로구 종로 1" = true /\
  fst (@GeocodingBank.search_place reference_runtime remote "key" "우리은행" [])
    = [].
Proof.
  repeat split; reflexivity.
Qed.

(** C2, amended. Take a page that [search_place] fetched and handled to its
    end, and an item of it that passes the exclusion filter (its title, in
    upper case, does not contain "ATM").  The item adds its row
    [(title, x, y)] to the output if and only if its road address contains
    "서울" and it carries a [point] with [x] and [y]; the page adds to the
    output exactly the rows its items add, in their order, and the output is
    the concatenation of what the fetched pages add. *)
Theorem region_and_point_decide {rt : PyRuntime}
    (remote : list exchange -> request -> response) (key query : string)
    (h h' new : list exchange) (out : list place)
    (page total : Z) (data : pyval) (l : list pyval)
    (item : pyval) (s : string) :
  GeocodingBank.search_place remote key query h = (out, h') ->
  h' = h ++ new ->
  In (SearchReq key query page, Body data) new ->
  page_clean page total data ->
  GeocodingBank.page_items data = Ok (Items l) ->
  In item l ->
  py_get item "title" (PStr "N/A") = Ok (PStr s) ->
  contains "ATM" (str_upper s) = false ->
  (forall x y,
     row_of item = [(PStr s, x, y)] <->
     (exists road, road_address item = Ok road /\
                   py_in "서울" road = Ok true) /\
     item_point item = Ok (x, y)) /\
  (row_of item = [] \/ exists x y, row_of item = [(PStr s, x, y)]) /\
  contributed (SearchReq key query page, Body data) = flat_map row_of l /\
  out = flat_map contributed new.
Proof.
  intros Hrun Hh Hx Hclean Hl Hitem Ht Hatm.
  split; [| split; [| split]].
  - intros x y. rewrite <- (filter_item_region item s x y Ht Hatm).
    unfold row_of.
    destruct (GeocodingBank.filter_item item) as [[p | | |] | e];
      split; intros H; try discriminate; inversion H; reflexivity.
  - unfold row_of.
    destruct (GeocodingBank.filter_item item) as [[p | | |] | e] eqn:Hf;
      auto.
    right. apply filter_item_title in Hf.
    destruct Hf as (s' & Ht' & _ & Hp). rewrite Ht in Ht'.
    inversion Ht'; subst s'. destruct p as [[t x] y]. simpl in Hp. subst t.
    eauto.
  - simpl. eapply page_rows_clean; eauto.
  - apply search_place_trace in Hrun. destruct Hrun as (new' & Hh' & -> & _).
    rewrite Hh in Hh'. apply app_inv_head in Hh'. now subst.
Qed.

Lemma region_and_point_decide_witness :
  let remote := always two_branches in
  let x := (SearchReq "key" "우리은행" 1, Body two_branches) in
  let row := (PStr "Woori Bank Jongno", PStr "126.98", PStr "37.57") in
  @GeocodingBank.search_place reference_runtime remote "key" "우리은행" [] =
    ([row], [x]) /\
  @page_clean reference_runtime 1 1 two_branches /\
  @row_of reference_runtime branch_in_seoul = [row] /\
  @row_of reference_runtime branch_in_incheon = [] /\
  @contributed reference_runtime x =
    flat_map (@row_of reference_runtime) [branch_in_seoul; branch_in_incheon].
Proof.
  intros remote x row.
  assert (Hrun : @GeocodingBank.search_place reference_runtime remote
                   "key" "우리은행" [] = ([row], [x])) by reflexivity.
  assert (Hclean : @page_clean reference_runtime 1 1 two_branches).
  { split; [reflexivity |]. split.
    - intros _. exists 2. split; [reflexivity | discriminate].
    - right. exists [branch_in_seoul; branch_in_incheon].
      split; [reflexivity |].
      intros item [<- | [<- | []]]; reflexivity. }
  split; [exact Hrun |]. split; [exact Hclean |].
  split; [reflexivity |]. split; [reflexivity |].
  exact (proj1 (proj2 (proj2
    (@region_and_point_decide reference_runtime remote "key" "우리은행"
       [] [x] [x] [row] 1 1 two_branches
       [branch_in_seoul; branch_in_incheon] branch_in_seoul
       "Woori Bank Jongno" Hrun eq_refl (or_introl eq_refl) Hclean eq_refl
       (or_introl eq_refl) eq_refl eq_refl)))).
Defined.

(** C7, as the spec states it, fails: the first page announces two pages
    with status [OK], and the harvest ends after one fetch because the
    count of results is zero. *)
Lemma two_pages_announced_one_fetched :
  let remote := always two_pages_no_result in
  response_status two_pages_no_result = Ok (PStr "OK") /\
  @GeocodingBank.first_page_totals reference_runtime two_pages_no_result =
    Ok (2, 0) /\
  map fst (snd (@GeocodingBank.search_place reference_runtime remote
                  "key" "우리은행" [])) =
    [SearchReq "key" "우리은행" 1].
Proof.
  repeat split; reflexivity.
Qed.

(** C7, amended. When the first page announces [total >= 1] pages and a
    non-zero count of results, and every page from 1 to [total] is answered
    with status [OK] and handled without an exception, the harvest issues
    exactly [total] requests: those for the pages 1, 2, ..., [total], in
    this order. *)
Theorem clean_harvest_fetches_each_page_once {rt : PyRuntime}
    (remote : list exchange -> request -> response) (key query : string)
    (total : Z) (h : list exchange) :
  1 <= total ->
  (forall h' page, 1 <= page <= total ->
     exists data, remote h' (SearchReq key query page) = Body data /\
                  page_clean page total data) ->
  map fst (snd (GeocodingBank.search_place remote key query h)) =
    map fst h ++ page_requests key query 1 (Z.to_nat total) /\
  List.length (snd (GeocodingBank.search_place remote key query h)) =
    (List.length h + Z.to_nat total)%nat.
Proof.
  intros Hpos Hremote.
  pose proof (search_place_clean remote key query total Hremote h Hpos) as H.
  split; [exact H |].
  apply (f_equal (@List.length request)) in H.
  rewrite length_app, !length_map in H. unfold exchange in *. rewrite H.
  unfold page_requests. now rewrite length_map, length_seq.
Qed.

Lemma clean_harvest_fetches_each_page_once_witness :
  let remote := always three_pages in
  (1 <= 3) /\
  (forall h' page, 1 <= page <= 3 ->
     exists data, remote h' (SearchReq "key" "우리은행" page) = Body data /\
                  @page_clean reference_runtime page 3 data) /\
  map fst (snd (@GeocodingBank.search_place reference_runtime remote
                  "key" "우리은행" [])) =
    [SearchReq "key" "우리은행" 1; SearchReq "key" "우리은행" 2;
     SearchReq "key" "우리은행" 3].
Proof.
  intros remote.
  assert (Hpos : 1 <= 3) by lia.
  assert (Hremote : forall h' page, 1 <= page <= 3 ->
            exists data, remote h' (SearchReq "key" "우리은행" page) = Body data /\
                         @page_clean reference_runtime page 3 data).
  { intros h' page _. exists three_pages. split; [reflexivity |].
    split; [reflexivity |]. split.
    - intros _. exists 1. split; [reflexivity | discriminate].
    - right. exists [branch_in_seoul]. split; [reflexivity |].
      intros item [<- | []]. reflexivity. }
  split; [exact Hpos |]. split; [exact Hremote |].
  exact (proj1 (@clean_harvest_fetches_each_page_once reference_runtime remote
                  "key" "우리은행" 3 [] Hpos Hremote)).
Defined.

(** ** The open-data harvest *)

Section KioskFacts.

Context {rt : PyRuntime}.
Variable remote : list exchange -> request -> response.

Import PublicApi.

Lemma zero_rows_outcome (r : response) : zero_rows r -> kiosk_outcome r = None.
Proof.
  intros (data & res & rows & -> & Hin & Hitem & Hrow & Hfalsy).
  unfold kiosk_outcome, read_rows. rewrite Hin. simpl.
  rewrite Hitem. simpl. rewrite Hrow. simpl. now rewrite Hfalsy.
Qed.

Lemma kiosk_failed_outcome (x : exchange) :
  kiosk_failed x -> kiosk_outcome (snd x) = None.
Proof.
  unfold kiosk_failed, kiosk_outcome. destruct (snd x) as [data | e].
  - intros (e & ->). reflexivity.
  - reflexivity.
Qed.

Lemma kiosk_loop_unfold (n : nat) (key : string) (start_index : Z)
    (all_data_rows : list pyval) (h : list exchange) :
  let req := OpenDataReq key start_index (start_index + page_size - 1) in
  let r := remote h req in
  kiosk_loop remote (S n) key start_index all_data_rows h =
  match kiosk_outcome r with
  | Some new_rows =>
      kiosk_loop remote n key (start_index + page_size)
        (all_data_rows ++ new_rows) (h ++ [(req, r)])
  | None => (Some all_data_rows, h ++ [(req, r)])
  end.
Proof.
  cbn [kiosk_loop]. unfold bind, http_get, kiosk_outcome. cbn zeta.
  destruct (remote h _) as [data | e]; [| reflexivity].
  destruct (read_rows data) as [[l |] | e]; reflexivity.
Qed.

(** The trace of the loop: an exchange that ends the loop is the last one,
    and the loop then returns the rows held at the start plus what the
    exchanges before it added; whenever the loop returns, it returns the
    rows held at the start plus what each exchange added. *)
Lemma kiosk_loop_trace (key : string) :
  forall (fuel : nat) (start_index : Z) (acc : list pyval)
         (h h' : list exchange) (res : option (list pyval)),
    kiosk_loop remote fuel key start_index acc h = (res, h') ->
    exists new,
      h' = h ++ new /\
      (forall pre x post,
         new = pre ++ x :: post -> kiosk_outcome (snd x) = None ->
         post = [] /\ res = Some (acc ++ flat_map kiosk_rows pre)) /\
      (forall rows, res = Some rows -> rows = acc ++ flat_map kiosk_rows new).
Proof.
  induction fuel as [| n IH]; intros start_index acc h h' res Hrun.
  - inversion Hrun; subst. exists []. rewrite app_nil_r.
    split; [reflexivity |]. split; [| discriminate].
    intros [| ? ?] ? ? ?; discriminate.
  - rewrite kiosk_loop_unfold in Hrun. cbn zeta in Hrun.
    set (req := OpenDataReq key start_index (start_index + page_size - 1)) in *.
    set (r := remote h req) in *.
    destruct (kiosk_outcome r) as [l |] eqn:Hout.
    + apply IH in Hrun. destruct Hrun as (new & -> & Hlast & Hrows).
      exists ((req, r) :: new). rewrite <- app_assoc. split; [reflexivity |].
      assert (Hx : kiosk_rows (req, r) = l)
        by (unfold kiosk_rows; cbn [snd]; now rewrite Hout).
      split.
      * intros [| p pre] x post Hsplit Hnone; inversion Hsplit; subst.
        -- cbn [snd] in Hnone. congruence.
        -- destruct (Hlast pre x post eq_refl Hnone) as [-> ->].
           split; [reflexivity |]. cbn [flat_map].
           now rewrite <- app_assoc.
      * intros rows Hres. rewrite (Hrows rows Hres). cbn [flat_map].
        rewrite Hx. now rewrite <- app_assoc.
    + inversion Hrun; subst. exists [(req, r)]. split; [reflexivity |].
      assert (Hx : kiosk_rows (req, r) = [])
        by (unfold kiosk_rows; cbn [snd]; now rewrite Hout).
      split.
      * intros [| ? [| ? ?]] x post Hsplit Hnone; inversion Hsplit.
        split; [reflexivity |]. now rewrite app_nil_r.
      * intros rows Hres. inversion Hres; subst. cbn [flat_map].
        rewrite Hx. now rewrite !app_nil_r.
Qed.

Section Served.

Variables (key : string) (page : nat -> list pyval).

(** From range [i] on, [k] ranges are served with the rows [page j], and
    the range after them has no rows: with more than [k] turns of fuel the
    loop returns after [k + 1] requests. *)
Lemma kiosk_loop_served :
  forall (k i fuel : nat) (acc : list pyval) (h : list exchange),
    (k < fuel)%nat ->
    (forall h' j, (i <= j < i + k)%nat ->
       kiosk_outcome (remote h' (kiosk_request key j)) = Some (page j)) ->
    (forall h', zero_rows (remote h' (kiosk_request key (i + k)))) ->
    exists h',
      kiosk_loop remote fuel key (1 + page_size * Z.of_nat i) acc h =
        (Some (acc ++ flat_map page (seq i k)), h') /\
      map fst h' = map fst h ++ map (kiosk_request key) (seq i (S k)).
Proof.
  induction k as [| k IH]; intros i fuel acc h Hfuel Hserved Hzero.
  - destruct fuel as [| n]; [lia |]. rewrite kiosk_loop_unfold. cbn zeta.
    replace (1 + page_size * Z.of_nat i + page_size - 1)
      with (page_size * (Z.of_nat i + 1)) by (unfold page_size; lia).
    fold (kiosk_request key i).
    specialize (Hzero h). rewrite Nat.add_0_r in Hzero.
    rewrite (zero_rows_outcome _ Hzero).
    eexists. split; [simpl; now rewrite app_nil_r |].
    now rewrite map_app.
  - destruct fuel as [| n]; [lia |]. rewrite kiosk_loop_unfold. cbn zeta.
    replace (1 + page_size * Z.of_nat i + page_size - 1)
      with (page_size * (Z.of_nat i + 1)) by (unfold page_size; lia).
    fold (kiosk_request key i).
    rewrite (Hserved h i) by lia.
    replace (1 + page_size * Z.of_nat i + page_size)
      with (1 + page_size * Z.of_nat (S i)) by (unfold page_size; lia).
    destruct (IH (S i) n (acc ++ page i)
                (h ++ [(kiosk_request key i, remote h (kiosk_request key i))]))
      as (h' & Hrun & Hreqs).
    + lia.
    + intros h' j Hj. apply Hserved. lia.
    + intros h'. replace (S i + k)%nat with (i + S k)%nat by lia. apply Hzero.
    + exists h'. split.
      * rewrite Hrun. cbn [seq flat_map]. now rewrite <- app_assoc.
      * rewrite Hreqs, map_app, <- app_assoc. reflexivity.
Qed.

End Served.

End KioskFacts.

(** C9, as the spec states it, fails: the harvest stops at the range
    without rows and returns the row collected before, but [main] writes no
    file when the rows have none of the four required columns. *)
Lemma odd_row_collected_but_not_written :
  let row := PDict [("FOO", PStr "1")] in
  zero_rows (one_odd_row [] (kiosk_request "key" 1)) /\
  fst (PublicApi.fetch_all_kiosk_data one_odd_row 3 "key" [])
    = Some [row] /\
  exists r,
    @PublicApi.main reference_runtime one_odd_row 3 desk = Some r /\
    resultset r = [row] /\
    written r = None /\
    console r = [NoRequiredColumn].
Proof.
  split; [| split].
  - exists (kiosk_page []), (PDict [("row", PList [])]), (PList []).
    repeat split; reflexivity.
  - reflexivity.
  - eexists. repeat split; reflexivity.
Qed.

(** C9, amended. When the first [k] row ranges are served with rows and the
    next one has no rows, [fetch_all_kiosk_data] (given more than [k] turns)
    stops after that request, the [k + 1]-th, and returns the rows of the
    [k] ranges in order.  [main] then writes them to [seoul_kiosk_list.csv],
    restricted to the required columns that occur in the data, provided
    that at least one row was collected, that pandas builds a frame from
    the rows, that at least one required column occurs in it, and that the
    file can be written. *)
Theorem zero_rows_end_harvest {rt : PyRuntime}
    (remote : list exchange -> request -> response) (e : env) (key : string)
    (page : nat -> list pyval) (k fuel : nat) (h : list exchange) :
  (k < fuel)%nat ->
  (forall h' j, (j < k)%nat ->
     kiosk_outcome (remote h' (kiosk_request key j)) = Some (page j)) ->
  (forall h', zero_rows (remote h' (kiosk_request key k))) ->
  let rows := flat_map page (seq 0 k) in
  (exists h',
     PublicApi.fetch_all_kiosk_data remote fuel key h = (Some rows, h') /\
     map fst h' = map fst h ++ map (kiosk_request key) (seq 0 (S k))) /\
  (forall df,
     read_text e "public_key.txt" = Some key ->
     rows <> [] ->
     DataFrame_of_records rows = Ok df ->
     available_columns df <> [] ->
     to_csv_ok e "seoul_kiosk_list.csv"
       (select_columns df (available_columns df)) = true ->
     exists r,
       PublicApi.main remote fuel e = Some r /\
       resultset r = rows /\
       written r = Some ("seoul_kiosk_list.csv",
                         select_columns df (available_columns df)) /\
       List.length (df_rows (select_columns df (available_columns df))) =
         List.length (df_rows df)).
Proof.
  intros Hfuel Hserved Hzero rows.
  assert (Hrun : forall h0, exists h',
            PublicApi.fetch_all_kiosk_data remote fuel key h0 = (Some rows, h') /\
            map fst h' = map fst h0 ++ map (kiosk_request key) (seq 0 (S k))).
  { intros h0.
    destruct (kiosk_loop_served remote key page k 0 fuel [] h0 Hfuel)
      as (h' & Hrun & Hreqs).
    - intros h' j Hj. apply Hserved. lia.
    - exact Hzero.
    - exists h'. split; [exact Hrun | exact Hreqs]. }
  split; [apply Hrun |].
  intros df Hkey Hrows Hdf Havail Hcsv.
  destruct (Hrun []) as (h' & Hfetch & _).
  unfold PublicApi.main. rewrite Hkey, Hfetch.
  eexists. split; [reflexivity |].
  unfold PublicApi.export. fold rows.
  destruct rows as [| row more]; [contradiction |]. cbn [is_nil].
  rewrite Hdf. fold (available_columns df).
  destruct (available_columns df) as [| c cs] eqn:Hcols; [contradiction |].
  cbn [is_nil]. rewrite Hcsv. cbn [resultset written].
  repeat split. unfold select_columns. cbn [df_rows]. apply length_map.
Qed.

Lemma zero_rows_end_harvest_witness :
  let page := fun _ : nat => [kiosk_row 1 "시청" "세종대로 110";
                              kiosk_row 2 "구청" "창경궁로 17"] in
  (1 < 2)%nat /\
  (forall h' j, (j < 1)%nat ->
     kiosk_outcome (two_kiosks h' (kiosk_request "key" j))
       = Some (page j)) /\
  (forall h', zero_rows (two_kiosks h' (kiosk_request "key" 1%nat))) /\
  exists h',
    PublicApi.fetch_all_kiosk_data two_kiosks 2 "key" [] =
      (Some (flat_map page (seq 0 1)), h') /\
    map fst h' = map fst (@nil exchange) ++ map (kiosk_request "key") (seq 0 2).
Proof.
  intros page.
  assert (Hfuel : (1 < 2)%nat) by lia.
  assert (Hserved : forall h' j, (j < 1)%nat ->
            kiosk_outcome
              (two_kiosks h' (kiosk_request "key" j)) = Some (page j)).
  { intros h' j Hj. assert (j = 0%nat) by lia. subst j. reflexivity. }
  assert (Hzero : forall h', zero_rows (two_kiosks h' (kiosk_request "key" 1%nat))).
  { intros h'.
    exists (kiosk_page []), (PDict [("row", PList [])]), (PList []).
    repeat split; reflexivity. }
  split; [exact Hfuel |]. split; [exact Hserved |]. split; [exact Hzero |].
  exact (proj1 (@zero_rows_end_harvest reference_runtime two_kiosks desk "key"
                  page 1 2 [] Hfuel Hserved Hzero)).
Defined.

(** ** The crawler *)

Section CrawlerFacts.

Context {rt : PyRuntime}.

Import KioskCrawler.

Lemma extract_page_local (site site' : Z -> site_reply) (page : Z) :
  site page = site' page -> extract_page site page = extract_page site' page.
Proof.
  unfold extract_page. now intros ->.
Qed.

Lemma extract_page_fails (site : Z -> site_reply) (page : Z) (e : exn) :
  site page = SiteFails e -> extract_page site page = None.
Proof.
  unfold extract_page. now intros ->.
Qed.

Lemma main_collects (site : Z -> site_reply) (order : list Z) (page : Z)
    (df : dataframe) :
  In page order ->
  extract_page site page = Some df ->
  df_rows df <> [] ->
  In df (all_dfs (main site order)).
Proof.
  intros Hin Hpage Hrows. unfold main. cbn [all_dfs].
  apply in_flat_map. exists page. split; [exact Hin |].
  rewrite Hpage. destruct (df_rows df); [contradiction | now left].
Qed.

End CrawlerFacts.

(** C3, as the spec states it, fails: three pages are announced, the fetch
    of the second page fails, and the third page is never requested. *)
Lemma failed_page_ends_search :
  map fst (snd (@GeocodingBank.search_place reference_runtime
                  down_after_first_page "key" "우리은행" [])) =
    [SearchReq "key" "우리은행" 1; SearchReq "key" "우리은행" 2] /\
  fst (@GeocodingBank.search_place reference_runtime
         down_after_first_page "key" "우리은행" []) =
    [(PStr "Woori Bank Jongno", PStr "126.98", PStr "37.57")].
Proof.
  split; reflexivity.
Qed.

(** C3, amended. No failure of a page fetch leaves the harvesting function
    as an exception.  In [search_place] and in [fetch_all_kiosk_data] a
    failed fetch (the request raises, or the handling of its body does) is
    the last exchange of the harvest: the pages after it are not fetched,
    and what was collected before is returned.  In the crawler every page
    of the range is submitted, what a page yields depends on that page's
    reply only, a failed page yields [None], and every page that yields a
    frame with rows is collected whatever happens to the other pages. *)
Theorem failed_fetch_ends_harvest_or_skips_page {rt : PyRuntime} :
  (forall remote key query h h' out pre x post,
     GeocodingBank.search_place remote key query h = (out, h') ->
     h' = h ++ pre ++ x :: post ->
     page_failed x ->
     post = [] /\ out = flat_map contributed (pre ++ [x])) /\
  (forall remote fuel key h h' res pre x post,
     PublicApi.fetch_all_kiosk_data remote fuel key h = (res, h') ->
     h' = h ++ pre ++ x :: post ->
     kiosk_failed x ->
     post = [] /\ res = Some (flat_map kiosk_rows pre)) /\
  (forall site order,
     KioskCrawler.submitted (KioskCrawler.main site order) =
       KioskCrawler.page_range /\
     forall page,
       (forall site', site page = site' page ->
          KioskCrawler.extract_page site page =
          KioskCrawler.extract_page site' page) /\
       (forall e, site page = KioskCrawler.SiteFails e ->
          KioskCrawler.extract_page site page = None) /\
       (forall df, In page order ->
          KioskCrawler.extract_page site page = Some df ->
          df_rows df <> [] ->
          In df (KioskCrawler.all_dfs (KioskCrawler.main site order)))).
Proof.
  split; [| split].
  - intros remote key query h h' out pre x post Hrun Hsplit Hfail.
    apply search_place_trace in Hrun. destruct Hrun as (new & Hh & -> & Hlast).
    rewrite Hh in Hsplit. apply app_inv_head in Hsplit. subst new.
    assert (post = []) by (eapply Hlast; eauto). subst post.
    split; reflexivity.
  - intros remote fuel key h h' res pre x post Hrun Hsplit Hfail.
    apply kiosk_loop_trace in Hrun. destruct Hrun as (new & Hh & Hlast & _).
    rewrite Hh in Hsplit. apply app_inv_head in Hsplit.
    apply (Hlast pre x post Hsplit (kiosk_failed_outcome x Hfail)).
  - intros site order. split; [reflexivity |]. intros page.
    split; [| split].
    + intros site'. apply extract_page_local.
    + intros e. apply extract_page_fails.
    + intros df. apply main_collects.
Qed.

Lemma failed_fetch_ends_harvest_or_skips_page_witness :
  let x1 := (SearchReq "key" "우리은행" 1, Body three_pages) in
  let x2 := (SearchReq "key" "우리은행" 2, Fails RequestException) in
  let row := (PStr "Woori Bank Jongno", PStr "126.98", PStr "37.57") in
  @GeocodingBank.search_place reference_runtime down_after_first_page
     "key" "우리은행" [] = ([row], [x1; x2]) /\
  @page_failed reference_runtime x2 /\
  (@nil exchange = [] /\
   [row] = flat_map (@contributed reference_runtime) ([x1] ++ [x2])).
Proof.
  intros x1 x2 row.
  assert (Hrun : @GeocodingBank.search_place reference_runtime
                   down_after_first_page "key" "우리은행" [] = ([row], [x1; x2]))
    by reflexivity.
  assert (Hfail : @page_failed reference_runtime x2) by exact I.
  split; [exact Hrun |]. split; [exact Hfail |].
  exact (proj1 (@failed_fetch_ends_harvest_or_skips_page reference_runtime)
           down_after_first_page "key" "우리은행" [] [x1; x2] [row]
           [x1] x2 [] Hrun eq_refl Hfail).
Defined.

(** ** Runs on the sample data *)

Example upper_bytes_mixed : upper_bytes "Woori atm 365" = "WOORI ATM 365".
Proof. reflexivity. Qed.

Example decimal_literal_plain : decimal_literal "30" = Some 30.
Proof. reflexivity. Qed.

(** Two input rows, the second with a NaN address: two output rows, and
    requests for the first row only. *)
Example geocoding_xy_run :
  let r := @GeocodingXY.main reference_runtime parcel_only desk in
  resultset r =
    [[PStr "시청"; pyval_of_cell city_hall; PStr "126.9784"; PStr "37.5667"];
     [PStr "미상"; PFloat S754_nan; PNone; PNone]] /\
  requests r =
    [AddressReq "EPSG:5179" "key" "ROAD" city_hall;
     AddressReq "EPSG:5179" "key" "PARCEL" city_hall] /\
  console r = [Saved "주소목록_geocoded.csv"].
Proof. repeat split; reflexivity. Qed.

(** Six banks, one page each: one row per bank in Seoul. *)
Example geocoding_bank_run :
  let r := @GeocodingBank.main reference_runtime (always two_branches) desk in
  List.length (resultset r) = 6%nat /\
  List.length (requests r) = 6%nat /\
  console r = [Saved "bank_location.csv"].
Proof. repeat split; reflexivity. Qed.

Example public_api_run :
  option_map (fun r => (List.length (resultset r), console r))
    (@PublicApi.main reference_runtime two_kiosks 5 desk) =
  Some (2%nat, [Saved "seoul_kiosk_list.csv"]).
Proof. reflexivity. Qed.

(** With too little fuel the open-data loop is still running. *)
Example public_api_still_running :
  @PublicApi.main reference_runtime two_kiosks 1 desk = None.
Proof. reflexivity. Qed.

(** The failed page is missing, the pages completed before and after it are
    collected in the order of completion. *)
Example crawler_run :
  map (fun df => cell_at (df_columns df) (hd [] (df_rows df)) "page_index")
      (KioskCrawler.all_dfs
         (@KioskCrawler.main reference_runtime listing [3; 2; 1])) =
  [PInt 3; PInt 1].
Proof. reflexivity. Qed.

(** * Further properties *)

(** ** [get_coordinate] *)

Section GeocoderTrace.

Variable remote : list exchange -> request -> response.

(** The loop over the address types, as a trace: only an exchange
    classified [NextType] is followed by another one, and the last exchange
    decides the result. *)
Lemma try_types_last (crs key : string) (address_query : cell) :
  forall (types : list string) (h h' : list exchange) (r : coords),
    try_types remote crs key types address_query h = (r, h') ->
    exists new,
      h' = h ++ new /\
      (forall pre x post,
         new = pre ++ x :: post -> classify (snd x) <> NextType ->
         post = []) /\
      (forall pre x,
         new = pre ++ [x] ->
         match classify (snd x) with
         | Found a b => r = (a, b)
         | _ => r = unresolved
         end) /\
      (new = [] -> r = unresolved).
Proof.
  induction types as [| t rest IH]; intros h h' r Hrun.
  - inversion Hrun; subst. exists []. rewrite app_nil_r.
    repeat split; try reflexivity.
    + intros [| ? ?] ? ? ?; discriminate.
    + intros [| ? ?] ? ?; discriminate.
  - cbn [try_types] in Hrun. unfold bind, http_get in Hrun. cbn zeta in Hrun.
    set (req := AddressReq crs key t address_query) in *.
    destruct (classify (remote h req)) as [a b | |] eqn:Hc.
    + inversion Hrun; subst. exists [(req, remote h req)].
      split; [reflexivity |]. split; [| split].
      * intros [| ? [| ? ?]] ex post Hsplit _; inversion Hsplit; reflexivity.
      * intros [| ? [| ? ?]] ex Hsplit; inversion Hsplit; subst.
        cbn [snd]. now rewrite Hc.
      * discriminate.
    + apply IH in Hrun. destruct Hrun as (new & -> & Hstop & Hlast & Hnil).
      exists ((req, remote h req) :: new). rewrite <- app_assoc.
      split; [reflexivity |]. split; [| split].
      * intros [| p pre] ex post Hsplit Hne; inversion Hsplit; subst.
        -- cbn [snd] in Hne. congruence.
        -- eapply Hstop; eauto.
      * intros [| p pre] ex Hsplit; inversion Hsplit; subst.
        -- cbn [snd]. rewrite Hc. now apply Hnil.
        -- now apply (Hlast pre ex).
      * discriminate.
    + inversion Hrun; subst. exists [(req, remote h req)].
      split; [reflexivity |]. split; [| split].
      * intros [| ? [| ? ?]] ex post Hsplit _; inversion Hsplit; reflexivity.
      * intros [| ? [| ? ?]] ex Hsplit; inversion Hsplit; subst.
        cbn [snd]. now rewrite Hc.
      * discriminate.
Qed.

Lemma get_coordinate_last (crs key : string) (address_query : cell)
    (h h' : list exchange) (r : coords) :
  get_coordinate_crs remote crs key address_query h = (r, h') ->
  exists new,
    h' = h ++ new /\
    (forall pre x post,
       new = pre ++ x :: post -> classify (snd x) <> NextType ->
       post = []) /\
    (forall pre x,
       new = pre ++ [x] ->
       match classify (snd x) with
       | Found a b => r = (a, b)
       | _ => r = unresolved
       end) /\
    (new = [] -> r = unresolved).
Proof.
  unfold get_coordinate_crs. destruct (blank address_query).
  - intros Hrun. inversion Hrun; subst. exists []. rewrite app_nil_r.
    repeat split; try reflexivity.
    + intros [| ? ?] ? ? ?; discriminate.
    + intros [| ? ?] ? ?; discriminate.
  - apply try_types_last.
Qed.

End GeocoderTrace.

Lemma geocode_failed_abort (r : response) :
  geocode_failed r -> classify r = Abort.
Proof.
  destruct r as [data | e]; simpl; [| reflexivity].
  now intros (e & ->).
Qed.

Lemma last_split {A : Type} (l : list A) :
  l = [] \/ exists pre x, l = pre ++ [x].
Proof.
  induction l as [| a l IH]; [now left |]. right.
  destruct IH as [-> | (pre & x & ->)].
  - now exists [], a.
  - now exists (a :: pre), x.
Qed.

(** X1. In both geocoding scripts the pair [get_coordinate] returns is never
    transformed and never half empty: a response that resolves the address
    (status [OK], [x] and [y] both truthy) is the last exchange of the query
    and its pair is returned as it is; and any result other than
    [(None, None)] is the pair of the last response, with both parts
    truthy. *)
Theorem resolved_pair_is_returned_as_sent
    (remote : list exchange -> request -> response) (crs : string)
    (get : string -> cell -> Net coords) (key : string) (address_query : cell)
    (h h' : list exchange) (r : coords) :
  geocoder remote crs get ->
  get key address_query h = (r, h') ->
  (forall pre x post xy,
     h' = h ++ pre ++ x :: post -> resolves (snd x) xy ->
     post = [] /\ r = xy) /\
  (r <> unresolved ->
   exists pre x,
     h' = h ++ pre ++ [x] /\ resolves (snd x) r /\
     truthy (fst r) && truthy (snd r) = true).
Proof.
  intros Hg Hrun. rewrite (geocoder_unfold _ _ _ Hg) in Hrun.
  apply get_coordinate_last in Hrun.
  destruct Hrun as (new & -> & Hstop & Hlast & Hnil). split.
  - intros pre x post [a b] Hsplit Hres. apply app_inv_head in Hsplit.
    apply classify_found in Hres.
    assert (post = []) by (eapply Hstop; eauto; congruence). subst post.
    split; [reflexivity |].
    specialize (Hlast pre x Hsplit). now rewrite Hres in Hlast.
  - intros Hne. destruct (last_split new) as [-> | (pre & x & ->)].
    + now specialize (Hnil eq_refl).
    + exists pre, x. split; [reflexivity |].
      specialize (Hlast pre x eq_refl).
      destruct (classify (snd x)) as [a b | |] eqn:Hc; try contradiction.
      subst r. apply classify_found in Hc. split; [exact Hc |].
      destruct Hc as (data & _ & _ & _ & Ht). exact Ht.
Qed.

Lemma resolved_pair_is_returned_as_sent_witness :
  let get := GeocodingXY.get_coordinate parcel_only in
  let road := AddressReq "EPSG:5179" "key" "ROAD" city_hall in
  let parcel := AddressReq "EPSG:5179" "key" "PARCEL" city_hall in
  let sent := point_response (PStr "126.9784") (PStr "37.5667") in
  let r := (PStr "126.9784", PStr "37.5667") in
  let h' := [(road, Body (status_response "NOT_FOUND")); (parcel, Body sent)] in
  geocoder parcel_only "EPSG:5179" get /\
  get "key" city_hall [] = (r, h') /\
  h' = [] ++ [(road, Body (status_response "NOT_FOUND"))]
          ++ (parcel, Body sent) :: [] /\
  resolves (Body sent) r /\
  (@nil exchange = [] /\ r = r).
Proof.
  intros get road parcel sent r h'.
  assert (Hg : geocoder parcel_only "EPSG:5179" get)
    by (left; split; reflexivity).
  assert (Hrun : get "key" city_hall [] = (r, h')) by reflexivity.
  assert (Hres : resolves (Body sent) r).
  { exists sent. repeat split; reflexivity. }
  split; [exact Hg |]. split; [exact Hrun |]. split; [reflexivity |].
  split; [exact Hres |].
  exact (proj1 (resolved_pair_is_returned_as_sent parcel_only "EPSG:5179" get
                  "key" city_hall [] h' r Hg Hrun)
           [(road, Body (status_response "NOT_FOUND"))] (parcel, Body sent)
           [] r eq_refl Hres).
Defined.

(** X2. In both geocoding scripts a request that raises (network error,
    HTTP error, undecodable body) or whose decoded body cannot be read (for
    instance a body that is not a dict) ends the query: no further address
    type is tried and the result is [(None, None)]. *)
Theorem failed_request_ends_query
    (remote : list exchange -> request -> response) (crs : string)
    (get : string -> cell -> Net coords) (key : string) (address_query : cell)
    (h h' : list exchange) (r : coords)
    (pre : list exchange) (x : exchange) (post : list exchange) :
  geocoder remote crs get ->
  get key address_query h = (r, h') ->
  h' = h ++ pre ++ x :: post ->
  geocode_failed (snd x) ->
  post = [] /\ r = unresolved.
Proof.
  intros Hg Hrun Hsplit Hfail. rewrite (geocoder_unfold _ _ _ Hg) in Hrun.
  unfold get_coordinate_crs in Hrun.
  destruct (blank address_query).
  - inversion Hrun; subst. apply app_self_nil in H1.
    destruct pre; discriminate.
  - apply try_types_abort in Hrun. destruct Hrun as (new & -> & Hnew).
    apply app_inv_head in Hsplit.
    apply (Hnew pre x post Hsplit). now apply geocode_failed_abort.
Qed.

Lemma failed_request_ends_query_witness :
  let get := GeocodingPublic.get_coordinate (always null_body) in
  let road := AddressReq "EPSG:4326" "key" "ROAD" city_hall in
  geocoder (always null_body) "EPSG:4326" get /\
  get "key" city_hall [] = (unresolved, [(road, Body null_body)]) /\
  geocode_failed (Body null_body) /\
  (@nil exchange = [] /\ unresolved = unresolved).
Proof.
  intros get road.
  assert (Hg : geocoder (always null_body) "EPSG:4326" get)
    by (right; split; reflexivity).
  assert (Hrun : get "key" city_hall [] =
                 (unresolved, [(road, Body null_body)])) by reflexivity.
  assert (Hfail : geocode_failed (Body null_body))
    by (exists AttributeError; reflexivity).
  split; [exact Hg |]. split; [exact Hrun |]. split; [exact Hfail |].
  exact (failed_request_ends_query (always null_body) "EPSG:4326" get "key"
           city_hall [] _ unresolved [] (road, Body null_body) []
           Hg Hrun eq_refl Hfail).
Defined.

(** ** The [main] functions of the geocoding scripts, further *)

Section GeocodeRequests.

Context {rt : PyRuntime}.
Variable remote : list exchange -> request -> response.

Lemma get_coordinate_requests (crs key : string) (address_query : cell)
    (h h' : list exchange) (r : coords) :
  get_coordinate_crs remote crs key address_query h = (r, h') ->
  exists new,
    h' = h ++ new /\
    (List.length new <= if blank address_query then 0 else 2)%nat /\
    forall x, In x new -> address_request_for crs key address_query (fst x).
Proof.
  destruct (blank address_query) eqn:Hb.
  - rewrite (get_coordinate_blank remote crs key address_query h Hb).
    intros H. inversion H; subst. exists []. rewrite app_nil_r.
    repeat split; [simpl; lia | intros x []].
  - rewrite (get_coordinate_unfold remote crs key address_query h Hb).
    cbn zeta. intros H.
    assert (Hroad : address_request_for crs key address_query
                      (AddressReq crs key "ROAD" address_query))
      by (exists "ROAD"; auto).
    assert (Hparcel : address_request_for crs key address_query
                        (AddressReq crs key "PARCEL" address_query))
      by (exists "PARCEL"; auto).
    destruct (classify (remote h _)) as [x y | |].
    + inversion H; subst. eexists. split; [reflexivity |].
      split; [simpl; lia |]. intros x0 [<- | []]. exact Hroad.
    + destruct (classify (remote _ _)); inversion H; subst;
        rewrite <- app_assoc; (eexists; split; [reflexivity |]);
        (split; [simpl; lia |]);
        intros x0 [<- | [<- | []]]; assumption.
    + inversion H; subst. eexists. split; [reflexivity |].
      split; [simpl; lia |]. intros x0 [<- | []]. exact Hroad.
Qed.

Lemma geocode_loop_requests (crs key : string) (address_of : list cell -> cell)
    (record_of : list cell -> coords -> list pyval) :
  forall (input : list (list cell)) (acc : list (list pyval))
         (h h' : list exchange) (out : list (list pyval)),
    geocode_loop remote crs key address_of record_of input acc h = (out, h') ->
    exists new,
      h' = h ++ new /\
      (List.length new <= 2 * List.length (with_address address_of input))%nat /\
      forall x, In x new ->
        exists row, In row (with_address address_of input) /\
                    address_request_for crs key (address_of row) (fst x).
Proof.
  induction input as [| row rest IH]; intros acc h h' out Hrun.
  - inversion Hrun; subst. exists []. rewrite app_nil_r.
    repeat split; [simpl; lia | intros x []].
  - cbn [geocode_loop] in Hrun. unfold bind in Hrun.
    destruct (get_coordinate_crs remote crs key (address_of row) h)
      as [xy h1] eqn:Hget.
    apply get_coordinate_requests in Hget.
    destruct Hget as (new1 & -> & Hlen1 & Hreq1).
    apply IH in Hrun. destruct Hrun as (new2 & -> & Hlen2 & Hreq2).
    exists (new1 ++ new2). rewrite <- app_assoc. split; [reflexivity |].
    unfold with_address in *. cbn [filter].
    destruct (blank (address_of row)) eqn:Hb; cbn [negb].
    + destruct new1; [| simpl in Hlen1; lia]. simpl. split; [exact Hlen2 |].
      exact Hreq2.
    + split; [rewrite length_app; simpl; lia |].
      intros x Hx. apply in_app_or in Hx. destruct Hx as [Hx | Hx].
      * exists row. split; [now left | now apply Hreq1].
      * destruct (Hreq2 x Hx) as (row' & Hin & Hr). exists row'.
        split; [now right | exact Hr].
Qed.

Lemma geocode_table_requests (e : env) (crs key : string)
    (address_of : list cell -> cell)
    (record_of : list cell -> coords -> list pyval)
    (input : table) (file : string) (cols : list string) :
  let r := geocode_table remote e crs key address_of record_of
             input file cols in
  (List.length (requests r) <=
     2 * List.length (with_address address_of (rows input)))%nat /\
  forall req, In req (requests r) ->
    exists row, In row (with_address address_of (rows input)) /\
                address_request_for crs key (address_of row) req.
Proof.
  unfold geocode_table.
  destruct (geocode_loop remote crs key address_of record_of (rows input) [] [])
    as [out h] eqn:Hrun.
  apply geocode_loop_requests in Hrun.
  destruct Hrun as (new & -> & Hlen & Hreq). simpl app.
  assert (Hgoal :
    (List.length (map fst new) <=
       2 * List.length (with_address address_of (rows input)))%nat /\
    forall req, In req (map fst new) ->
      exists row, In row (with_address address_of (rows input)) /\
                  address_request_for crs key (address_of row) req).
  { split; [now rewrite length_map |].
    intros req Hin. apply in_map_iff in Hin.
    destruct Hin as (x & <- & Hx). now apply Hreq. }
  destruct (is_nil out); [| destruct (save _ _ _)]; exact Hgoal.
Qed.

(** What the part after the loop leaves: the file is written exactly when
    there is a row, the frame is built and the writing completes; the
    message tells which. *)
Lemma geocode_table_written (e : env) (crs key : string)
    (address_of : list cell -> cell)
    (record_of : list cell -> coords -> list pyval)
    (input : table) (file : string) (cols : list string) :
  let r := geocode_table remote e crs key address_of record_of
             input file cols in
  (rows input = [] ->
     requests r = [] /\ resultset r = [] /\ written r = None /\
     console r = [EmptyResult]) /\
  (rows input <> [] ->
     (exists d, DataFrame_of_rows (resultset r) (map PStr cols) = Ok d /\
                to_csv_ok e file d = true /\
                written r = Some (file, d) /\ console r = [Saved file]) \/
     ((forall d, DataFrame_of_rows (resultset r) (map PStr cols) = Ok d ->
                 to_csv_ok e file d = false) /\
      written r = None /\ console r = [SaveError])).
Proof.
  unfold geocode_table.
  destruct (geocode_loop remote crs key address_of record_of (rows input) [] [])
    as [out h] eqn:Hrun.
  pose proof Hrun as Hrows. apply geocode_loop_rows in Hrows.
  destruct Hrows as (found & Hlen & Hout & _). simpl in Hout.
  split.
  - intros Hnil. rewrite Hnil in *. simpl in Hrun. inversion Hrun; subst.
    simpl. auto.
  - intros Hne.
    assert (Hsome : is_nil out = false).
    { rewrite Hout. destruct (rows input); [contradiction |].
      destruct found; [discriminate | reflexivity]. }
    rewrite Hsome. unfold save.
    destruct (DataFrame_of_rows out (map PStr cols)) as [d | ex] eqn:Hdf.
    + destruct (to_csv_ok e file d) eqn:Hcsv; simpl.
      * left. exists d. auto.
      * right. split; [| auto].
        intros d' Hd'. rewrite Hdf in Hd'. inversion Hd'; subst. exact Hcsv.
    + right. simpl. split; [| auto].
      intros d' Hd'. rewrite Hdf in Hd'. discriminate.
Qed.

End GeocodeRequests.

(** X3. In both geocoding scripts, once the key is read: when the input
    table cannot be read the run reports it, and when the table has no row
    the run reports an empty result; in both cases no request is issued and
    no file is written. *)
Theorem no_input_rows_no_work {rt : PyRuntime}
    (remote : list exchange -> request -> response) (e : env) (key : string) :
  read_text e "key.txt" = Some key ->
  (read_csv e "주소목록.csv" = None ->
   idle (GeocodingXY.main remote e) InputUnreadable) /\
  (forall df, read_csv e "주소목록.csv" = Some df -> rows df = [] ->
   idle (GeocodingXY.main remote e) EmptyResult) /\
  (read_csv e "seoul_kiosk_list.csv" = None ->
   idle (GeocodingPublic.main remote e) InputUnreadable) /\
  (forall df, read_csv e "seoul_kiosk_list.csv" = Some df -> rows df = [] ->
   idle (GeocodingPublic.main remote e) EmptyResult).
Proof.
  intros Hkey. unfold GeocodingXY.main, GeocodingPublic.main, idle.
  rewrite Hkey.
  assert (Htable : forall crs address_of record_of df file cols,
            rows df = [] ->
            let r := geocode_table remote e crs key address_of record_of
                       df file cols in
            requests r = [] /\ resultset r = [] /\ written r = None /\
            console r = [EmptyResult]).
  { intros crs address_of record_of df file cols Hrows.
    exact (proj1 (geocode_table_written remote e crs key address_of record_of
                    df file cols) Hrows). }
  split; [| split; [| split]].
  - intros ->. repeat split.
  - intros df -> Hrows. now apply Htable.
  - intros ->. repeat split.
  - intros df -> Hrows. now apply Htable.
Qed.

Lemma no_input_rows_no_work_witness :
  read_text key_only "key.txt" = Some "key" /\
  read_csv key_only "주소목록.csv" = None /\
  idle (@GeocodingXY.main reference_runtime parcel_only key_only)
       InputUnreadable.
Proof.
  split; [reflexivity |]. split; [reflexivity |].
  exact (proj1 (@no_input_rows_no_work reference_runtime parcel_only key_only
                  "key" eq_refl) eq_refl).
Defined.

(** X4. In both geocoding scripts a run issues at most two requests per
    input row whose address is not blank, and none for the other rows; each
    request is a [ROAD] or [PARCEL] address request that carries the key
    read from the key file, the coordinate system of the script and the
    address of such a row. *)
Theorem geocoding_requests_bounded {rt : PyRuntime}
    (remote : list exchange -> request -> response) (e : env) (key : string)
    (df_xy df_public : table) :
  read_text e "key.txt" = Some key ->
  read_csv e "주소목록.csv" = Some df_xy ->
  read_csv e "seoul_kiosk_list.csv" = Some df_public ->
  let xy_address row := row_get (columns df_xy) row "주소" in
  let public_address row := row_get (columns df_public) row "ESBPLCADDR" in
  ((List.length (requests (GeocodingXY.main remote e)) <=
      2 * List.length (with_address xy_address (rows df_xy)))%nat /\
   forall req, In req (requests (GeocodingXY.main remote e)) ->
     exists row, In row (with_address xy_address (rows df_xy)) /\
                 address_request_for "EPSG:5179" key (xy_address row) req) /\
  ((List.length (requests (GeocodingPublic.main remote e)) <=
      2 * List.length (with_address public_address (rows df_public)))%nat /\
   forall req, In req (requests (GeocodingPublic.main remote e)) ->
     exists row, In row (with_address public_address (rows df_public)) /\
                 address_request_for "EPSG:4326" key (public_address row) req).
Proof.
  intros Hkey Hxy Hpublic xy_address public_address.
  unfold GeocodingXY.main, GeocodingPublic.main.
  rewrite Hkey, Hxy, Hpublic. split; apply geocode_table_requests.
Qed.

Lemma geocoding_requests_bounded_witness :
  read_text desk "key.txt" = Some "key" /\
  read_csv desk "주소목록.csv" = Some addresses /\
  read_csv desk "seoul_kiosk_list.csv" = Some kiosks /\
  (List.length (requests (@GeocodingXY.main reference_runtime parcel_only desk))
   <= 2 * List.length
            (with_address (fun row => row_get (columns addresses) row "주소")
               (rows addresses)))%nat.
Proof.
  split; [reflexivity |]. split; [reflexivity |]. split; [reflexivity |].
  exact (proj1 (proj1 (@geocoding_requests_bounded reference_runtime
                         parcel_only desk "key" addresses kiosks
                         eq_refl eq_refl eq_refl))).
Defined.

(** X5. In both geocoding scripts a run over a table with at least one row
    ends in one of two ways: the frame built from the result set under the
    output columns (the input columns followed by [longitude] and
    [latitude] in [geocoding_xy.py], the six fixed columns in
    [geocoding_public.py]) is written to the output file of the script and
    this is reported; or building or writing fails, which is reported as an
    error and leaves no file.  No exception leaves [main]. *)
Theorem geocoding_save_is_guarded {rt : PyRuntime}
    (remote : list exchange -> request -> response) (e : env) (key : string)
    (df_xy df_public : table) :
  read_text e "key.txt" = Some key ->
  read_csv e "주소목록.csv" = Some df_xy ->
  read_csv e "seoul_kiosk_list.csv" = Some df_public ->
  rows df_xy <> [] ->
  rows df_public <> [] ->
  save_outcome e "주소목록_geocoded.csv"
    (columns df_xy ++ ["longitude"; "latitude"])
    (GeocodingXY.main remote e) /\
  save_outcome e "kiosk_locations_geocoded.csv"
    ["MGTNO"; "OPNSFTEAMNM"; "KIOSKNM"; "ESBPLCADDR"; "longitude"; "latitude"]
    (GeocodingPublic.main remote e).
Proof.
  intros Hkey Hxy Hpublic Hrows_xy Hrows_public.
  unfold GeocodingXY.main, GeocodingPublic.main, save_outcome.
  rewrite Hkey, Hxy, Hpublic. split.
  - match goal with
    | |- context [geocode_table ?rm ?e ?crs ?k ?a ?rc ?df ?f ?c] =>
        destruct (geocode_table_written rm e crs k a rc df f c) as [_ H];
        destruct (H Hrows_xy) as [(d & H1 & H2 & H3 & H4) | (H1 & H2 & H3)]
    end.
    + left. exists d. rewrite H4. auto.
    + right. rewrite H3. auto.
  - match goal with
    | |- context [geocode_table ?rm ?e ?crs ?k ?a ?rc ?df ?f ?c] =>
        destruct (geocode_table_written rm e crs k a rc df f c) as [_ H];
        destruct (H Hrows_public) as [(d & H1 & H2 & H3 & H4) | (H1 & H2 & H3)]
    end.
    + left. exists d. rewrite H4. auto.
    + right. rewrite H3. auto.
Qed.

Lemma geocoding_save_is_guarded_witness :
  read_text full_disk "key.txt" = Some "key" /\
  read_csv full_disk "주소목록.csv" = Some addresses /\
  read_csv full_disk "seoul_kiosk_list.csv" = Some kiosks /\
  rows addresses <> [] /\
  rows kiosks <> [] /\
  @save_outcome reference_runtime full_disk "주소목록_geocoded.csv"
    (columns addresses ++ ["longitude"; "latitude"])
    (@GeocodingXY.main reference_runtime parcel_only full_disk) /\
  written (@GeocodingXY.main reference_runtime parcel_only full_disk) = None.
Proof.
  assert (H1 : rows addresses <> []) by discriminate.
  assert (H2 : rows kiosks <> []) by discriminate.
  split; [reflexivity |]. split; [reflexivity |]. split; [reflexivity |].
  split; [exact H1 |]. split; [exact H2 |]. split; [| reflexivity].
  exact (proj1 (@geocoding_save_is_guarded reference_runtime parcel_only
                  full_disk "key" addresses kiosks eq_refl eq_refl eq_refl
                  H1 H2)).
Defined.

(** ** [search_place], further *)

Section SearchPages.

Context {rt : PyRuntime}.
Variable remote : list exchange -> request -> response.

Import GeocodingBank.

Lemma fetch_page_stops (key query : string) (st : loop_state)
    (h : list exchange) :
  let req := SearchReq key query (current_page st) in
  page_stops (req, remote h req) ->
  exists why st', fst (fetch_page remote key query st h) = Break why st'.
Proof.
  intros req. rewrite fetch_page_unfold. fold req. simpl.
  destruct (remote h req) as [data | e]; simpl.
  - intros H. destruct (H st eq_refl) as (why & st' & ->). eauto.
  - eauto.
Qed.

Lemma handle_page_first (st st' : loop_state) (data : pyval) :
  current_page st = 1 ->
  handle_page st data = Continue st' ->
  exists total results,
    first_page_totals data = Ok (total, results) /\
    total_pages st' = total /\ current_page st' = 2.
Proof.
  intros Hcur. unfold handle_page, read_totals. rewrite Hcur. cbn [Z.eqb Pos.eqb].
  intros H.
  destruct (response_status data) as [status | e]; [| discriminate].
  destruct (negb (is_str status "OK")).
  { destruct (is_str status "NOT_FOUND"); [discriminate |].
    destruct (api_error_text data); discriminate. }
  destruct (first_page_totals data) as [[total results] | e]; [| discriminate].
  cbn [rbind fst snd] in H. exists total, results. split; [reflexivity |].
  destruct (results =? 0); [discriminate |].
  destruct (page_items data) as [[| l] | e]; try discriminate.
  - inversion H; subst. simpl. auto.
  - destruct (for_items l (all_items st)) as [acc [e |]]; [discriminate |].
    inversion H; subst. simpl. auto.
Qed.

(** The pages of the loop: they are requested in sequence from the current
    page on, with the key and the query of the call, no more of them than
    the guard allows, and an exchange that ends the search is the last. *)
Lemma while_pages_pages (key query : string) :
  forall (fuel : nat) (st : loop_state) (h h' : list exchange)
         (out : list place),
    while_pages remote fuel key query st h = (out, h') ->
    exists new k,
      h' = h ++ new /\
      map fst new = page_requests key query (current_page st) k /\
      (2 <= current_page st ->
       Z.of_nat k <= Z.max 0 (total_pages st + 1 - current_page st)) /\
      forall pre x post,
        new = pre ++ x :: post -> page_stops x -> post = [].
Proof.
  induction fuel as [| n IH]; intros st h h' out Hrun.
  - inversion Hrun; subst. exists [], 0%nat. rewrite app_nil_r.
    repeat split; [lia |]. intros [| ? ?] ? ? ?; discriminate.
  - cbn [while_pages] in Hrun.
    destruct (current_page st <=? total_pages st) eqn:Hguard.
    2:{ inversion Hrun; subst. exists [], 0%nat. rewrite app_nil_r.
        repeat split; [lia |]. intros [| ? ?] ? ? ?; discriminate. }
    apply Z.leb_le in Hguard. unfold bind in Hrun.
    pose proof (fetch_page_stops key query st h) as Hstop.
    rewrite fetch_page_unfold in Hrun, Hstop.
    cbn zeta in Hrun, Hstop. cbn [fst] in Hstop.
    set (req := SearchReq key query (current_page st)) in *.
    set (r := remote h req) in *.
    destruct (match r with
              | Body data => handle_page st data
              | Fails e => Break (StopException e) st
              end) as [st' | why st'] eqn:Hflow.
    + assert (Hst : current_page st' = current_page st + 1 /\
                    (current_page st <> 1 -> total_pages st' = total_pages st)).
      { destruct r; [| discriminate]. eapply handle_page_continue; eauto. }
      destruct Hst as [Hcur Htot].
      apply IH in Hrun. destruct Hrun as (new & k & -> & Hreqs & Hbound & Hlast).
      exists ((req, r) :: new), (S k). rewrite <- app_assoc.
      split; [reflexivity |]. split; [| split].
      * cbn [map fst]. rewrite page_requests_S, Hreqs, Hcur. reflexivity.
      * intros Hlo. rewrite Hcur, Htot in Hbound by lia. lia.
      * intros [| p pre] x post Hsplit Hx; inversion Hsplit; subst.
        -- destruct (Hstop Hx) as (why & st'' & Hbreak). discriminate.
        -- eapply Hlast; eauto.
    + inversion Hrun; subst. exists [(req, r)], 1%nat.
      split; [reflexivity |]. split; [| split].
      * rewrite page_requests_S. reflexivity.
      * lia.
      * intros [| ? [| ? ?]] x post Hsplit Hx; inversion Hsplit; reflexivity.
Qed.

Lemma search_place_pages (key query : string) (h h' : list exchange)
    (out : list place) :
  search_place remote key query h = (out, h') ->
  exists new k,
    h' = h ++ new /\
    map fst new = page_requests key query 1 (S k) /\
    (k = 0%nat \/
     exists data total results,
       remote h (SearchReq key query 1) = Body data /\
       first_page_totals data = Ok (total, results) /\
       Z.of_nat (S k) <= total) /\
    forall pre x post,
      new = pre ++ x :: post -> page_stops x -> post = [].
Proof.
  unfold search_place, bind. intros Hrun.
  pose proof (fetch_page_stops key query initial_state h) as Hstop.
  rewrite fetch_page_unfold in Hrun, Hstop.
  cbn zeta in Hrun, Hstop. cbn [fst] in Hstop.
  cbn [current_page initial_state] in Hrun, Hstop.
  set (req := SearchReq key query 1) in *.
  set (r := remote h req) in *.
  destruct (match r with
            | Body data => handle_page initial_state data
            | Fails e => Break (StopException e) initial_state
            end) as [st' | why st'] eqn:Hflow.
  - destruct r as [data | e] eqn:Hr; [| discriminate].
    destruct (handle_page_first initial_state st' data eq_refl Hflow)
      as (total & results & Htotals & Htot & Hcur).
    apply while_pages_pages in Hrun.
    destruct Hrun as (new & k & -> & Hreqs & Hbound & Hlast).
    exists ((req, Body data) :: new), k. rewrite <- app_assoc.
    split; [reflexivity |]. split; [| split].
    + cbn [map fst]. rewrite page_requests_S, Hreqs, Hcur. reflexivity.
    + destruct k as [| k]; [now left |]. right.
      exists data, total, results. repeat split; try assumption.
      rewrite Hcur, Htot in Hbound. lia.
    + intros [| p pre] x post Hsplit Hx; inversion Hsplit; subst.
      * destruct (Hstop Hx) as (why & st'' & Hbreak). discriminate.
      * eapply Hlast; eauto.
  - inversion Hrun; subst. exists [(req, r)], 0%nat.
    split; [reflexivity |]. split; [| split].
    + rewrite page_requests_S. reflexivity.
    + now left.
    + intros [| ? [| ? ?]] x post Hsplit Hx; inversion Hsplit; reflexivity.
Qed.

Lemma page_refused_stops (key query : string) (page : Z) (r : response) :
  page_refused r -> page_stops (SearchReq key query page, r).
Proof.
  intros (data & status & -> & Hs & Hne). intros st _.
  unfold handle_page. rewrite Hs.
  apply is_str_false in Hne. rewrite Hne. cbn [negb].
  destruct (is_str status "NOT_FOUND"); [eauto |].
  destruct (api_error_text data); eauto.
Qed.

Lemma page_refused_rows (page : Z) (data : pyval) :
  page_refused (Body data) -> page_rows page data = [].
Proof.
  intros (data' & status & Hb & Hs & Hne). inversion Hb; subst data'.
  unfold page_rows. rewrite Hs. apply is_str_false in Hne. now rewrite Hne.
Qed.

End SearchPages.

Lemma page_requests_in (key query : string) (first : Z) (count : nat)
    (req : request) :
  In req (page_requests key query first count) ->
  exists page, req = SearchReq key query page.
Proof.
  unfold page_requests. intros H. apply in_map_iff in H.
  destruct H as (i & <- & _). eauto.
Qed.

Lemma page_rows_ok {rt : PyRuntime} (page : Z) (data : pyval) (p : place) :
  In p (page_rows page data) -> response_status data = Ok (PStr "OK").
Proof.
  unfold page_rows.
  destruct (response_status data) as [status | e]; [| contradiction].
  destruct (is_str status "OK") eqn:Hok; [| contradiction].
  apply is_str_true in Hok. now subst.
Qed.

Lemma filter_item_added {rt : PyRuntime} (item : pyval) (p : place) :
  GeocodingBank.filter_item item = Ok (Added p) ->
  exists s road x y,
    py_get item "title" (PStr "N/A") = Ok (PStr s) /\
    contains "ATM" (str_upper s) = false /\
    road_address item = Ok road /\ py_in "서울" road = Ok true /\
    item_point item = Ok (x, y) /\
    p = (PStr s, x, y).
Proof.
  intros Hf. destruct (filter_item_title item p Hf) as (s & Ht & Hatm & Hp).
  destruct p as [[t x] y]. simpl in Hp. subst t.
  apply (filter_item_region item s x y Ht Hatm) in Hf.
  destruct Hf as [(road & Hroad & Hin) Hpoint].
  exists s, road, x, y. auto 7.
Qed.

(** X6. A page whose body reports a status other than [OK] ([NOT_FOUND] or
    an API error) ends [search_place]: it is the last exchange, it adds no
    row, and the rows of the pages before it are returned. *)
Theorem refused_page_ends_search {rt : PyRuntime}
    (remote : list exchange -> request -> response) (key query : string)
    (h h' : list exchange) (out : list place)
    (pre : list exchange) (x : exchange) (post : list exchange) :
  GeocodingBank.search_place remote key query h = (out, h') ->
  h' = h ++ pre ++ x :: post ->
  page_refused (snd x) ->
  post = [] /\ contributed x = [] /\ out = flat_map contributed pre.
Proof.
  intros Hrun Hsplit Href.
  destruct (search_place_pages remote key query h h' out Hrun)
    as (new & k & Hh & Hreqs & _ & Hlast).
  destruct (search_place_trace remote key query h h' out Hrun)
    as (new' & Hh' & Hout & _).
  assert (new' = new) by (rewrite Hh in Hh'; now apply app_inv_head in Hh').
  subst new'. rewrite Hh in Hsplit. apply app_inv_head in Hsplit. subst new.
  destruct x as [req r]. cbn [snd] in Href.
  assert (Hreq : exists page, req = SearchReq key query page).
  { apply (page_requests_in key query 1 (S k)). rewrite <- Hreqs.
    rewrite map_app. apply in_or_app. right. now left. }
  destruct Hreq as (page & ->).
  assert (Hnone : contributed (SearchReq key query page, r) = []).
  { destruct Href as (data & status & -> & Hs & Hne). simpl.
    apply page_refused_rows. exists data, status. auto. }
  assert (post = []).
  { eapply Hlast; [reflexivity |]. now apply page_refused_stops. }
  subst post. split; [reflexivity |]. split; [exact Hnone |].
  rewrite Hout, flat_map_app. cbn [flat_map]. rewrite Hnone.
  now rewrite !app_nil_r.
Qed.

Lemma refused_page_ends_search_witness :
  let x1 := (SearchReq "key" "우리은행" 1,
             Body (search_page "2" "1" [branch_in_seoul])) in
  let x2 := (SearchReq "key" "우리은행" 2, Body (status_response "NOT_FOUND")) in
  let row := (PStr "Woori Bank Jongno", PStr "126.98", PStr "37.57") in
  @GeocodingBank.search_place reference_runtime not_found_on_second_page
     "key" "우리은행" [] = ([row], [x1; x2]) /\
  page_refused (snd x2) /\
  (@nil exchange = [] /\ @contributed reference_runtime x2 = [] /\
   [row] = flat_map (@contributed reference_runtime) [x1]).
Proof.
  intros x1 x2 row.
  assert (Hrun : @GeocodingBank.search_place reference_runtime
                   not_found_on_second_page "key" "우리은행" [] =
                 ([row], [x1; x2])) by reflexivity.
  assert (Href : page_refused (snd x2)).
  { exists (status_response "NOT_FOUND"), (PStr "NOT_FOUND").
    split; [reflexivity |]. split; [reflexivity | discriminate]. }
  split; [exact Hrun |]. split; [exact Href |].
  exact (@refused_page_ends_search reference_runtime not_found_on_second_page
           "key" "우리은행" [] [x1; x2] [row] [x1] x2 [] Hrun eq_refl Href).
Defined.

(** X7. When the first page reports status [OK] and a total of zero
    results, [search_place] returns no row after that single request,
    whatever number of pages the page announces and whatever items it
    carries. *)
Theorem zero_results_end_search_at_once {rt : PyRuntime}
    (remote : list exchange -> request -> response) (key query : string)
    (h : list exchange) (data : pyval) (total : Z) :
  remote h (SearchReq key query 1) = Body data ->
  response_status data = Ok (PStr "OK") ->
  GeocodingBank.first_page_totals data = Ok (total, 0) ->
  GeocodingBank.search_place remote key query h =
    ([], h ++ [(SearchReq key query 1, Body data)]).
Proof.
  intros Hr Hs Ht. unfold GeocodingBank.search_place, bind.
  rewrite fetch_page_unfold. cbn zeta.
  cbn [current_page GeocodingBank.initial_state]. rewrite Hr.
  unfold GeocodingBank.handle_page, GeocodingBank.read_totals.
  rewrite Hs, is_str_refl.
  cbn [negb current_page GeocodingBank.initial_state Z.eqb Pos.eqb].
  rewrite Ht. reflexivity.
Qed.

Lemma zero_results_end_search_at_once_witness :
  let data := search_page "5" "0" [branch_in_seoul] in
  always data [] (SearchReq "key" "우리은행" 1) = Body data /\
  response_status data = Ok (PStr "OK") /\
  @GeocodingBank.first_page_totals reference_runtime data = Ok (5, 0) /\
  @GeocodingBank.search_place reference_runtime (always data)
     "key" "우리은행" [] =
    ([], [] ++ [(SearchReq "key" "우리은행" 1, Body data)]).
Proof.
  intros data.
  split; [reflexivity |]. split; [reflexivity |]. split; [reflexivity |].
  exact (@zero_results_end_search_at_once reference_runtime (always data)
           "key" "우리은행" [] data 5 eq_refl eq_refl eq_refl).
Defined.

(** X8. Whatever the remote side answers, [search_place] requests the pages
    1, 2, ..., [k] in this order, each once, with the key and the query of
    the call; at least page 1, and more than one page only when the first
    page announced a number of pages, which [k] never exceeds. *)
Theorem pages_requested_in_sequence {rt : PyRuntime}
    (remote : list exchange -> request -> response) (key query : string)
    (h : list exchange) :
  exists k : nat,
    map fst (snd (GeocodingBank.search_place remote key query h)) =
      map fst h ++ page_requests key query 1 (S k) /\
    (k = 0%nat \/
     exists data total results,
       remote h (SearchReq key query 1) = Body data /\
       GeocodingBank.first_page_totals data = Ok (total, results) /\
       Z.of_nat (S k) <= total).
Proof.
  destruct (GeocodingBank.search_place remote key query h) as [out h'] eqn:Hrun.
  destruct (search_place_pages remote key query h h' out Hrun)
    as (new & k & -> & Hreqs & Hbound & _).
  exists k. cbn [snd]. split; [| exact Hbound].
  rewrite map_app. f_equal. exact Hreqs.
Qed.

(** X9. Every row that [search_place] returns is the row [(title, x, y)] of
    an item of a page it fetched with status [OK]: an item whose title is a
    string that, in upper case, does not contain "ATM", whose road address
    contains "서울", and whose [point] holds the [x] and [y] of the row. *)
Theorem every_row_comes_from_a_kept_item {rt : PyRuntime}
    (remote : list exchange -> request -> response) (key query : string)
    (h : list exchange) (p : place) :
  In p (fst (GeocodingBank.search_place remote key query h)) ->
  exists pre post page data l item s road x y,
    snd (GeocodingBank.search_place remote key query h) =
      h ++ pre ++ (SearchReq key query page, Body data) :: post /\
    response_status data = Ok (PStr "OK") /\
    GeocodingBank.page_items data = Ok (Items l) /\
    In item l /\
    py_get item "title" (PStr "N/A") = Ok (PStr s) /\
    contains "ATM" (str_upper s) = false /\
    road_address item = Ok road /\ py_in "서울" road = Ok true /\
    item_point item = Ok (x, y) /\
    p = (PStr s, x, y).
Proof.
  destruct (GeocodingBank.search_place remote key query h) as [out h'] eqn:Hrun.
  cbn [fst snd]. intros Hin.
  destruct (search_place_pages remote key query h h' out Hrun)
    as (new & k & Hh & Hreqs & _ & _).
  destruct (search_place_trace remote key query h h' out Hrun)
    as (new' & Hh' & Hout & _).
  assert (new' = new) by (rewrite Hh in Hh'; now apply app_inv_head in Hh').
  subst new' out. apply in_flat_map in Hin. destruct Hin as (ex & Hex & Hp).
  apply in_split in Hex. destruct Hex as (pre & post & Hnew).
  destruct ex as [req r].
  assert (Hreq : exists page, req = SearchReq key query page).
  { apply (page_requests_in key query 1 (S k)). rewrite <- Hreqs, Hnew.
    rewrite map_app. apply in_or_app. right. now left. }
  destruct Hreq as (page & ->).
  destruct r as [data | e]; [| contradiction]. cbn [contributed] in Hp.
  pose proof (page_rows_ok page data p Hp) as Hs.
  apply page_rows_in in Hp. destruct Hp as (l & item & Hl & Hitem & Hf).
  apply filter_item_added in Hf.
  destruct Hf as (s & road & x & y & H1 & H2 & H3 & H4 & H5 & H6).
  exists pre, post, page, data, l, item, s, road, x, y.
  rewrite Hh, Hnew. auto 12.
Qed.

Lemma every_row_comes_from_a_kept_item_witness :
  let row := (PStr "Woori Bank Jongno", PStr "126.98", PStr "37.57") in
  In row (fst (@GeocodingBank.search_place reference_runtime
                 (always two_branches) "key" "우리은행" [])) /\
  exists pre post page data l item s road x y,
    snd (@GeocodingBank.search_place reference_runtime
           (always two_branches) "key" "우리은행" []) =
      [] ++ pre ++ (SearchReq "key" "우리은행" page, Body data) :: post /\
    response_status data = Ok (PStr "OK") /\
    GeocodingBank.page_items data = Ok (Items l) /\
    In item l /\
    py_get item "title" (PStr "N/A") = Ok (PStr s) /\
    contains "ATM" (@str_upper reference_runtime s) = false /\
    road_address item = Ok road /\ py_in "서울" road = Ok true /\
    item_point item = Ok (x, y) /\
    row = (PStr s, x, y).
Proof.
  intros row.
  assert (Hin : In row (fst (@GeocodingBank.search_place reference_runtime
                               (always two_branches) "key" "우리은행" [])))
    by (left; reflexivity).
  split; [exact Hin |].
  exact (@every_row_comes_from_a_kept_item reference_runtime
           (always two_branches) "key" "우리은행" [] row Hin).
Defined.

Lemma count_items_sound {rt : PyRuntime} (items : list pyval) :
  forall (acc : list place) (c : page_counts),
    let '(out, c', e) := count_items items acc c in
    (out, e) = GeocodingBank.for_items items acc /\
    (List.length out + page_item_count_added c =
     List.length acc + page_item_count_added c')%nat /\
    (e = None ->
     (List.length items + page_item_count_added c
        + page_item_count_filtered_seoul c + page_item_count_filtered_atm c =
      page_item_count_added c' + page_item_count_filtered_seoul c'
        + page_item_count_filtered_atm c'
        + List.length (filter lacks_point items))%nat).
Proof.
  induction items as [| item rest IH]; intros acc c.
  - simpl. repeat split; lia.
  - cbn [count_items GeocodingBank.for_items filter]. unfold lacks_point at 1.
    destruct (GeocodingBank.filter_item item) as [[p | | |] | ex].
    + match goal with
      | |- context [count_items rest ?a ?d] => specialize (IH a d)
      end.
      destruct (count_items rest _ _) as [[out c'] e].
      destruct IH as (H1 & H2 & H3). cbn [page_item_count_added
        page_item_count_filtered_seoul page_item_count_filtered_atm] in *.
      rewrite length_app in H2. simpl in H2.
      split; [exact H1 |]. split; [lia |]. intros He. specialize (H3 He).
      simpl. lia.
    + match goal with
      | |- context [count_items rest ?a ?d] => specialize (IH a d)
      end.
      destruct (count_items rest _ _) as [[out c'] e].
      destruct IH as (H1 & H2 & H3). cbn [page_item_count_added
        page_item_count_filtered_seoul page_item_count_filtered_atm] in *.
      split; [exact H1 |]. split; [lia |]. intros He. specialize (H3 He).
      simpl. lia.
    + match goal with
      | |- context [count_items rest ?a ?d] => specialize (IH a d)
      end.
      destruct (count_items rest _ _) as [[out c'] e].
      destruct IH as (H1 & H2 & H3). cbn [page_item_count_added
        page_item_count_filtered_seoul page_item_count_filtered_atm] in *.
      split; [exact H1 |]. split; [lia |]. intros He. specialize (H3 He).
      simpl. lia.
    + specialize (IH acc c).
      destruct (count_items rest _ _) as [[out c'] e].
      destruct IH as (H1 & H2 & H3).
      split; [exact H1 |]. split; [lia |]. intros He. specialize (H3 He).
      simpl. lia.
    + repeat split; try lia. discriminate.
Qed.

(** X10. The counters of a page add up.  For the items of a page gone
    through without an exception, starting from counters at zero: the list
    of rows grows by the count of added items, and every item is counted as
    added, as filtered for its region, or as filtered for "ATM", except the
    items of the region that lack their coordinates, which no counter
    counts.  The list of rows is the one [for_items] gives. *)
Theorem page_counters_add_up {rt : PyRuntime} (items : list pyval)
    (acc out : list place) (c : page_counts) :
  count_items items acc no_counts = (out, c, None) ->
  GeocodingBank.for_items items acc = (out, None) /\
  List.length out = (List.length acc + page_item_count_added c)%nat /\
  List.length items =
    (page_item_count_added c + page_item_count_filtered_seoul c
       + page_item_count_filtered_atm c
       + List.length (filter lacks_point items))%nat.
Proof.
  intros Hrun. pose proof (count_items_sound items acc no_counts) as H.
  rewrite Hrun in H. destruct H as (H1 & H2 & H3).
  specialize (H3 eq_refl). simpl in H2, H3.
  split; [now symmetry |]. split; lia.
Qed.

Lemma page_counters_add_up_witness :
  let items := [branch_in_seoul; atm_in_seoul; branch_in_incheon;
                branch_without_point; atm_corner] in
  let row := (PStr "Woori Bank Jongno", PStr "126.98", PStr "37.57") in
  let c := {| page_item_count_added := 1;
              page_item_count_filtered_seoul := 1;
              page_item_count_filtered_atm := 2 |} in
  @count_items reference_runtime items [] no_counts = ([row], c, None) /\
  List.length [row] = (0 + 1)%nat /\
  List.length items =
    (1 + 1 + 2 + List.length (filter (@lacks_point reference_runtime) items))%nat.
Proof.
  intros items row c.
  assert (Hrun : @count_items reference_runtime items [] no_counts =
                 ([row], c, None)) by reflexivity.
  split; [exact Hrun |].
  exact (proj2 (@page_counters_add_up reference_runtime items [] [row] c Hrun)).
Defined.

(** ** [main] of geocoding_bank.py *)

Section BankLoop.

Context {rt : PyRuntime}.
Variable remote : list exchange -> request -> response.

Import GeocodingBank.

Lemma contributed_title (new : list exchange) (p : place) :
  In p (flat_map contributed new) ->
  exists s x y, p = (PStr s, x, y) /\ contains "ATM" (str_upper s) = false.
Proof.
  intros Hin. apply in_flat_map in Hin. destruct Hin as ([req r] & _ & Hp).
  unfold contributed in Hp. destruct req; try contradiction.
  destruct r; try contradiction.
  apply page_rows_in in Hp. destruct Hp as (l & item & _ & _ & Hf).
  apply filter_item_added in Hf.
  destruct Hf as (s & road & x & y & _ & Hatm & _ & _ & _ & ->). eauto.
Qed.

Lemma bank_loop_trace (key : string) :
  forall (queries : list string) (acc : list (list pyval))
         (h h' : list exchange) (out : list (list pyval)),
    bank_loop remote key queries acc h = (out, h') ->
    exists new,
      h' = h ++ new /\
      (forall q, In q queries -> In (SearchReq key q 1) (map fst new)) /\
      (forall req, In req (map fst new) ->
         exists q page, In q queries /\ req = SearchReq key q page) /\
      (forall row, In row out ->
         In row acc \/
         exists q s x y,
           In q queries /\ row = [PStr q; PStr s; x; y] /\
           contains "ATM" (str_upper s) = false).
Proof.
  induction queries as [| query rest IH]; intros acc h h' out Hrun.
  - inversion Hrun; subst. exists []. rewrite app_nil_r.
    repeat split; try (intros ? []); auto.
  - cbn [bank_loop] in Hrun. unfold bind in Hrun.
    destruct (search_place remote key query h) as [locations h1] eqn:Hsearch.
    destruct (search_place_pages remote key query h h1 locations Hsearch)
      as (new1 & k & -> & Hreqs & _ & _).
    destruct (search_place_trace remote key query h _ locations Hsearch)
      as (new1' & Hh & Hloc & _).
    apply app_inv_head in Hh. subst new1'.
    apply IH in Hrun. destruct Hrun as (new2 & -> & Hfirst & Hform & Hrows).
    exists (new1 ++ new2). rewrite <- app_assoc. split; [reflexivity |].
    unfold exchange in *. rewrite map_app. split; [| split].
    + intros q [<- | Hq]; apply in_or_app.
      * left. rewrite Hreqs, page_requests_S. now left.
      * right. now apply Hfirst.
    + intros req Hin. apply in_app_or in Hin. destruct Hin as [Hin | Hin].
      * rewrite Hreqs in Hin. apply page_requests_in in Hin.
        destruct Hin as (page & ->). exists query, page. split; [now left | auto].
      * destruct (Hform req Hin) as (q & page & Hq & ->).
        exists q, page. split; [now right | auto].
    + intros row Hin. destruct (Hrows row Hin) as [Hacc | Hold].
      * apply in_app_or in Hacc. destruct Hacc as [Hacc | Hnew]; [now left |].
        right. apply in_map_iff in Hnew. destruct Hnew as (p & <- & Hp).
        rewrite Hloc in Hp. apply contributed_title in Hp.
        destruct Hp as (s & x & y & -> & Hatm).
        exists query, s, x, y. split; [now left | auto].
      * right. destruct Hold as (q & s & x & y & Hq & -> & Hatm).
        exists q, s, x, y. split; [now right | auto].
Qed.

Lemma finish_requests (e : env) (h : list exchange) (before : list msg)
    (out : list (list pyval)) :
  requests (finish e h before out) = map fst h /\
  resultset (finish e h before out) = out.
Proof.
  unfold finish. destruct (is_nil out); [| destruct (save _ _ _)]; auto.
Qed.

Lemma finish_outcome (e : env) (h : list exchange) (before : list msg)
    (out : list (list pyval)) :
  let r := finish e h before out in
  (out = [] -> written r = None /\ last (console r) SaveError = EmptyResult) /\
  (out <> [] ->
   save_outcome e "bank_location.csv"
     ["bank"; "title"; "longitude"; "latitude"] r).
Proof.
  unfold finish, save_outcome, save. split.
  - intros ->. cbn [is_nil written console]. split; [reflexivity |].
    now rewrite last_last.
  - intros Hne. destruct out as [| row rest]; [contradiction |].
    cbn [is_nil].
    destruct (DataFrame_of_rows (row :: rest) _) as [d | ex] eqn:Hdf.
    + destruct (to_csv_ok e "bank_location.csv" d) eqn:Hcsv;
        cbn [written console resultset]; rewrite last_last.
      * left. exists d. auto.
      * right. split; [| auto]. intros d' Hd'. rewrite Hdf in Hd'.
        inversion Hd'; subst. exact Hcsv.
    + right. cbn [written console resultset]. rewrite last_last.
      split; [| auto]. intros d' Hd'. rewrite Hdf in Hd'. discriminate.
Qed.

End BankLoop.

(** X11. [main] of [geocoding_bank.py], once the key is read, searches
    every bank of its list: the request for page 1 of each of the six banks
    is issued whatever the searches of the other banks met.  It requests
    nothing but pages of these banks with the key read, and every row of
    its result set is [bank, title, x, y] for a bank of the list and a
    title that, in upper case, does not contain "ATM". *)
Theorem every_bank_is_searched {rt : PyRuntime}
    (remote : list exchange -> request -> response) (e : env) (key : string) :
  read_text e "key.txt" = Some key ->
  let r := GeocodingBank.main remote e in
  (forall bank, In bank GeocodingBank.bank_list ->
     In (SearchReq key bank 1) (requests r)) /\
  (forall req, In req (requests r) ->
     exists bank page,
       In bank GeocodingBank.bank_list /\ req = SearchReq key bank page) /\
  (forall row, In row (resultset r) ->
     exists bank s x y,
       In bank GeocodingBank.bank_list /\ row = [PStr bank; PStr s; x; y] /\
       contains "ATM" (str_upper s) = false).
Proof.
  intros Hkey. unfold GeocodingBank.main. rewrite Hkey.
  destruct (GeocodingBank.bank_loop remote key GeocodingBank.bank_list [] [])
    as [out h] eqn:Hrun.
  apply bank_loop_trace in Hrun.
  destruct Hrun as (new & -> & Hfirst & Hform & Hrows).
  cbn zeta. destruct (finish_requests e ([] ++ new) [] out) as [-> ->].
  cbn [app]. split; [exact Hfirst |]. split; [exact Hform |].
  intros row Hin. destruct (Hrows row Hin) as [[] | H]. exact H.
Qed.

Lemma every_bank_is_searched_witness :
  read_text desk "key.txt" = Some "key" /\
  forall bank, In bank GeocodingBank.bank_list ->
    In (SearchReq "key" bank 1)
       (requests (@GeocodingBank.main reference_runtime
                    down_after_first_page desk)).
Proof.
  split; [reflexivity |].
  exact (proj1 (@every_bank_is_searched reference_runtime
                  down_after_first_page desk "key" eq_refl)).
Defined.

(** X12. [main] of [geocoding_bank.py] writes [bank_location.csv] only when
    it collected at least one row: with no row (also when the key could not
    be read) it writes nothing and ends on the report of an empty result;
    with rows, either the frame of the rows under the columns [bank],
    [title], [longitude], [latitude] is written and reported, or building
    or writing it fails, which is reported and leaves no file. *)
Theorem bank_file_needs_rows {rt : PyRuntime}
    (remote : list exchange -> request -> response) (e : env) :
  let r := GeocodingBank.main remote e in
  (resultset r = [] ->
   written r = None /\ last (console r) SaveError = EmptyResult) /\
  (resultset r <> [] ->
   save_outcome e "bank_location.csv"
     ["bank"; "title"; "longitude"; "latitude"] r).
Proof.
  unfold GeocodingBank.main.
  destruct (read_text e "key.txt") as [key |].
  - destruct (GeocodingBank.bank_loop remote key GeocodingBank.bank_list [] [])
      as [out h].
    cbn zeta. destruct (finish_requests e h [] out) as [_ Hres].
    rewrite Hres. apply finish_outcome.
  - cbn zeta. destruct (finish_requests e [] [KeyUnreadable; QueryFailed] [])
      as [_ Hres].
    rewrite Hres. apply finish_outcome.
Qed.

Lemma bank_file_needs_rows_witness :
  let r := @GeocodingBank.main reference_runtime
             (always (status_response "NOT_FOUND")) desk in
  resultset r = [] /\
  (written r = None /\ last (console r) SaveError = EmptyResult).
Proof.
  intros r. split; [reflexivity |].
  exact (proj1 (@bank_file_needs_rows reference_runtime
                  (always (status_response "NOT_FOUND")) desk) eq_refl).
Defined.

(** ** public_api.py, further *)

Section KioskRanges.

Context {rt : PyRuntime}.
Variable remote : list exchange -> request -> response.

Import PublicApi.

Lemma lacks_service_outcome (r : response) :
  lacks_service r -> kiosk_outcome r = None.
Proof.
  intros (d & -> & Hkey). unfold kiosk_outcome, read_rows. simpl.
  now rewrite Hkey.
Qed.

(** The requests of the loop: the ranges follow each other from the
    current one on, one request per turn. *)
Lemma kiosk_loop_requests (key : string) :
  forall (fuel i : nat) (acc : list pyval) (h : list exchange),
    let run := kiosk_loop remote fuel key (1 + page_size * Z.of_nat i) acc h in
    exists n,
      (n <= fuel)%nat /\
      map fst (snd run) = map fst h ++ map (kiosk_request key) (seq i n) /\
      (fst run = None -> n = fuel) /\
      (fst run <> None -> (1 <= n)%nat).
Proof.
  induction fuel as [| m IH]; intros i acc h.
  - exists 0%nat. simpl. rewrite app_nil_r. repeat split; auto.
    intros H. now contradiction H.
  - cbn zeta. rewrite kiosk_loop_unfold. cbn zeta.
    replace (1 + page_size * Z.of_nat i + page_size - 1)
      with (page_size * (Z.of_nat i + 1)) by (unfold page_size; lia).
    fold (kiosk_request key i).
    destruct (kiosk_outcome (remote h (kiosk_request key i))) as [l |].
    + replace (1 + page_size * Z.of_nat i + page_size)
        with (1 + page_size * Z.of_nat (S i)) by (unfold page_size; lia).
      destruct (IH (S i) (acc ++ l)
                  (h ++ [(kiosk_request key i, remote h (kiosk_request key i))]))
        as (n & Hn & Hreqs & Hnone & Hsome).
      exists (S n). split; [lia |]. split; [| split].
      * unfold exchange in *. rewrite Hreqs, map_app, <- app_assoc. reflexivity.
      * intros H. f_equal. now apply Hnone.
      * intros _. lia.
    + exists 1%nat. split; [lia |]. split; [| split].
      * cbn [snd seq map]. unfold exchange. now rewrite map_app.
      * discriminate.
      * intros _. lia.
Qed.

Lemma kiosk_loop_endless (key : string) :
  (forall h req, exists l, kiosk_outcome (remote h req) = Some l) ->
  forall (fuel : nat) (start_index : Z) (acc : list pyval) (h : list exchange),
    fst (kiosk_loop remote fuel key start_index acc h) = None.
Proof.
  intros Hserved. induction fuel as [| m IH]; intros start_index acc h.
  - reflexivity.
  - rewrite kiosk_loop_unfold. cbn zeta.
    destruct (Hserved h (OpenDataReq key start_index
                           (start_index + page_size - 1))) as (l & ->).
    apply IH.
Qed.

End KioskRanges.

(** X13. Whatever the remote side answers, [fetch_all_kiosk_data] asks for
    the row ranges 1-1000, 1001-2000, ... in this order, one request per
    turn of its loop, without a gap, an overlap or a repetition; it issues
    at least one request before it returns. *)
Theorem row_ranges_follow_each_other
    (remote : list exchange -> request -> response) (fuel : nat)
    (key : string) (h : list exchange) :
  let run := PublicApi.fetch_all_kiosk_data remote fuel key h in
  exists n,
    (n <= fuel)%nat /\
    map fst (snd run) = map fst h ++ map (kiosk_request key) (seq 0 n) /\
    (fst run = None -> n = fuel) /\
    (fst run <> None -> (1 <= n)%nat) /\
    forall i, kiosk_request key i =
              OpenDataReq key (1000 * Z.of_nat i + 1) (1000 * Z.of_nat i + 1000).
Proof.
  cbn zeta. unfold PublicApi.fetch_all_kiosk_data.
  destruct (kiosk_loop_requests remote key fuel 0 [] h)
    as (n & Hn & Hreqs & Hnone & Hsome).
  exists n. repeat split; try assumption.
  intros i. unfold kiosk_request, PublicApi.page_size. f_equal; lia.
Qed.

(** X14. A response whose body is a dict without the [TbKioskInfo] key (the
    answer of the service when a range holds no data, or an error report)
    ends [fetch_all_kiosk_data]: it is the last exchange, and the rows of
    the ranges before it are returned. *)
Theorem missing_service_key_ends_harvest
    (remote : list exchange -> request -> response) (fuel : nat)
    (key : string) (h h' : list exchange) (res : option (list pyval))
    (pre : list exchange) (x : exchange) (post : list exchange) :
  PublicApi.fetch_all_kiosk_data remote fuel key h = (res, h') ->
  h' = h ++ pre ++ x :: post ->
  lacks_service (snd x) ->
  post = [] /\ res = Some (flat_map kiosk_rows pre).
Proof.
  intros Hrun Hsplit Hlacks.
  apply kiosk_loop_trace in Hrun. destruct Hrun as (new & Hh & Hlast & _).
  rewrite Hh in Hsplit. apply app_inv_head in Hsplit.
  apply (Hlast pre x post Hsplit (lacks_service_outcome (snd x) Hlacks)).
Qed.

Lemma missing_service_key_ends_harvest_witness :
  let rows := [kiosk_row 1 "시청" "세종대로 110"; kiosk_row 2 "구청" "창경궁로 17"] in
  let x1 := (kiosk_request "key" 0, Body (kiosk_page rows)) in
  let x2 := (kiosk_request "key" 1,
             Body (result_body "INFO-200" "해당하는 데이터가 없습니다.")) in
  PublicApi.fetch_all_kiosk_data two_kiosks_then_info 9 "key" [] =
    (Some rows, [x1; x2]) /\
  lacks_service (snd x2) /\
  (@nil exchange = [] /\ Some rows = Some (flat_map kiosk_rows [x1])).
Proof.
  intros rows x1 x2.
  assert (Hrun : PublicApi.fetch_all_kiosk_data two_kiosks_then_info 9 "key" []
                 = (Some rows, [x1; x2])) by reflexivity.
  assert (Hlacks : lacks_service (snd x2)).
  { eexists. split; reflexivity. }
  split; [exact Hrun |]. split; [exact Hlacks |].
  exact (missing_service_key_ends_harvest two_kiosks_then_info 9 "key" []
           [x1; x2] (Some rows) [x1] x2 [] Hrun eq_refl Hlacks).
Defined.

(** X15. [fetch_all_kiosk_data] has no bound of its own on the number of
    ranges: against a service that answers every request with rows the loop
    never returns, however many turns it is given, and [main] never gets to
    write a file. *)
Theorem harvest_runs_as_long_as_rows_come {rt : PyRuntime}
    (remote : list exchange -> request -> response) (e : env)
    (key : string) (h : list exchange) :
  (forall h' req, exists l, kiosk_outcome (remote h' req) = Some l) ->
  forall fuel,
    fst (PublicApi.fetch_all_kiosk_data remote fuel key h) = None /\
    List.length (snd (PublicApi.fetch_all_kiosk_data remote fuel key h)) =
      (List.length h + fuel)%nat /\
    (read_text e "public_key.txt" = Some key ->
     PublicApi.main remote fuel e = None).
Proof.
  intros Hserved fuel.
  pose proof (kiosk_loop_endless remote key Hserved fuel 1 []) as Hnone.
  split; [apply Hnone |]. split.
  - destruct (kiosk_loop_requests remote key fuel 0 [] h)
      as (n & _ & Hreqs & Hfull & _).
    cbn zeta in Hreqs, Hfull. specialize (Hfull (Hnone h)). subst n.
    apply (f_equal (@List.length request)) in Hreqs.
    rewrite length_app, !length_map, length_seq in Hreqs. exact Hreqs.
  - intros Hkey. unfold PublicApi.main. rewrite Hkey.
    specialize (Hnone []). unfold PublicApi.fetch_all_kiosk_data.
    destruct (PublicApi.kiosk_loop remote fuel key 1 [] []) as [[rows |] h'];
      [discriminate | reflexivity].
Qed.

Lemma harvest_runs_as_long_as_rows_come_witness :
  (forall h' req, exists l, kiosk_outcome (endless h' req) = Some l) /\
  fst (PublicApi.fetch_all_kiosk_data endless 25 "key" []) = None /\
  List.length (snd (PublicApi.fetch_all_kiosk_data endless 25 "key" [])) =
    (List.length (@nil exchange) + 25)%nat.
Proof.
  assert (Hserved : forall h' req,
            exists l, kiosk_outcome (endless h' req) = Some l).
  { intros h' req. eexists. reflexivity. }
  split; [exact Hserved |].
  destruct (@harvest_runs_as_long_as_rows_come reference_runtime endless desk
              "key" [] Hserved 25) as (H1 & H2 & _).
  split; [exact H1 | exact H2].
Defined.

Lemma available_columns_required (df : dataframe) :
  incl (available_columns df) PublicApi.required_columns /\
  NoDup (available_columns df) /\
  forall col, In col (available_columns df) ->
    existsb (fun l => is_str l col) (df_columns df) = true.
Proof.
  unfold available_columns. split; [| split].
  - intros col Hin. apply filter_In in Hin. tauto.
  - apply NoDup_filter. unfold PublicApi.required_columns.
    repeat constructor; simpl; intuition discriminate.
  - intros col Hin. apply filter_In in Hin. tauto.
Qed.

(** X16. Whatever [main] of [public_api.py] writes, it writes to
    [seoul_kiosk_list.csv] after a harvest that collected rows, and the
    frame written has only columns among [MGTNO], [OPNSFTEAMNM], [KIOSKNM]
    and [ESBPLCADDR]: those of the four that occur in the frame built from
    the rows, each once and at least one, with one cell per such column in
    every line and one line per line of that frame. *)
Theorem written_columns_are_required_ones {rt : PyRuntime}
    (remote : list exchange -> request -> response) (fuel : nat) (e : env)
    (r : run pyval) (file : string) (d : dataframe) :
  PublicApi.main remote fuel e = Some r ->
  written r = Some (file, d) ->
  file = "seoul_kiosk_list.csv" /\
  resultset r <> [] /\
  console r = [Saved file] /\
  exists df,
    DataFrame_of_records (resultset r) = Ok df /\
    d = select_columns df (available_columns df) /\
    available_columns df <> [] /\
    df_columns d = map PStr (available_columns df) /\
    incl (available_columns df) PublicApi.required_columns /\
    NoDup (available_columns df) /\
    List.length (df_rows d) = List.length (df_rows df) /\
    Forall (fun row => List.length row = List.length (available_columns df))
           (df_rows d).
Proof.
  unfold PublicApi.main. intros Hmain Hw.
  destruct (read_text e "public_key.txt") as [key |].
  2:{ inversion Hmain; subst. discriminate. }
  destruct (PublicApi.fetch_all_kiosk_data remote fuel key [])
    as [[rows |] h]; [| discriminate].
  inversion Hmain; subst r. clear Hmain.
  unfold PublicApi.export in *.
  destruct rows as [| row rest]; [discriminate |]. cbn [is_nil] in *.
  destruct (DataFrame_of_records (row :: rest)) as [df | ex] eqn:Hdf;
    [| discriminate].
  fold (available_columns df) in *.
  destruct (available_columns df) as [| c cs] eqn:Hcols; [discriminate |].
  cbn [is_nil] in *. rewrite <- Hcols in *.
  destruct (to_csv_ok e "seoul_kiosk_list.csv" _); [| discriminate].
  cbn [written resultset console] in *. inversion Hw; subst file d.
  destruct (available_columns_required df) as (Hincl & Hnodup & _).
  split; [reflexivity |]. split; [discriminate |]. split; [reflexivity |].
  exists df. rewrite Hdf. repeat split; try assumption.
  - rewrite Hcols. discriminate.
  - unfold select_columns. cbn [df_rows]. apply length_map.
  - unfold select_columns. cbn [df_rows]. apply Forall_forall.
    intros line Hin. apply in_map_iff in Hin. destruct Hin as (src & <- & _).
    apply length_map.
Qed.

Lemma written_columns_are_required_ones_witness :
  exists r d,
    @PublicApi.main reference_runtime two_kiosks 5 desk = Some r /\
    written r = Some ("seoul_kiosk_list.csv", d) /\
    df_columns d =
      map PStr ["MGTNO"; "OPNSFTEAMNM"; "KIOSKNM"; "ESBPLCADDR"] /\
    console r = [Saved "seoul_kiosk_list.csv"].
Proof.
  destruct (@PublicApi.main reference_runtime two_kiosks 5 desk)
    as [r |] eqn:Hmain; [| discriminate].
  destruct (written r) as [[file d] |] eqn:Hw.
  2:{ vm_compute in Hmain. inversion Hmain; subst r. discriminate. }
  destruct (@written_columns_are_required_ones reference_runtime two_kiosks
              5 desk r file d Hmain Hw) as (-> & _ & Hc & _).
  exists r, d. split; [reflexivity |]. split; [exact Hw |].
  split; [| exact Hc].
  vm_compute in Hmain. inversion Hmain; subst r.
  inversion Hw; subst d. reflexivity.
Defined.

(** X17. When the very first range meets a failure or a body without rows,
    [main] of [public_api.py] ends after that single request: it reports an
    empty result and writes no file. *)
Theorem empty_harvest_writes_nothing {rt : PyRuntime}
    (remote : list exchange -> request -> response) (fuel : nat) (e : env)
    (key : string) :
  read_text e "public_key.txt" = Some key ->
  kiosk_outcome (remote [] (kiosk_request key 0)) = None ->
  PublicApi.main remote (S fuel) e =
    Some {| requests := [kiosk_request key 0];
            console := [EmptyResult];
            resultset := [];
            written := None |}.
Proof.
  intros Hkey Hnone. unfold PublicApi.main, PublicApi.fetch_all_kiosk_data.
  rewrite Hkey, kiosk_loop_unfold. cbn zeta.
  change (OpenDataReq key 1 (1 + PublicApi.page_size - 1))
    with (kiosk_request key 0).
  rewrite Hnone. reflexivity.
Qed.

Lemma empty_harvest_writes_nothing_witness :
  read_text desk "public_key.txt" = Some "key" /\
  kiosk_outcome (down_after_first_page [] (kiosk_request "key" 0)) = None /\
  @PublicApi.main reference_runtime down_after_first_page 1 desk =
    Some {| requests := [kiosk_request "key" 0];
            console := [EmptyResult];
            resultset := [];
            written := None |}.
Proof.
  split; [reflexivity |]. split; [reflexivity |].
  exact (@empty_harvest_writes_nothing reference_runtime down_after_first_page
           0 desk "key" eq_refl eq_refl).
Defined.

(** ** kiosk_crawler.py, further *)

Section CrawlerFrames.

Context {rt : PyRuntime}.

Import KioskCrawler.

Lemma cell_at_assign (name : string) (v : pyval) :
  forall (labels row : list pyval),
    existsb (fun l => is_str l name) labels = true ->
    List.length row = List.length labels ->
    cell_at labels (assign labels row name v) name = v.
Proof.
  induction labels as [| l ls IH]; intros row Hex Hlen; [discriminate |].
  destruct row as [| c cs]; [discriminate |].
  cbn [assign cell_at]. cbn [existsb] in Hex.
  destruct (is_str l name) eqn:Hl; [reflexivity |].
  apply IH; [exact Hex | simpl in Hlen; lia].
Qed.

Lemma cell_at_append (name : string) (v : pyval) :
  forall (labels row : list pyval),
    existsb (fun l => is_str l name) labels = false ->
    List.length row = List.length labels ->
    cell_at (labels ++ [PStr name]) (row ++ [v]) name = v.
Proof.
  induction labels as [| l ls IH]; intros row Hex Hlen.
  - destruct row; [| discriminate]. simpl. now rewrite String.eqb_refl.
  - destruct row as [| c cs]; [discriminate |].
    cbn [existsb] in Hex. apply orb_false_iff in Hex. destruct Hex as [Hl Hls].
    cbn [app cell_at]. rewrite Hl. apply IH; [exact Hls | simpl in Hlen; lia].
Qed.

Lemma set_column_cells (df : dataframe) (name : string) (v : pyval) :
  Forall (fun row => List.length row = List.length (df_columns df))
         (df_rows df) ->
  Forall (fun row => cell_at (df_columns (set_column df name v)) row name = v)
         (df_rows (set_column df name v)).
Proof.
  intros Hrect. unfold set_column.
  destruct (existsb (fun l => is_str l name) (df_columns df)) eqn:Hex;
    cbn [df_columns df_rows]; apply Forall_forall; intros row Hin;
    apply in_map_iff in Hin; destruct Hin as (src & <- & Hsrc);
    rewrite Forall_forall in Hrect; specialize (Hrect src Hsrc).
  - now apply cell_at_assign.
  - now apply cell_at_append.
Qed.

Lemma set_column_rows (df : dataframe) (name : string) (v : pyval) :
  List.length (df_rows (set_column df name v)) = List.length (df_rows df).
Proof.
  unfold set_column.
  destruct (existsb _ _); cbn [df_rows]; apply length_map.
Qed.

Lemma all_dfs_in (site : Z -> site_reply) (order : list Z) (df : dataframe) :
  In df (all_dfs (main site order)) <->
  exists page,
    In page order /\ extract_page site page = Some df /\ df_rows df <> [].
Proof.
  unfold main. cbn [all_dfs]. rewrite in_flat_map. split.
  - intros (page & Hin & Hdf). exists page. split; [exact Hin |].
    destruct (extract_page site page) as [d |]; [| contradiction].
    destruct (df_rows d) eqn:Hrows; [contradiction |].
    destruct Hdf as [<- | []]. split; [reflexivity |]. congruence.
  - intros (page & Hin & Hpage & Hrows). exists page. split; [exact Hin |].
    rewrite Hpage. destruct (df_rows df); [contradiction | now left].
Qed.

End CrawlerFrames.

(** X18. [main] of the crawler collects exactly the frames of the completed
    pages that yielded a frame with at least one row: nothing of a failed or
    empty page, and nothing twice that was fetched once.  The order in
    which the fetches complete only permutes what is collected, and no more
    frames are collected than fetches completed. *)
Theorem crawler_collects_nonempty_frames {rt : PyRuntime}
    (site : Z -> KioskCrawler.site_reply) (order : list Z) :
  (forall df,
     In df (KioskCrawler.all_dfs (KioskCrawler.main site order)) <->
     exists page,
       In page order /\
       KioskCrawler.extract_page site page = Some df /\ df_rows df <> []) /\
  (List.length (KioskCrawler.all_dfs (KioskCrawler.main site order)) <=
     List.length order)%nat /\
  (forall order',
     Permutation order order' ->
     Permutation (KioskCrawler.all_dfs (KioskCrawler.main site order))
                 (KioskCrawler.all_dfs (KioskCrawler.main site order'))).
Proof.
  split; [| split].
  - intros df. apply all_dfs_in.
  - unfold KioskCrawler.main. cbn [KioskCrawler.all_dfs].
    induction order as [| page rest IH]; [simpl; lia |].
    cbn [flat_map]. rewrite length_app.
    destruct (KioskCrawler.extract_page site page) as [d |];
      [destruct (is_nil (df_rows d)) |]; simpl; lia.
  - intros order' Hperm. unfold KioskCrawler.main.
    cbn [KioskCrawler.all_dfs]. now apply Permutation_flat_map.
Qed.

Lemma crawler_collects_nonempty_frames_witness :
  Permutation [3; 2; 1] [1; 2; 3] /\
  Permutation
    (KioskCrawler.all_dfs (@KioskCrawler.main reference_runtime listing [3; 2; 1]))
    (KioskCrawler.all_dfs (@KioskCrawler.main reference_runtime listing [1; 2; 3])).
Proof.
  assert (Hperm : Permutation [3; 2; 1] [1; 2; 3]).
  { apply Permutation_sym. apply (Permutation_rev [1; 2; 3]). }
  split; [exact Hperm |].
  exact (proj2 (proj2 (@crawler_collects_nonempty_frames reference_runtime
                         listing [3; 2; 1])) [1; 2; 3] Hperm).
Defined.

(** X19. [extract_page] returns a frame only for an answer with status 200
    whose document has both a [thead] and a [tbody]; the frame has one line
    per line of the frame built from the table, and, that frame having one
    cell per column in every line, every line of the returned frame carries
    the index of its page under [page_index]. *)
Theorem extracted_frame_carries_page_index {rt : PyRuntime}
    (site : Z -> KioskCrawler.site_reply) (page_index : Z) (df : dataframe) :
  KioskCrawler.extract_page site page_index = Some df ->
  exists doc ths trs page_df,
    site page_index = KioskCrawler.SiteResponse 200 doc /\
    KioskCrawler.thead doc = Some ths /\
    KioskCrawler.tbody doc = Some trs /\
    DataFrame_of_rows (map (map PStr) trs) (map PStr ths) = Ok page_df /\
    List.length (df_rows df) = List.length (df_rows page_df) /\
    (Forall (fun row => List.length row = List.length (df_columns page_df))
            (df_rows page_df) ->
     Forall (fun row =>
               cell_at (df_columns df) row "page_index" = PInt page_index)
            (df_rows df)).
Proof.
  unfold KioskCrawler.extract_page. intros H.
  destruct (site page_index) as [e | code doc]; [discriminate |].
  destruct (code =? 200) eqn:Hcode; [| discriminate].
  apply Z.eqb_eq in Hcode. subst code. cbn [negb] in H.
  destruct (KioskCrawler.thead doc) as [ths |] eqn:Hth; [| discriminate].
  destruct (KioskCrawler.tbody doc) as [trs |] eqn:Htb; [| discriminate].
  destruct (DataFrame_of_rows _ _) as [page_df | ex] eqn:Hdf; [| discriminate].
  inversion H; subst df.
  exists doc, ths, trs, page_df. repeat split; try assumption.
  - apply set_column_rows.
  - apply set_column_cells.
Qed.

Lemma extracted_frame_carries_page_index_witness :
  exists df,
    @KioskCrawler.extract_page reference_runtime listing 7 = Some df /\
    Forall (fun row => cell_at (df_columns df) row "page_index" = PInt 7)
           (df_rows df).
Proof.
  destruct (@KioskCrawler.extract_page reference_runtime listing 7)
    as [df |] eqn:Hpage; [| discriminate].
  exists df. split; [reflexivity |].
  destruct (@extracted_frame_carries_page_index reference_runtime listing 7 df
              Hpage)
    as (doc & ths & trs & page_df & Hsite & Hth & Htb & Hdf & _ & Hcells).
  apply Hcells.
  inversion Hsite; subst doc. inversion Hth; subst ths.
  inversion Htb; subst trs. vm_compute in Hdf. inversion Hdf; subst page_df.
  repeat constructor.
Defined.

(** X20. Whatever the site answers and in whatever order the fetches
    complete, [main] of the crawler submits the pages 1 to 973, each exactly
    once, and no other page. *)
Theorem crawler_submits_each_page_once {rt : PyRuntime}
    (site : Z -> KioskCrawler.site_reply) (order : list Z) :
  let pages := KioskCrawler.submitted (KioskCrawler.main site order) in
  (forall page, In page pages <-> 1 <= page <= 973) /\
  NoDup pages /\
  List.length pages = 973%nat.
Proof.
  cbn zeta. cbn [KioskCrawler.submitted KioskCrawler.main].
  unfold KioskCrawler.page_range, KioskCrawler.start_page,
    KioskCrawler.end_page.
  change (Z.to_nat (973 + 1 - 1)) with 973%nat.
  split; [| split].
  - intros page. rewrite in_map_iff. split.
    + intros (i & <- & Hi). apply in_seq in Hi. lia.
    + intros Hpage. exists (Z.to_nat (page - 1)). split; [lia |].
      apply in_seq. lia.
  - apply Finite.Injective_map_NoDup; [| apply seq_NoDup].
    intros i j Hij. lia.
  - now rewrite length_map, length_seq.
Qed.

Section MalformedItem.

Context {rt : PyRuntime}.

Import GeocodingBank.

Lemma for_items_raise (before after : list pyval) (bad : pyval) (e : exn) :
  (forall item, In item before -> raises (filter_item item) = false) ->
  filter_item bad = Raise e ->
  forall acc,
    for_items (before ++ bad :: after) acc =
    (acc ++ flat_map row_of before, Some e).
Proof.
  intros Hclean Hbad. induction before as [| item rest IH]; intros acc.
  - simpl. rewrite Hbad. now rewrite app_nil_r.
  - assert (Hitem := Hclean item (or_introl eq_refl)).
    assert (Hrest : forall i, In i rest -> raises (filter_item i) = false)
      by (intros i Hi; apply Hclean; now right).
    cbn [app for_items flat_map]. unfold row_of at 1.
    destruct (filter_item item) as [[p | | |] | ex]; simpl in *;
      try discriminate; try now apply IH.
    rewrite (IH Hrest). now rewrite <- app_assoc.
Qed.

Lemma read_totals_page (st : loop_state) (data : pyval) :
  response_status data = Ok (PStr "OK") ->
  (current_page st = 1 ->
   exists total results,
     first_page_totals data = Ok (total, results) /\ results <> 0) ->
  exists total, read_totals st data = Ok (total, false).
Proof.
  intros _ Hfirst. unfold read_totals.
  destruct (current_page st =? 1) eqn:Hp; [| eauto].
  apply Z.eqb_eq in Hp. destruct (Hfirst Hp) as (total & results & -> & Hne).
  simpl. apply Z.eqb_neq in Hne. rewrite Hne. eauto.
Qed.

End MalformedItem.

(** X21. When an item of a page makes the filters raise (a title that is
    not a string, say), [search_place] stops there: the rows of the items
    before it on the page are kept, the items after it are not looked at,
    no further page is fetched, and what was collected is returned. *)
Theorem malformed_item_ends_search {rt : PyRuntime}
    (remote : list exchange -> request -> response) (key query : string)
    (h h' : list exchange) (out : list place)
    (pre post : list exchange) (page : Z) (data : pyval)
    (before after : list pyval) (bad : pyval) (e : exn) :
  GeocodingBank.search_place remote key query h = (out, h') ->
  h' = h ++ pre ++ (SearchReq key query page, Body data) :: post ->
  response_status data = Ok (PStr "OK") ->
  (page = 1 ->
   exists total results,
     GeocodingBank.first_page_totals data = Ok (total, results) /\
     results <> 0) ->
  GeocodingBank.page_items data = Ok (Items (before ++ bad :: after)) ->
  (forall item, In item before ->
     raises (GeocodingBank.filter_item item) = false) ->
  GeocodingBank.filter_item bad = Raise e ->
  post = [] /\
  out = flat_map contributed pre ++ flat_map row_of before.
Proof.
  intros Hrun Hsplit Hs Hfirst Hitems Hclean Hbad.
  destruct (search_place_pages remote key query h h' out Hrun)
    as (new & k & Hh & _ & _ & Hlast).
  destruct (search_place_trace remote key query h h' out Hrun)
    as (new' & Hh' & Hout & _).
  assert (new' = new) by (rewrite Hh in Hh'; now apply app_inv_head in Hh').
  subst new'. rewrite Hh in Hsplit. apply app_inv_head in Hsplit. subst new.
  assert (Hstops : page_stops (SearchReq key query page, Body data)).
  { intros st Hcur. unfold GeocodingBank.handle_page.
    rewrite Hs, is_str_refl. cbn [negb].
    destruct (read_totals_page st data Hs) as (total & ->).
    { intros H1. apply Hfirst. congruence. }
    rewrite Hitems, (for_items_raise before after bad e Hclean Hbad). eauto. }
  assert (post = []) by (eapply Hlast; [reflexivity | exact Hstops]).
  subst post. split; [reflexivity |].
  rewrite Hout, flat_map_app. cbn [flat_map contributed]. f_equal.
  rewrite app_nil_r. unfold page_rows. rewrite Hs, is_str_refl, Hitems.
  rewrite (for_items_raise before after bad e Hclean Hbad []). cbn [fst app].
  destruct (page =? 1) eqn:Hp; [| reflexivity].
  apply Z.eqb_eq in Hp. destruct (Hfirst Hp) as (total & results & -> & Hne).
  simpl. apply Z.eqb_neq in Hne. now rewrite Hne.
Qed.

Lemma malformed_item_ends_search_witness :
  let x := (SearchReq "key" "우리은행" 1, Body page_with_nameless) in
  let row := (PStr "Woori Bank Jongno", PStr "126.98", PStr "37.57") in
  @GeocodingBank.search_place reference_runtime (always page_with_nameless)
     "key" "우리은행" [] = ([row], [x]) /\
  @GeocodingBank.filter_item reference_runtime nameless = Raise AttributeError /\
  (@nil exchange = [] /\
   [row] = flat_map (@contributed reference_runtime) []
           ++ flat_map (@row_of reference_runtime) [branch_in_seoul]).
Proof.
  intros x row.
  assert (Hrun : @GeocodingBank.search_place reference_runtime
                   (always page_with_nameless) "key" "우리은행" [] =
                 ([row], [x])) by reflexivity.
  assert (Hbad : @GeocodingBank.filter_item reference_runtime nameless =
                 Raise AttributeError) by reflexivity.
  split; [exact Hrun |]. split; [exact Hbad |].
  apply (@malformed_item_ends_search reference_runtime
           (always page_with_nameless) "key" "우리은행" [] [x] [row] [] []
           1 page_with_nameless [branch_in_seoul] [branch_in_seoul] nameless
           AttributeError Hrun eq_refl eq_refl).
  - intros _. exists 2, 3. split; [reflexivity | discriminate].
  - reflexivity.
  - intros item [<- | []]. reflexivity.
  - exact Hbad.
Defined.

Lemma blank_cases (c : cell) :
  blank c = true <->
  c = CNone \/ c = CBool false \/ c = CInt 0 \/
  (exists s, c = CFloat (S754_zero s)) \/ c = CFloat S754_nan \/ c = CStr "".
Proof.
  split.
  - destruct c as [| b | z | f | s]; unfold blank, cell_truthy; simpl.
    + auto.
    + destruct b; [discriminate | auto].
    + destruct (z =? 0) eqn:Hz; [| discriminate].
      apply Z.eqb_eq in Hz. subst. auto.
    + destruct f; simpl; try discriminate; eauto 6.
    + destruct (s =? "")%string eqn:Hs; [| discriminate].
      apply String.eqb_eq in Hs. subst. auto 6.
  - intros [-> | [-> | [-> | [(s & ->) | [-> | ->]]]]]; reflexivity.
Qed.

(** X22. In both geocoding scripts [get_coordinate] issues no request
    exactly for the addresses that Python takes for false or pandas for
    missing: [None], NaN, the empty string, and also the numbers zero and
    [False]; every other address, any non-empty string among them, is sent
    to the remote side at least once. *)
Theorem request_issued_unless_blank
    (remote : list exchange -> request -> response) (crs : string)
    (get : string -> cell -> Net coords) (key : string) (address_query : cell)
    (h : list exchange) :
  geocoder remote crs get ->
  (snd (get key address_query h) = h <->
   address_query = CNone \/ address_query = CBool false \/
   address_query = CInt 0 \/
   (exists s, address_query = CFloat (S754_zero s)) \/
   address_query = CFloat S754_nan \/ address_query = CStr "").
Proof.
  intros Hg. rewrite (geocoder_unfold _ _ _ Hg), <- blank_cases.
  destruct (blank address_query) eqn:Hb.
  - rewrite (get_coordinate_blank remote crs key address_query h Hb).
    split; reflexivity.
  - rewrite (get_coordinate_unfold remote crs key address_query h Hb).
    cbn zeta. split; [| discriminate]. intros H. exfalso.
    destruct (classify (remote h _)); [| destruct (classify (remote _ _)) |];
      cbn [snd] in H; try rewrite <- app_assoc in H;
      symmetry in H; apply app_self_nil in H; discriminate.
Qed.

Lemma request_issued_unless_blank_witness :
  geocoder parcel_only "EPSG:5179" (GeocodingXY.get_coordinate parcel_only) /\
  snd (GeocodingXY.get_coordinate parcel_only "key" (CInt 0) []) = [] /\
  snd (GeocodingXY.get_coordinate parcel_only "key" city_hall []) <> [].
Proof.
  assert (Hg : geocoder parcel_only "EPSG:5179"
                 (GeocodingXY.get_coordinate parcel_only))
    by (left; split; reflexivity).
  split; [exact Hg |]. split.
  - apply (request_issued_unless_blank parcel_only "EPSG:5179" _ "key"
             (CInt 0) [] Hg). auto.
  - discriminate.
Defined.
